(** * Study Group Finder: the group assignment and rebalancing engine

    A shallow embedding of [Study_Group_Finder.py] (classes [WaitingList],
    [WaitingListNode], [Member], [MemberNode], [Groups], [GroupListNode],
    and the registries [Languages] and [Subjects]) and the properties of its
    waiting queues, rosters, directory and registries.

    Python objects live in stores: a [MemberNode] or [WaitingListNode] is
    named by its position in the store of its class, and a [next] field holds
    such a position or [None].  Two rosters may therefore share nodes, as they
    do in the program once [merge_members] has spliced one chain onto another.
    Loops that follow [next] fields take a step budget; a chain that closes on
    itself exhausts every budget, which is how the program's endless loop
    shows.  Marks are rationals, which is exact for the comparisons made on
    them.  Session ratings are Python numbers, an [int] or a binary64
    [float], with the rounding and the [OverflowError] of Python's
    arithmetic. *)

From Stdlib Require Import PrimFloat.
From Stdlib Require FloatOps SpecFloat.
From Stdlib Require Import ZArith QArith String Lia.
From stdpp Require Import base option list gmap strings.

Local Open Scope Z_scope.

(** ** Numbers *)

(** Python's [x < y] on marks. *)
Definition Qlt_bool (x y : Q) : bool := negb (Qle_bool y x).

(** A session rating is a Python number: an [int], of any size, or a
    [float], a binary64 number.  An operation that raises [OverflowError] in
    Python gives [None]. *)
Inductive PyNum :=
  | NumInt (z : Z)
  | NumFloat (f : float).

(** An int as a floating-point number with exponent 0 and a mantissa of any
    length, before rounding. *)
Definition int_SF (z : Z) : SpecFloat.spec_float :=
  match z with
  | Z0 => SpecFloat.S754_zero false
  | Zpos p => SpecFloat.S754_finite false p 0
  | Zneg p => SpecFloat.S754_finite true p 0
  end.

(** What Python makes of a float result that an int operation computed:
    past the largest float it raises. *)
Definition finite_or_raise (f : float) : option float :=
  if PrimFloat.is_infinity f then None else Some f.

(** [float(z)]: the nearest binary64 number, ties to even. *)
Definition float_of_int (z : Z) : option float :=
  finite_or_raise
    (FloatOps.SF2Prim
       (SpecFloat.binary_normalize FloatOps.prec FloatOps.emax z 0 false)).

(** [a / b] on ints, [b] not 0: the quotient rounded once, to the nearest
    binary64 number, ties to even. *)
Definition int_truediv (a b : Z) : option float :=
  finite_or_raise
    (FloatOps.SF2Prim
       (SpecFloat.SFdiv FloatOps.prec FloatOps.emax (int_SF a) (int_SF b))).

(** [x + y]: exact on two ints; otherwise an int operand is converted and
    the floats are added. *)
Definition num_add (x y : PyNum) : option PyNum :=
  match x, y with
  | NumInt a, NumInt b => Some (NumInt (a + b))
  | NumInt a, NumFloat g =>
      f ← float_of_int a; Some (NumFloat (PrimFloat.add f g))
  | NumFloat f, NumInt b =>
      g ← float_of_int b; Some (NumFloat (PrimFloat.add f g))
  | NumFloat f, NumFloat g => Some (NumFloat (PrimFloat.add f g))
  end.

(** [x / n] for an int [n] that is not 0. *)
Definition num_truediv (x : PyNum) (n : Z) : option float :=
  match x with
  | NumInt a => int_truediv a n
  | NumFloat f => g ← float_of_int n; Some (PrimFloat.div f g)
  end.

(** [x < 2]; a float is compared with the float 2, which is the int 2
    exactly. *)
Definition below_two (x : PyNum) : bool :=
  match x with
  | NumInt a => bool_decide (a < 2)
  | NumFloat f => PrimFloat.ltb f 2
  end.

(** ** Data *)

(** A position in a store of objects. *)
Definition addr := nat.

(** The three values the [label] attribute takes: "low", "mid", "high". *)
Inductive Label := low | mid | high.

#[global] Instance Label_eq_dec : EqDecision Label.
Proof. solve_decision. Defined.

(** The rule of [MemberNode.__init__] and [MemberNode.update_marks]. *)
Definition label_of (marks : Q) : Label :=
  if Qlt_bool marks 40 then low
  else if Qlt_bool marks 75 then mid
  else high.

Record MemberNode := mkMemberNode {
  m_name : string;
  m_marks : Q;
  m_preferred_language : string;
  m_student_id : Z;
  m_next : option addr;
  m_label : Label
}.

(** [MemberNode.__init__] *)
Definition MemberNode_init (name : string) (marks : Q)
    (preferred_language : string) (student_id : Z) : MemberNode :=
  {| m_name := name; m_marks := marks;
     m_preferred_language := preferred_language;
     m_student_id := student_id; m_next := None;
     m_label := label_of marks |}.

(** [MemberNode.update_marks] *)
Definition update_marks (self : MemberNode) (new_marks : Q) : MemberNode :=
  {| m_name := m_name self; m_marks := new_marks;
     m_preferred_language := m_preferred_language self;
     m_student_id := m_student_id self; m_next := m_next self;
     m_label := if Qlt_bool new_marks 40 then low
                else if Qlt_bool new_marks 75 then mid
                else high |}.

Definition set_m_next (n : MemberNode) (nx : option addr) : MemberNode :=
  {| m_name := m_name n; m_marks := m_marks n;
     m_preferred_language := m_preferred_language n;
     m_student_id := m_student_id n; m_next := nx;
     m_label := m_label n |}.

Record WaitingListNode := mkWaitingListNode {
  w_student_id : Z;
  w_name : string;
  w_marks : Q;
  w_preferred_language : string;
  w_next : option addr
}.

Definition set_w_next (n : WaitingListNode) (nx : option addr)
    : WaitingListNode :=
  {| w_student_id := w_student_id n; w_name := w_name n;
     w_marks := w_marks n;
     w_preferred_language := w_preferred_language n; w_next := nx |}.

(** [WaitingList]: the two pointers of the queue. *)
Record WaitingList := mkWaitingList {
  wl_head : option addr;
  wl_tail : option addr
}.

(** [Member]: the roster of one group. *)
Record Member := mkMember {
  head : option addr;
  number_of_members : Z;
  count_low : Z;
  count_mid : Z;
  count_high : Z
}.

(** [Member.__init__] *)
Definition Member_init : Member :=
  {| head := None; number_of_members := 0;
     count_low := 0; count_mid := 0; count_high := 0 |}.

(** [GroupListNode].  Its own [count_low], [count_mid], [count_high],
    [number_of_members] and [is_custom] attributes are written once by
    [__init__] and read nowhere; [next] is the order of [group_nodes]. *)
Record GroupListNode := mkGroupListNode {
  group_id : Z;
  member_list : Member;
  session_rating : list PyNum
}.

(** [GroupListNode.__init__] *)
Definition GroupListNode_init (gid : Z) : GroupListNode :=
  {| group_id := gid; member_list := Member_init; session_rating := [] |}.

Definition set_member_list (g : GroupListNode) (m : Member) : GroupListNode :=
  {| group_id := group_id g; member_list := m;
     session_rating := session_rating g |}.

(** The waiting list of a tier. *)
Definition tier := Label.

(** [Groups]: one directory, with the stores of the objects it reaches.
    [group_nodes] is the chain from [self.head] to [self.tail]; a group is
    named by its position in it. *)
Record Groups := mkGroups {
  language_value : string;
  no_of_groups : Z;
  waiting_list_low : WaitingList;
  waiting_list_mid : WaitingList;
  waiting_list_high : WaitingList;
  group_nodes : list GroupListNode;
  member_store : list MemberNode;
  waiting_store : list WaitingListNode
}.

Definition waiting_list (t : tier) (s : Groups) : WaitingList :=
  match t with
  | low => waiting_list_low s
  | mid => waiting_list_mid s
  | high => waiting_list_high s
  end.

Definition set_waiting_list (t : tier) (q : WaitingList) (s : Groups)
    : Groups :=
  {| language_value := language_value s; no_of_groups := no_of_groups s;
     waiting_list_low := match t with low => q | _ => waiting_list_low s end;
     waiting_list_mid := match t with mid => q | _ => waiting_list_mid s end;
     waiting_list_high :=
       match t with high => q | _ => waiting_list_high s end;
     group_nodes := group_nodes s; member_store := member_store s;
     waiting_store := waiting_store s |}.

Definition set_waiting_store (ws : list WaitingListNode) (s : Groups)
    : Groups :=
  {| language_value := language_value s; no_of_groups := no_of_groups s;
     waiting_list_low := waiting_list_low s;
     waiting_list_mid := waiting_list_mid s;
     waiting_list_high := waiting_list_high s;
     group_nodes := group_nodes s; member_store := member_store s;
     waiting_store := ws |}.

Definition set_member_store (ms : list MemberNode) (s : Groups) : Groups :=
  {| language_value := language_value s; no_of_groups := no_of_groups s;
     waiting_list_low := waiting_list_low s;
     waiting_list_mid := waiting_list_mid s;
     waiting_list_high := waiting_list_high s;
     group_nodes := group_nodes s; member_store := ms;
     waiting_store := waiting_store s |}.

Definition set_group_nodes (gs : list GroupListNode) (s : Groups) : Groups :=
  {| language_value := language_value s; no_of_groups := no_of_groups s;
     waiting_list_low := waiting_list_low s;
     waiting_list_mid := waiting_list_mid s;
     waiting_list_high := waiting_list_high s;
     group_nodes := gs; member_store := member_store s;
     waiting_store := waiting_store s |}.

Definition set_no_of_groups (n : Z) (s : Groups) : Groups :=
  {| language_value := language_value s; no_of_groups := n;
     waiting_list_low := waiting_list_low s;
     waiting_list_mid := waiting_list_mid s;
     waiting_list_high := waiting_list_high s;
     group_nodes := group_nodes s; member_store := member_store s;
     waiting_store := waiting_store s |}.

(** [Groups.__init__] *)
Definition Groups_init (language : string) : Groups :=
  {| language_value := language; no_of_groups := 0;
     waiting_list_low := mkWaitingList None None;
     waiting_list_mid := mkWaitingList None None;
     waiting_list_high := mkWaitingList None None;
     group_nodes := []; member_store := []; waiting_store := [] |}.

(** ** Running a method *)

Inductive exn := AttributeError | IndexError | ValueError | OverflowError.

(** What a call does to the directory: it returns [a], or raises, in both
    cases leaving a state behind; or its loops outlast the budget; or it
    follows a position that is in no store, which no Python state has. *)
Inductive outcome (A : Type) :=
  | Ok (a : A) (s : Groups)
  | Raise (e : exn) (s : Groups)
  | OutOfFuel
  | Stuck.
Arguments Ok {A} a s.
Arguments Raise {A} e s.
Arguments OutOfFuel {A}.
Arguments Stuck {A}.

Definition M (A : Type) : Type := Groups -> outcome A.

Definition ret {A} (a : A) : M A := fun s => Ok a s.

Definition bind {A B} (c : M A) (k : A -> M B) : M B :=
  fun s => match c s with
           | Ok a s' => k a s'
           | Raise e s' => Raise e s'
           | OutOfFuel => OutOfFuel
           | Stuck => Stuck
           end.

Notation "'let*' x ':=' c 'in' k" := (bind c (fun x => k))
  (at level 10, x pattern, c at level 100, k at level 200).
Notation "c ';;' k" := (bind c (fun _ => k))
  (at level 100, k at level 200, right associativity).

Arguments bind : simpl never.

Definition raise {A} (e : exn) : M A := fun s => Raise e s.
Definition out_of_fuel {A} : M A := fun _ => OutOfFuel.
Definition get : M Groups := fun s => Ok s s.
Definition modify (f : Groups -> Groups) : M unit := fun s => Ok tt (f s).

(** Reading an object of a store. *)
Definition member_at (a : addr) : M MemberNode :=
  fun s => match member_store s !! a with
           | Some n => Ok n s
           | None => Stuck
           end.

Definition waiting_at (a : addr) : M WaitingListNode :=
  fun s => match waiting_store s !! a with
           | Some n => Ok n s
           | None => Stuck
           end.

Definition group_at (gi : nat) : M GroupListNode :=
  fun s => match group_nodes s !! gi with
           | Some g => Ok g s
           | None => Stuck
           end.

Definition put_member_list (gi : nat) (m : Member) : M unit :=
  let* g := group_at gi in
  modify (fun s => set_group_nodes (<[gi := set_member_list g m]> (group_nodes s)) s).

Definition put_member_next (a : addr) (nx : option addr) : M unit :=
  let* n := member_at a in
  modify (fun s => set_member_store (<[a := set_m_next n nx]> (member_store s)) s).

Definition put_waiting_next (a : addr) (nx : option addr) : M unit :=
  let* n := waiting_at a in
  modify (fun s => set_waiting_store (<[a := set_w_next n nx]> (waiting_store s)) s).

(** ** WaitingList *)

(** [WaitingList.is_empty] *)
Definition WaitingList_is_empty (q : WaitingList) : bool :=
  match wl_head q with None => true | Some _ => false end.

(** [WaitingList.enqueue] on the queue of tier [t]. *)
Definition enqueue (t : tier) (student_id : Z) (name : string) (marks : Q)
    (preferred_language : string) : M unit :=
  let* s := get in
  let new_node := length (waiting_store s) in
  modify (set_waiting_store
            (waiting_store s ++
               [mkWaitingListNode student_id name marks preferred_language
                  None])) ;;
  let q := waiting_list t s in
  if WaitingList_is_empty q then
    modify (set_waiting_list t (mkWaitingList (Some new_node) (Some new_node)))
  else
    match wl_tail q with
    | None => raise AttributeError
    | Some tl =>
        put_waiting_next tl (Some new_node) ;;
        modify (set_waiting_list t (mkWaitingList (wl_head q) (Some new_node)))
    end.

(** [WaitingList.dequeue] on the queue of tier [t]: the node removed, or
    [None]. *)
Definition dequeue (t : tier) : M (option addr) :=
  let* s := get in
  let q := waiting_list t s in
  match wl_head q with
  | None => ret None
  | Some student =>
      let* n := waiting_at student in
      match w_next n with
      | None => modify (set_waiting_list t (mkWaitingList None None))
      | Some nx =>
          modify (set_waiting_list t (mkWaitingList (Some nx) (wl_tail q)))
      end ;;
      ret (Some student)
  end.

(** ** Member *)

(** [Member.is_empty] *)
Definition Member_is_empty (m : Member) : bool :=
  match head m with None => true | Some _ => false end.

(** The loop [while current.next: current = current.next] from [a]. *)
Fixpoint last_node (fuel : nat) (a : addr) : M addr :=
  match fuel with
  | O => out_of_fuel
  | S fuel' =>
      let* n := member_at a in
      match m_next n with
      | None => ret a
      | Some b => last_node fuel' b
      end
  end.

(** The counter updates at the end of [Member.add_member]. *)
Definition count_added (lb : Label) (m : Member) (hd : option addr)
    : Member :=
  {| head := hd;
     number_of_members := number_of_members m + 1;
     count_low := match lb with low => count_low m + 1 | _ => count_low m end;
     count_mid := match lb with mid => count_mid m + 1 | _ => count_mid m end;
     count_high :=
       match lb with high => count_high m + 1 | _ => count_high m end |}.

(** [Member.add_member] on the roster of group [gi]. *)
Definition add_member (fuel : nat) (gi : nat) (name : string) (marks : Q)
    (preferred_language : string) (student_id : Z) : M bool :=
  let new_member := MemberNode_init name marks preferred_language student_id in
  let* s := get in
  let new_addr := length (member_store s) in
  modify (set_member_store (member_store s ++ [new_member])) ;;
  let* g := group_at gi in
  let m := member_list g in
  match head m with
  | None => put_member_list gi (count_added (m_label new_member) m (Some new_addr))
  | Some hd =>
      let* current := last_node fuel hd in
      put_member_next current (Some new_addr) ;;
      put_member_list gi (count_added (m_label new_member) m (head m))
  end ;;
  ret true.

(** The counter updates of [Member.delete_member]. *)
Definition count_removed (lb : Label) (m : Member) (hd : option addr)
    : Member :=
  {| head := hd;
     number_of_members := number_of_members m - 1;
     count_low := match lb with low => count_low m - 1 | _ => count_low m end;
     count_mid := match lb with mid => count_mid m - 1 | _ => count_mid m end;
     count_high :=
       match lb with high => count_high m - 1 | _ => count_high m end |}.

(** The loop of [Member.delete_member] past the head, [current] at [a]. *)
Fixpoint delete_after (fuel : nat) (gi : nat) (a : addr) (student_id : Z)
    : M bool :=
  match fuel with
  | O => out_of_fuel
  | S fuel' =>
      let* cur := member_at a in
      match m_next cur with
      | None => ret false
      | Some b =>
          let* nx := member_at b in
          if decide (m_student_id nx = student_id) then
            let* g := group_at gi in
            put_member_next a (m_next nx) ;;
            put_member_list gi
              (count_removed (m_label nx) (member_list g)
                 (head (member_list g))) ;;
            ret true
          else delete_after fuel' gi b student_id
      end
  end.

(** [Member.delete_member] on the roster of group [gi]. *)
Definition Member_delete_member (fuel : nat) (gi : nat) (student_id : Z)
    : M bool :=
  let* g := group_at gi in
  let m := member_list g in
  match head m with
  | None => ret false
  | Some hd =>
      let* h := member_at hd in
      if decide (m_student_id h = student_id) then
        put_member_list gi (count_removed (m_label h) m (m_next h)) ;;
        ret true
      else delete_after fuel gi hd student_id
  end.

(** The loop of [Member.search_member_id]. *)
Fixpoint search_from (fuel : nat) (cur : option addr) (member_id : Z)
    : M (option addr) :=
  match cur with
  | None => ret None
  | Some a =>
      match fuel with
      | O => out_of_fuel
      | S fuel' =>
          let* n := member_at a in
          if decide (m_student_id n = member_id) then ret (Some a)
          else search_from fuel' (m_next n) member_id
      end
  end.

(** [Member.search_member_id] on the roster of group [gi]. *)
Definition search_member_id (fuel : nat) (gi : nat) (member_id : Z)
    : M (option addr) :=
  let* g := group_at gi in
  search_from fuel (head (member_list g)) member_id.

(** The counting loop of [Member.merge_members]: [(h, m, l)]. *)
Fixpoint count_labels (fuel : nat) (cur : option addr) (h m l : Z)
    : M (Z * Z * Z) :=
  match cur with
  | None => ret (h, m, l)
  | Some a =>
      match fuel with
      | O => out_of_fuel
      | S fuel' =>
          let* n := member_at a in
          match m_label n with
          | high => count_labels fuel' (m_next n) (h + 1) m l
          | mid => count_labels fuel' (m_next n) h (m + 1) l
          | low => count_labels fuel' (m_next n) h m (l + 1)
          end
      end
  end.

(** [Member.merge_members]: the head of the merged chain, or [None]. *)
Definition merge_members (fuel : nat) (mem1 mem2 : option addr)
    : M (option addr) :=
  match mem1 with
  | None => raise AttributeError
  | Some current =>
      let* a := last_node fuel current in
      put_member_next a mem2 ;;
      let* hml := count_labels fuel (Some current) 0 0 0 in
      let '(h, m, l) := hml in
      if decide (h ≠ 2 ∨ m ≠ 3 ∨ l ≠ 2) then ret None
      else ret (Some current)
  end.

(** ** GroupListNode *)

(** The loop [for rating in self.session_rating: sum += rating]. *)
Fixpoint sum_ratings (sum : PyNum) (ratings : list PyNum) : option PyNum :=
  match ratings with
  | [] => Some sum
  | rating :: rest => sum' ← num_add sum rating; sum_ratings sum' rest
  end.

(** [GroupListNode.calc_avg_rating]; [None] is [OverflowError]. *)
Definition calc_avg_rating (g : GroupListNode) : option PyNum :=
  sum ← sum_ratings (NumInt 0) (session_rating g);
  match session_rating g with
  | [] => Some (NumInt 0)
  | _ =>
      NumFloat <$> num_truediv sum (Z.of_nat (length (session_rating g)))
  end.

(** [group.calc_avg_rating() < 2] *)
Definition avg_below_two (g : GroupListNode) : option bool :=
  below_two <$> calc_avg_rating g.

(** The same inside a method of the directory. *)
Definition rated_below_two (g : GroupListNode) : M bool :=
  match avg_below_two g with
  | Some b => ret b
  | None => raise OverflowError
  end.

(** ** Groups *)

(** [Groups.search_group_id]: the first group of the chain with this id. *)
Definition search_group_id (gid : Z) : M (option nat) :=
  fun s => Ok (fst <$> list_find (fun g => group_id g = gid) (group_nodes s)) s.

(** [Groups.add_new_group] *)
Definition add_new_group (gid : Z) : M nat :=
  let* s := get in
  let new_group := length (group_nodes s) in
  modify (set_group_nodes (group_nodes s ++ [GroupListNode_init gid])) ;;
  modify (set_no_of_groups (no_of_groups s + 1)) ;;
  ret new_group.

(** [Groups.remove_group] *)
Definition remove_group (gid : Z) : M bool :=
  let* found := search_group_id gid in
  match found with
  | Some gi => put_member_list gi Member_init ;; ret true
  | None => ret false
  end.

(** The loops of [reshuffle] that gather the nodes of a roster. *)
Fixpoint collect (fuel : nat) (cur : option addr) : M (list addr) :=
  match cur with
  | None => ret []
  | Some a =>
      match fuel with
      | O => out_of_fuel
      | S fuel' =>
          let* n := member_at a in
          let* rest := collect fuel' (m_next n) in
          ret (a :: rest)
      end
  end.

(** [counts] of [reshuffle], as (low, mid, high). *)
Definition counts_t : Type := Z * Z * Z.

(** One round of the [while True] loop of [reshuffle] for [member]. *)
Definition place (fuel : nat) (g1 g2 : nat) (member : addr) (counts : counts_t)
    : M counts_t :=
  let '(cl, cm, ch) := counts in
  let* n := member_at member in
  let add gi :=
    add_member fuel gi (m_name n) (m_marks n) (m_preferred_language n)
      (m_student_id n) in
  if bool_decide (m_label n = low) && bool_decide (cl < 2) then
    add g1 ;; ret (cl + 1, cm, ch)
  else if bool_decide (m_label n = mid) && bool_decide (cm < 3) then
    add g1 ;; ret (cl, cm + 1, ch)
  else if bool_decide (m_label n = high) && bool_decide (ch < 2) then
    add g1 ;; ret (cl, cm, ch + 1)
  else if bool_decide (m_label n = low) || bool_decide (cl >= 2) then
    add g2 ;; ret counts
  else if bool_decide (m_label n = mid) || bool_decide (cm >= 3) then
    add g2 ;; ret counts
  else if bool_decide (m_label n = high) || bool_decide (ch >= 2) then
    add g2 ;; ret counts
  else ret counts.

(** The [while True] loop of [reshuffle]; [pool] lists the members in the
    order [members.pop()] yields them. *)
Fixpoint distribute (fuel : nat) (g1 g2 : nat) (pool : list addr)
    (counts : counts_t) : M counts_t :=
  match pool with
  | [] => ret counts
  | member :: pool' =>
      let* counts' := place fuel g1 g2 member counts in
      distribute fuel g1 g2 pool' counts'
  end.

(** What [reshuffle] returns: [(group1, group2)] or [(False, None, None)]. *)
Inductive reshuffle_result :=
  | Reshuffled (group1 group2 : nat)
  | NotFound.

(** [Groups.reshuffle]; [shuffle] is the outcome of [random.shuffle]. *)
Definition reshuffle (shuffle : list addr -> list addr) (fuel : nat)
    (group1_id group2_id : Z) : M reshuffle_result :=
  let* group1 := search_group_id group1_id in
  let* group2 := search_group_id group2_id in
  match group1, group2 with
  | Some g1, Some g2 =>
      let* n1 := group_at g1 in
      let* l1 := collect fuel (head (member_list n1)) in
      let* n2 := group_at g2 in
      let* l2 := collect fuel (head (member_list n2)) in
      let members := shuffle (l1 ++ l2) in
      put_member_list g1 Member_init ;;
      put_member_list g2 Member_init ;;
      match rev members with
      | [] => raise IndexError
      | pool => distribute fuel g1 g2 pool (0, 0, 0) ;; ret (Reshuffled g1 g2)
      end
  | _, _ => ret NotFound
  end.

(** [Groups.merge_groups] *)
Definition merge_groups (fuel : nat) (group_id_1 group_id_2 : Z) : M bool :=
  let* group1 := search_group_id group_id_1 in
  let* group2 := search_group_id group_id_2 in
  match group1, group2 with
  | Some g1, Some g2 =>
      let* n1 := group_at g1 in
      let* n2 := group_at g2 in
      let* stu :=
        merge_members fuel (head (member_list n1)) (head (member_list n2)) in
      match stu with
      | Some hd =>
          let m := member_list n1 in
          put_member_list g1
            (mkMember (Some hd) (number_of_members m) (count_low m)
               (count_mid m) (count_high m)) ;;
          remove_group (group_id n2) ;;
          ret true
      | None => ret false
      end
  | _, _ => raise AttributeError
  end.

(** The loops of [create_new_group] that count a waiting list. *)
Fixpoint count_waiting (fuel : nat) (temp : option addr) (n : Z) : M Z :=
  match temp with
  | None => ret n
  | Some a =>
      match fuel with
      | O => out_of_fuel
      | S fuel' =>
          let* w := waiting_at a in
          count_waiting fuel' (w_next w) (n + 1)
      end
  end.

(** One round of a [for _ in range(k)] loop of [create_new_group]. *)
Definition seat (fuel : nat) (t : tier) (new_group : nat) : M unit :=
  let* student := dequeue t in
  match student with
  | None => raise AttributeError
  | Some a =>
      let* w := waiting_at a in
      add_member fuel new_group (w_name w) (w_marks w)
        (w_preferred_language w) (w_student_id w) ;;
      ret tt
  end.

Fixpoint seat_n (k : nat) (fuel : nat) (t : tier) (new_group : nat)
    : M unit :=
  match k with
  | O => ret tt
  | S k' => seat fuel t new_group ;; seat_n k' fuel t new_group
  end.

(** [Groups.create_new_group]: the group formed, or [None]. *)
Definition create_new_group (fuel : nat) : M (option nat) :=
  let* s := get in
  let* high_count := count_waiting fuel (wl_head (waiting_list_high s)) 0 in
  let* mid_count := count_waiting fuel (wl_head (waiting_list_mid s)) 0 in
  let* low_count := count_waiting fuel (wl_head (waiting_list_low s)) 0 in
  let empty_group :=
    fst <$> list_find (fun g => Member_is_empty (member_list g) = true)
              (group_nodes s) in
  if bool_decide (high_count >= 2) && bool_decide (mid_count >= 3)
     && bool_decide (low_count >= 2) then
    let* new_group :=
      match empty_group with
      | Some gi => ret gi
      | None => add_new_group (no_of_groups s + 1)
      end in
    seat_n 2 fuel high new_group ;;
    seat_n 3 fuel mid new_group ;;
    seat_n 2 fuel low new_group ;;
    let* g := group_at new_group in
    if bool_decide (number_of_members (member_list g) ≠ 7) then
      let* s' := get in
      modify (set_no_of_groups (no_of_groups s' - 1)) ;;
      ret None
    else ret (Some new_group)
  else ret None.

(** [Groups.classify_groups]: [(L1, L2)]. *)
Definition classify_groups : M (list nat * list nat) :=
  fun s =>
    let full gi :=
      match group_nodes s !! gi with
      | Some g => bool_decide (number_of_members (member_list g) = 7)
      | None => false
      end in
    let all := seq 0 (length (group_nodes s)) in
    Ok (filter (fun gi => full gi = true) all,
        filter (fun gi => full gi ≠ true) all) s.

(** The values [possible_merging] compares: an id and a group object. *)
Inductive PyVal := PyInt (z : Z) | PyGroup (gi : nat).

(** [==] on these: a number never equals an object of a class that defines
    no [__eq__]; two such objects are equal when they are the same object. *)
Definition py_eq (x y : PyVal) : bool :=
  match x, y with
  | PyInt a, PyInt b => bool_decide (a = b)
  | PyGroup i, PyGroup j => bool_decide (i = j)
  | _, _ => false
  end.

(** [x in li] *)
Definition py_in (x : PyVal) (li : list PyVal) : bool := existsb (py_eq x) li.

(** The inner loop of [possible_merging]: [curr] runs over the groups
    before [current]. *)
Fixpoint merging_inner (fuel : nat) (current_id : Z) (currs : list nat)
    : M unit :=
  match currs with
  | [] => ret tt
  | curr :: rest =>
      let* c := group_at curr in
      let m := member_list c in
      (if bool_decide ((count_high m + count_high m)
                       + (count_mid m + count_mid m)
                       + (count_low m + count_low m) = 7)
       then merge_groups fuel current_id (group_id c) ;; ret tt
       else ret tt) ;;
      merging_inner fuel current_id rest
  end.

Fixpoint merging_outer (fuel : nat) (li : list PyVal) (currents : list nat)
    : M unit :=
  match currents with
  | [] => ret tt
  | current :: rest =>
      let* g := group_at current in
      (if negb (py_in (PyInt (group_id g)) li)
       then merging_inner fuel (group_id g) (seq 0 current)
       else ret tt) ;;
      merging_outer fuel li rest
  end.

(** [Groups.possible_merging] *)
Definition possible_merging (fuel : nat) : M unit :=
  let* l := classify_groups in
  let li := PyGroup <$> snd l in
  let* s := get in
  merging_outer fuel li (seq 0 (length (group_nodes s))).

(** [Groups.delete_member] *)
Definition Groups_delete_member (fuel : nat) (gid member_id : Z) : M unit :=
  let* group := search_group_id gid in
  match group with
  | None => raise AttributeError
  | Some gi =>
      let* found := search_member_id fuel gi member_id in
      match found with
      | None => raise AttributeError
      | Some a =>
          let* n := member_at a in
          let* student := dequeue (m_label n) in
          match student with
          | Some sa =>
              let* w := waiting_at sa in
              add_member fuel gi (w_name w) (w_marks w)
                (w_preferred_language w) (w_student_id w) ;;
              ret tt
          | None => ret tt
          end ;;
          Member_delete_member fuel gi member_id ;;
          possible_merging fuel
      end
  end.

(** The first loop of [condition_checker], over [L1]; [L] is the list of
    groups to reshuffle. *)
Fixpoint check_full (L1 : list nat) (L : list nat) : M (list nat) :=
  match L1 with
  | [] => ret L
  | group :: rest =>
      let* g := group_at group in
      let m := member_list g in
      if bool_decide (count_high m ≠ 2 ∨ count_mid m ≠ 3 ∨ count_low m ≠ 2)
      then
        (let* below := rated_below_two g in
         if below
         then remove_group (group_id g) ;; ret tt
         else ret tt) ;;
        check_full rest L
      else
        let* below := rated_below_two g in
        if below
        then check_full rest (L ++ [group])
        else check_full rest L
  end.

(** [res = self.reshuffle(L[i].group_id, L[j].group_id)] followed by
    [L[i], L[j] = res]; a tuple is true whatever it holds. *)
Definition reshuffle_pair (shuffle : list addr -> list addr) (fuel : nat)
    (L : list nat) (i j : nat) : M (list nat) :=
  match L !! i, L !! j with
  | Some gi, Some gj =>
      let* a := group_at gi in
      let* b := group_at gj in
      let* res := reshuffle shuffle fuel (group_id a) (group_id b) in
      match res with
      | Reshuffled r1 r2 => ret (<[j := r2]> (<[i := r1]> L))
      | NotFound => raise ValueError
      end
  | _, _ => raise IndexError
  end.

(** The loop [for i in range(len(L)-1)] of [condition_checker]. *)
Fixpoint reshuffle_chain (shuffle : list addr -> list addr) (fuel : nat)
    (L : list nat) (idxs : list nat) : M (list nat) :=
  match idxs with
  | [] => ret L
  | i :: rest =>
      let* L' := reshuffle_pair shuffle fuel L i (i + 1)%nat in
      reshuffle_chain shuffle fuel L' rest
  end.

(** [Groups.condition_checker] *)
Definition condition_checker (shuffle : list addr -> list addr) (fuel : nat)
    : M unit :=
  let* _2d := classify_groups in
  let L1 := fst _2d in
  let* L := check_full L1 [] in
  let* L := reshuffle_chain shuffle fuel L (seq 0 (length L - 1)) in
  match L !! 0%nat, last L with
  | Some first, Some final =>
      (if bool_decide (first ≠ final) then
         reshuffle_pair shuffle fuel L (length L - 1)%nat 0%nat ;; ret tt
       else ret tt) ;;
      possible_merging fuel
  | _, _ => raise IndexError
  end.

(** ** Chains and what they hold *)

Section Chain.
Context {N : Type} (nxt : N -> option addr).

(** [chain st hd l]: following [nxt] from [hd] in the store [st] visits
    the positions [l] and then reaches [None]. *)
Inductive chain (st : list N) : option addr -> list addr -> Prop :=
  | chain_nil : chain st None []
  | chain_cons a n l :
      st !! a = Some n -> chain st (nxt n) l -> chain st (Some a) (a :: l).
End Chain.

(** The data of a student, as [enqueue] and [add_member] take them:
    id, name, marks, preferred language. *)
Definition student : Type := Z * string * Q * string.

Definition student_of (w : WaitingListNode) : student :=
  (w_student_id w, w_name w, w_marks w, w_preferred_language w).

Definition member_student (n : MemberNode) : student :=
  (m_student_id n, m_name n, m_marks n, m_preferred_language n).

Definition student_marks (x : student) : Q := x.1.2.

(** The queue [q] is a chain ending at its [tail]. *)
Definition is_queue (ws : list WaitingListNode) (q : WaitingList)
    (al : list addr) : Prop :=
  chain w_next ws (wl_head q) al /\ wl_tail q = last al.

(** The waiting list of tier [t] holds the students [l], oldest first. *)
Definition queue_holds (s : Groups) (t : tier) (l : list student) : Prop :=
  exists al, is_queue (waiting_store s) (waiting_list t s) al /\
    Forall2 (fun a x => student_of <$> waiting_store s !! a = Some x) al l.

(** [enqueue] and [dequeue] in terms of students. *)
Definition enqueue_student (t : tier) (x : student) : M unit :=
  let '(student_id, name, marks, preferred_language) := x in
  enqueue t student_id name marks preferred_language.

Definition dequeue_student (t : tier) : M (option student) :=
  let* r := dequeue t in
  match r with
  | None => ret None
  | Some a => let* w := waiting_at a in ret (Some (student_of w))
  end.

Fixpoint dequeue_n (k : nat) (t : tier) : M (list (option student)) :=
  match k with
  | O => ret []
  | S k' =>
      let* x := dequeue_student t in
      let* rest := dequeue_n k' t in
      ret (x :: rest)
  end.

(** The number of members of tier [lb] among the nodes [l]. *)
Definition tally (ms : list MemberNode) (lb : Label) (l : list addr) : Z :=
  Z.of_nat (length (filter (fun a => m_label <$> ms !! a = Some lb) l)).

(** The counters of a roster agree with its chain. *)
Definition roster_inv (ms : list MemberNode) (m : Member) : Prop :=
  exists l, chain m_next ms (head m) l /\
    count_low m = tally ms low l /\
    count_mid m = tally ms mid l /\
    count_high m = tally ms high l /\
    number_of_members m = count_low m + count_mid m + count_high m.

(** A group whose roster is empty has the counters of a new roster. *)
Definition vacant_clean (s : Groups) : Prop :=
  Forall (fun g => head (member_list g) = None -> member_list g = Member_init)
    (group_nodes s).

(** The roster of group [gi] is the chain [al], and no node on it has the id
    [member_id]. *)
Definition roster_lacks (s : Groups) (gi : nat) (member_id : Z)
    (al : list addr) : Prop :=
  exists g, group_nodes s !! gi = Some g /\
    chain m_next (member_store s) (head (member_list g)) al /\
    Forall (fun a => forall n, member_store s !! a = Some n ->
                               m_student_id n ≠ member_id) al.

(** The node at [a] is the student [x], labelled by the marks. *)
Definition node_holds (ms : list MemberNode) (a : addr) (x : student)
    : Prop :=
  exists n, ms !! a = Some n /\ member_student n = x /\
    m_label n = label_of (student_marks x).

(** The roster of group [gi] is a chain that holds the students [l], in
    roster order. *)
Definition roster_holds (s : Groups) (gi : nat) (l : list student) : Prop :=
  exists g al, group_nodes s !! gi = Some g /\
    chain m_next (member_store s) (head (member_list g)) al /\
    Forall2 (node_holds (member_store s)) al l.

(** The number of students of tier [lb] in [l]. *)
Definition tier_count (lb : Label) (l : list student) : Z :=
  Z.of_nat (length (filter (fun x => label_of (student_marks x) = lb) l)).

(** The counters of group [gi] read (low, mid, high) and their sum. *)
Definition counters (s : Groups) (gi : nat) : option (Z * Z * Z * Z) :=
  (fun g => let m := member_list g in
            (count_low m, count_mid m, count_high m, number_of_members m))
    <$> group_nodes s !! gi.

(** The store [ms'] is [ms] with the node [x] created and linked behind
    the chain [l]: old nodes keep their data, and keep their [next] unless
    they end [l]. *)
Definition linked (ms : list MemberNode) (l : list addr) (x : MemberNode)
    (ms' : list MemberNode) : Prop :=
  length ms' = S (length ms) /\
  ms' !! length ms = Some x /\
  (forall a n, ms !! a = Some n ->
     exists nx, ms' !! a = Some (set_m_next n nx)) /\
  (forall a n, ms !! a = Some n -> last l ≠ Some a -> ms' !! a = Some n).

(** What the three waiting lists hold, by tier. *)
Definition queues : Type := tier -> list student.

Definition q_upd (qs : queues) (t : tier) (l : list student) : queues :=
  fun t' => if decide (t' = t) then l else qs t'.

(** Counters that read [c0] (low, mid, high and their sum) and have then
    counted the students [l]. *)
Definition counted_from (c0 : Z * Z * Z * Z) (l : list student)
    : Z * Z * Z * Z :=
  let '(cl, cm, ch, n) := c0 in
  (cl + tier_count low l, cm + tier_count mid l, ch + tier_count high l,
   n + Z.of_nat (length l)).

(** The state while [create_new_group] fills group [gi], whose counters read
    [c0] when it was picked: the waiting lists hold [qs], the roster holds [l]
    and the counters have counted [l] on top of [c0]. *)
Definition filling (c0 : Z * Z * Z * Z) (gi : nat) (s : Groups) (qs : queues)
    (l : list student) : Prop :=
  (forall t, queue_holds s t (qs t)) /\
  roster_holds s gi l /\
  counters s gi = Some (counted_from c0 l).

(** The state while [reshuffle] deals the pool out: the rosters of [g1]
    and [g2] are chains with no node in common that hold [l1] and [l2],
    and the counters of [g1] have counted [l1]. *)
Definition dealing (g1 g2 : nat) (s : Groups) (l1 l2 : list student)
    : Prop :=
  exists a1 a2 c1 c2,
    group_nodes s !! g1 = Some a1 /\ group_nodes s !! g2 = Some a2 /\
    chain m_next (member_store s) (head (member_list a1)) c1 /\
    chain m_next (member_store s) (head (member_list a2)) c2 /\
    Forall2 (node_holds (member_store s)) c1 l1 /\
    Forall2 (node_holds (member_store s)) c2 l2 /\
    (forall a, a ∈ c1 -> a ∉ c2) /\
    counters s g1
    = Some (tier_count low l1, tier_count mid l1, tier_count high l1,
            Z.of_nat (length l1)).

(** [counts] of [reshuffle] while [l1] went to the first group and [l2] to
    the second: it has counted [l1], no tier is over its quota, and the second
    group has no student of a tier whose quota is still open. *)
Definition quota_inv (counts : counts_t) (l1 l2 : list student) : Prop :=
  let '(cl, cm, ch) := counts in
  cl = tier_count low l1 /\ cm = tier_count mid l1 /\
  ch = tier_count high l1 /\
  cl <= 2 /\ cm <= 3 /\ ch <= 2 /\
  (cl < 2 -> tier_count low l2 = 0) /\
  (cm < 3 -> tier_count mid l2 = 0) /\
  (ch < 2 -> tier_count high l2 = 0).

(** The id of a student. *)
Definition student_id_of (x : student) : Z := x.1.1.1.

(** Counters (low, mid, high, members) after [d] members of tier [lb] more. *)
Definition counted (lb : Label) (d : Z) (c : Z * Z * Z * Z) : Z * Z * Z * Z :=
  let '(cl, cm, ch, n) := c in
  (match lb with low => cl + d | _ => cl end,
   match lb with mid => cm + d | _ => cm end,
   match lb with high => ch + d | _ => ch end,
   n + d).

(** The counters that agree with a roster holding [l]. *)
Definition counters_of (l : list student) : Z * Z * Z * Z :=
  (tier_count low l, tier_count mid l, tier_count high l,
   Z.of_nat (length l)).

(** The store [ms'] has the nodes of [ms] with their data; only [next]
    fields may differ. *)
Definition relinked (ms ms' : list MemberNode) : Prop :=
  length ms' = length ms /\
  forall a n, ms !! a = Some n -> exists nx, ms' !! a = Some (set_m_next n nx).

(** The rosters of [g1] and [g2] are chains with no node in common that
    hold [l1] and [l2]. *)
Definition rosters_apart (s : Groups) (g1 g2 : nat) (l1 l2 : list student)
    : Prop :=
  exists n1 n2 c1 c2,
    group_nodes s !! g1 = Some n1 /\ group_nodes s !! g2 = Some n2 /\
    chain m_next (member_store s) (head (member_list n1)) c1 /\
    chain m_next (member_store s) (head (member_list n2)) c2 /\
    Forall2 (node_holds (member_store s)) c1 l1 /\
    Forall2 (node_holds (member_store s)) c2 l2 /\
    (forall a, a ∈ c1 -> a ∉ c2).

(** The rosters of [g1] and [g2] are non-empty chains, and the last node of
    the first is on the second. *)
Definition rosters_share_tail (s : Groups) (g1 g2 : nat) : Prop :=
  exists n1 n2 c1 c2 tl,
    group_nodes s !! g1 = Some n1 /\ group_nodes s !! g2 = Some n2 /\
    chain m_next (member_store s) (head (member_list n1)) c1 /\
    chain m_next (member_store s) (head (member_list n2)) c2 /\
    last c1 = Some tl /\ tl ∈ c2.

(** The composition [merge_members] accepts. *)
Definition valid_composition (l : list student) : Prop :=
  tier_count high l = 2 /\ tier_count mid l = 3 /\ tier_count low l = 2.

#[global] Instance valid_composition_dec l : Decision (valid_composition l).
Proof. unfold valid_composition. apply _. Defined.

(** What [create_new_group] and the roster methods never write: the id and
    the session ratings of a group. *)
Definition group_meta (g : GroupListNode) : Z * list PyNum :=
  (group_id g, session_rating g).

(** The test of [create_new_group] for a group to reuse. *)
Definition vacant (g : GroupListNode) : Prop :=
  Member_is_empty (member_list g) = true.

(** The group at [gi] is one [condition_checker] puts on its list [L]: its
    counters read 7 members, 2 high, 3 mid and 2 low, and its average rating
    is below 2. *)
Definition to_reshuffle (s : Groups) (gi : nat) : Prop :=
  match group_nodes s !! gi with
  | Some g =>
      number_of_members (member_list g) = 7 /\
      count_high (member_list g) = 2 /\ count_mid (member_list g) = 3 /\
      count_low (member_list g) = 2 /\
      avg_below_two g = Some true
  | None => False
  end.

#[global] Instance to_reshuffle_dec s gi : Decision (to_reshuffle s gi).
Proof. unfold to_reshuffle. destruct (group_nodes s !! gi); apply _. Defined.

(** The group at [gi] is one [condition_checker] removes: its counters read
    7 members, not 2 high, 3 mid and 2 low, and its average rating is below
    2. *)
Definition to_remove (s : Groups) (gi : nat) : Prop :=
  match group_nodes s !! gi with
  | Some g =>
      number_of_members (member_list g) = 7 /\
      (count_high (member_list g) ≠ 2 \/ count_mid (member_list g) ≠ 3 \/
       count_low (member_list g) ≠ 2) /\
      avg_below_two g = Some true
  | None => False
  end.

(** The average rating of every group can be computed. *)
Definition ratings_ok (s : Groups) : Prop :=
  Forall (fun g => is_Some (calc_avg_rating g)) (group_nodes s).

(** The list [L] of [condition_checker] when it removes nothing. *)
Definition worklist (s : Groups) : list nat :=
  filter (to_reshuffle s) (seq 0 (length (group_nodes s))).

(** The driver's [stu = group.member_list.search_member_id(member_id)]
    followed by [stu.update_marks(new_marks)]: the node found is updated in
    place; [None] has no such method. *)
Definition update_member_marks (fuel gi : nat) (member_id : Z)
    (new_marks : Q) : M unit :=
  let* stu := search_member_id fuel gi member_id in
  match stu with
  | None => raise AttributeError
  | Some a =>
      let* n := member_at a in
      modify (fun s =>
        set_member_store (<[a := update_marks n new_marks]> (member_store s))
          s)
  end.

(** The student [x] with other marks. *)
Definition with_marks (x : student) (new_marks : Q) : student :=
  (x.1.1.1, x.1.1.2, new_marks, x.2).

#[global] Instance to_remove_dec s gi : Decision (to_remove s gi).
Proof. unfold to_remove. destruct (group_nodes s !! gi); apply _. Defined.

(** The directory once the first loop of [condition_checker] is through: the
    groups it removes have an empty roster and zero counters. *)
Definition swept (s : Groups) : Groups :=
  set_group_nodes
    (imap (fun gi g => if decide (to_remove s gi)
                       then set_member_list g Member_init else g)
       (group_nodes s))
    s.

(** The call [c] creates [n] member nodes, whenever it returns. *)
Definition creates (n : nat) {A} (c : M A) : Prop :=
  forall s r s', c s = Ok r s' ->
    length (member_store s') = (length (member_store s) + n)%nat.

(** The call [c] leaves the ids and the session ratings of the groups as
    they were, whenever it returns. *)
Definition keeps_meta {A} (c : M A) : Prop :=
  forall s r s', c s = Ok r s' ->
    group_meta <$> group_nodes s' = group_meta <$> group_nodes s.

(** ** Reading a roster *)

(** The students on the chain from [cur], in order. *)
Fixpoint students_from (fuel : nat) (cur : option addr) : M (list student) :=
  match cur with
  | None => ret []
  | Some a =>
      match fuel with
      | O => out_of_fuel
      | S fuel' =>
          let* n := member_at a in
          let* rest := students_from fuel' (m_next n) in
          ret (member_student n :: rest)
      end
  end.

(** The roster of group [gi], as [display_members] lists it. *)
Definition roster (fuel : nat) (gi : nat) : M (list student) :=
  let* g := group_at gi in
  students_from fuel (head (member_list g)).

(** ** States of the driver's scenario *)

(** The state a run leaves behind. *)
Definition exec {A} (c : M A) (s : Groups) : Groups :=
  match c s with
  | Ok _ s' => s'
  | Raise _ s' => s'
  | _ => s
  end.

(** The high waiting list with one student in it. *)
Definition fifo_state : Groups :=
  set_waiting_list high (mkWaitingList (Some 0%nat) (Some 0%nat))
    (set_waiting_store [mkWaitingListNode 1 "Amanda" 85 "English" None]
       (Groups_init "English")).

Definition Amanda : student := (1, "Amanda"%string, 85%Q, "English"%string).
Definition Bethany : student := (2, "Bethany"%string, 90%Q, "English"%string).
Definition Deborah : student := (4, "Deborah"%string, 65%Q, "English"%string).
Definition Emma : student := (5, "Emma"%string, 70%Q, "English"%string).
Definition Yogini : student := (6, "Yogini"%string, 45%Q, "English"%string).
Definition Fathima : student := (7, "Fathima"%string, 30%Q, "English"%string).
Definition Geetha : student := (8, "Geetha"%string, 30%Q, "English"%string).
Definition Hannah : student := (9, "Hannah"%string, 30%Q, "English"%string).
Definition Devika : student := (10, "Devika"%string, 90%Q, "English"%string).
Definition Alex : student := (11, "Alex"%string, 85%Q, "English"%string).
Definition Sarah : student := (12, "Sarah"%string, 70%Q, "English"%string).
Definition Michael : student := (13, "Michael"%string, 60%Q, "English"%string).
Definition Ignacio : student := (14, "Ignacio"%string, 60%Q, "English"%string).
Definition Bartholomew : student :=
  (17, "Bartholomew"%string, 30%Q, "English"%string).

(** Two high, three mid and two low students wait. *)
Definition waiting_seven : Groups :=
  Eval vm_compute in
    exec (enqueue_student high Amanda ;; enqueue_student high Bethany ;;
          enqueue_student mid Deborah ;; enqueue_student mid Emma ;;
          enqueue_student mid Yogini ;;
          enqueue_student low Fathima ;; enqueue_student low Geetha)
      (Groups_init "English").

(** Two high, five mid and two low students wait. *)
Definition waiting_nine : Groups :=
  Eval vm_compute in
    exec (enqueue_student high Amanda ;; enqueue_student high Bethany ;;
          enqueue_student mid Deborah ;; enqueue_student mid Emma ;;
          enqueue_student mid Yogini ;; enqueue_student mid Sarah ;;
          enqueue_student mid Michael ;;
          enqueue_student low Fathima ;; enqueue_student low Geetha)
      (Groups_init "English").

(** One high, five mid and two low students wait. *)
Definition waiting_short : Groups :=
  Eval vm_compute in
    exec (enqueue_student high Amanda ;;
          enqueue_student mid Deborah ;; enqueue_student mid Emma ;;
          enqueue_student mid Yogini ;; enqueue_student mid Sarah ;;
          enqueue_student mid Michael ;;
          enqueue_student low Fathima ;; enqueue_student low Geetha)
      (Groups_init "English").

(** Groups 1 and 2 of the driver, both formed by [create_new_group]. *)
Definition two_groups : Groups :=
  Eval vm_compute in
    exec (enqueue_student high Devika ;; enqueue_student high Alex ;;
          enqueue_student mid Sarah ;; enqueue_student mid Michael ;;
          enqueue_student mid Ignacio ;;
          enqueue_student low Hannah ;; enqueue_student low Bartholomew ;;
          create_new_group 7)
      (exec (create_new_group 7) waiting_seven).

(** The driver after its seven calls of [Member.delete_member]: group 1
    keeps 5, 6, 7, 8 and group 2 keeps 10, 11, 12. *)
Definition after_departures : Groups :=
  Eval vm_compute in
    exec (Member_delete_member 7 0 1 ;; Member_delete_member 7 0 2 ;;
          Member_delete_member 7 0 4 ;;
          Member_delete_member 7 1 13 ;; Member_delete_member 7 1 14 ;;
          Member_delete_member 7 1 9 ;; Member_delete_member 7 1 17)
      two_groups.

(** The same with Sarah (12) gone from group 2 as well. *)
Definition after_more_departures : Groups :=
  Eval vm_compute in exec (Member_delete_member 7 1 12) after_departures.

(** [after_departures] once group 2 is merged into group 1 and the seven
    members of group 1 have then left: group 1 has an empty roster, and its
    counters, which the merge left at 4 members, read 0 low, -1 mid, -2 high
    and -3 members. *)
Definition after_merge_emptied : Groups :=
  Eval vm_compute in
    exec (merge_groups 7 1 2 ;;
          Member_delete_member 7 0 5 ;; Member_delete_member 7 0 6 ;;
          Member_delete_member 7 0 7 ;; Member_delete_member 7 0 8 ;;
          Member_delete_member 7 0 10 ;; Member_delete_member 7 0 11 ;;
          Member_delete_member 7 0 12)
      after_departures.

(** The same with the seven students waiting whom the driver enqueues after
    its merge: two high, three mid and two low. *)
Definition emptied_with_seven : Groups :=
  Eval vm_compute in
    exec (enqueue_student high Amanda ;; enqueue_student high Bethany ;;
          enqueue_student mid Deborah ;; enqueue_student low Hannah ;;
          enqueue_student mid Michael ;; enqueue_student mid Ignacio ;;
          enqueue_student low Bartholomew)
      after_merge_emptied.

(** The two groups of [two_groups], each with good session ratings. *)
Definition well_rated : Groups :=
  Eval vm_compute in
    set_group_nodes
      ((fun g => mkGroupListNode (group_id g) (member_list g)
                  [NumInt 3; NumInt 4])
         <$> group_nodes two_groups)
      two_groups.

(** [after_departures] with Deborah waiting in the mid list. *)
Definition with_waiting : Groups :=
  Eval vm_compute in exec (enqueue_student mid Deborah) after_departures.


(** [well_rated] where the ratings of the first group are 1.5, 3.1, 1.1
    and 2.3 as floats: they add up to just under 8, so their average is
    below 2. *)
Definition one_low_rated : Groups :=
  Eval vm_compute in
    set_group_nodes
      (alter (fun g => mkGroupListNode (group_id g) (member_list g)
                         [NumFloat 1.5; NumFloat 0x1.8cccccccccccdp+1;
                          NumFloat 0x1.199999999999ap+0;
                          NumFloat 0x1.2666666666666p+1])
         0%nat (group_nodes well_rated))
      well_rated.

(** [two_groups] with both groups rated below 2. *)
Definition both_low_rated : Groups :=
  Eval vm_compute in
    set_group_nodes
      ((fun g => mkGroupListNode (group_id g) (member_list g)
                  [NumInt 1; NumFloat 1.5])
         <$> group_nodes two_groups)
      two_groups.

(** A group of three high, two mid and two low students, put together with
    [add_member]; it has no session rating yet. *)
Definition odd_group : Groups :=
  Eval vm_compute in
    exec (add_new_group 1 ;;
          add_member 7 0 "Amanda" 85 "English" 1 ;;
          add_member 7 0 "Bethany" 90 "English" 2 ;;
          add_member 7 0 "Devika" 90 "English" 10 ;;
          add_member 7 0 "Deborah" 65 "English" 4 ;;
          add_member 7 0 "Emma" 70 "English" 5 ;;
          add_member 7 0 "Fathima" 30 "English" 7 ;;
          add_member 7 0 "Geetha" 30 "English" 8)
      (Groups_init "English").

(** ** The registries: Languages and Subjects *)

(** Both classes keep their keys in a table of buckets, [None] until the
    first key lands there, and their values in a dict.  A key is a string of
    characters with codes below 256; table sizes are counts.  A dict holds
    its [Groups] or [Languages] as a value: [get_or_default] hands out the
    entry as it stands, and what a caller then does to it is the caller's
    state, not followed here. *)
Abbreviation table := (list (option (list string))).

(** What a registry method can raise: [hash_function] on a table of size 0,
    [self.table[index]] past the end of the table (Python's [IndexError]),
    and a dict asked for a key it lacks. *)
Inductive reg_exn := ZeroDivisionError | TableIndexError | KeyError.

(** What a registry method does: it returns or raises, leaving a state. *)
Inductive reg_outcome (S A : Type) :=
  | RDone (a : A) (s : S)
  | RFail (e : reg_exn) (s : S).
Arguments RDone {S A} a s.
Arguments RFail {S A} e s.

(** [sum(ord(c) for c in key)] *)
Fixpoint ord_sum (key : string) : nat :=
  match key with
  | EmptyString => 0
  | String c rest => Ascii.nat_of_ascii c + ord_sum rest
  end.

(** [hash_function] of both classes: the sum modulo the size, or
    [ZeroDivisionError]. *)
Definition hash_of (size : nat) (key : string) : option nat :=
  if decide (size = 0%nat) then None else Some (ord_sum key mod size)%nat.

(** [bucket and key in bucket] for a slot of the table. *)
Definition slot_has (slot : option (list string)) (key : string) : bool :=
  match slot with
  | Some ((_ :: _) as bucket) => bool_decide (key ∈ bucket)
  | _ => false
  end.

(** [bucket is not None and key in bucket] *)
Definition slot_holds (slot : option (list string)) (key : string) : bool :=
  match slot with
  | Some bucket => bool_decide (key ∈ bucket)
  | None => false
  end.

(** [bucket.remove(key)]: the first occurrence goes. *)
Fixpoint remove_first (key : string) (bucket : list string) : list string :=
  match bucket with
  | [] => []
  | x :: rest => if decide (x = key) then rest else x :: remove_first key rest
  end.

(** The loop of [display_all_languages] and [display_all_subjects]. *)
Fixpoint display_table (tbl : table) : list string :=
  match tbl with
  | [] => []
  | Some ((_ :: _) as bucket) :: rest => bucket ++ display_table rest
  | _ :: rest => display_table rest
  end.

(** [if self.table[index] is None: self.table[index] = []], then the
    bucket. *)
Definition open_slot (tbl : table) (index : nat)
    (slot : option (list string)) : table * list string :=
  match slot with
  | None => (<[index := Some []]> tbl, [])
  | Some bucket => (tbl, bucket)
  end.

(** *** Languages *)

Record Languages := mkLanguages {
  l_size : nat;
  l_table : table;
  language_map : gmap string Groups
}.

(** [Languages.__init__] *)
Definition Languages_init (size : nat) : Languages :=
  {| l_size := size; l_table := replicate size None; language_map := ∅ |}.

(** [Languages.hash_function] *)
Definition Languages_hash_function (self : Languages) (key : string)
    : option nat :=
  hash_of (l_size self) key.

(** [Languages.add_language] *)
Definition add_language (language : string) (self : Languages)
    : reg_outcome Languages bool :=
  match Languages_hash_function self language with
  | None => RFail ZeroDivisionError self
  | Some index =>
      match l_table self !! index with
      | None => RFail TableIndexError self
      | Some slot =>
          let '(tbl, bucket) := open_slot (l_table self) index slot in
          if bool_decide (language ∈ bucket) then
            RDone false (mkLanguages (l_size self) tbl (language_map self))
          else
            RDone true
              (mkLanguages (l_size self)
                 (<[index := Some (bucket ++ [language])]> tbl)
                 (<[language := Groups_init language]> (language_map self)))
      end
  end.

(** [Languages.remove_language] *)
Definition remove_language (language : string) (self : Languages)
    : reg_outcome Languages bool :=
  match Languages_hash_function self language with
  | None => RFail ZeroDivisionError self
  | Some index =>
      match l_table self !! index with
      | None => RFail TableIndexError self
      | Some slot =>
          if slot_has slot language then
            let tbl :=
              <[index := remove_first language <$> slot]> (l_table self) in
            match language_map self !! language with
            | None =>
                RFail KeyError
                  (mkLanguages (l_size self) tbl (language_map self))
            | Some _ =>
                RDone true
                  (mkLanguages (l_size self) tbl
                     (delete language (language_map self)))
            end
          else RDone false self
      end
  end.

(** [Languages.display_all_languages] *)
Definition display_all_languages (self : Languages) : list string :=
  display_table (l_table self).

(** [Languages.check_language_exists] *)
Definition check_language_exists (language : string) (self : Languages)
    : reg_outcome Languages bool :=
  match Languages_hash_function self language with
  | None => RFail ZeroDivisionError self
  | Some index =>
      match l_table self !! index with
      | None => RFail TableIndexError self
      | Some slot => RDone (slot_holds slot language) self
      end
  end.

(** [Languages.is_empty] *)
Definition Languages_is_empty (self : Languages) : bool :=
  forallb (fun slot => match slot with
                       | None => true
                       | Some bucket => bool_decide (length bucket = 0%nat)
                       end) (l_table self).

(** [Languages.get_or_default] *)
Definition Languages_get_or_default (language : string)
    (default : option Groups) (self : Languages)
    : reg_outcome Languages (option Groups) :=
  match Languages_hash_function self language with
  | None => RFail ZeroDivisionError self
  | Some index =>
      match l_table self !! index with
      | None => RFail TableIndexError self
      | Some slot =>
          if slot_has slot language then
            match language_map self !! language with
            | None => RFail KeyError self
            | Some groups => RDone (Some groups) self
            end
          else RDone default self
      end
  end.

(** *** Subjects *)

Record Subjects := mkSubjects {
  s_size : nat;
  s_table : table;
  number_of_subjects : Z;
  subject_list : gmap string Languages
}.

(** [Subjects.__init__] *)
Definition Subjects_init (size : nat) : Subjects :=
  {| s_size := size; s_table := replicate size None;
     number_of_subjects := 0; subject_list := ∅ |}.

(** [Subjects.hash_function]; [str(key)] of a string is the string. *)
Definition Subjects_hash_function (self : Subjects) (key : string)
    : option nat :=
  hash_of (s_size self) key.

(** [Subjects.add_new_subject]; [Languages()] has the default size 8. *)
Definition add_new_subject (course_code : string) (self : Subjects)
    : reg_outcome Subjects bool :=
  match Subjects_hash_function self course_code with
  | None => RFail ZeroDivisionError self
  | Some index =>
      match s_table self !! index with
      | None => RFail TableIndexError self
      | Some slot =>
          let '(tbl, bucket) := open_slot (s_table self) index slot in
          if bool_decide (course_code ∈ bucket) then
            RDone false
              (mkSubjects (s_size self) tbl (number_of_subjects self)
                 (subject_list self))
          else
            RDone true
              (mkSubjects (s_size self)
                 (<[index := Some (bucket ++ [course_code])]> tbl)
                 (number_of_subjects self + 1)
                 (<[course_code := Languages_init 8]> (subject_list self)))
      end
  end.

(** [Subjects.remove_subject] *)
Definition remove_subject (course_code : string) (self : Subjects)
    : reg_outcome Subjects bool :=
  match Subjects_hash_function self course_code with
  | None => RFail ZeroDivisionError self
  | Some index =>
      match s_table self !! index with
      | None => RFail TableIndexError self
      | Some slot =>
          if slot_has slot course_code then
            let tbl :=
              <[index := remove_first course_code <$> slot]> (s_table self) in
            match subject_list self !! course_code with
            | None =>
                RFail KeyError
                  (mkSubjects (s_size self) tbl (number_of_subjects self)
                     (subject_list self))
            | Some _ =>
                RDone true
                  (mkSubjects (s_size self) tbl (number_of_subjects self - 1)
                     (delete course_code (subject_list self)))
            end
          else RDone false self
      end
  end.

(** [Subjects.display_all_subjects] *)
Definition display_all_subjects (self : Subjects) : list string :=
  display_table (s_table self).

(** [Subjects.check_subject_exists] *)
Definition check_subject_exists (course_code : string) (self : Subjects)
    : reg_outcome Subjects bool :=
  match Subjects_hash_function self course_code with
  | None => RFail ZeroDivisionError self
  | Some index =>
      match s_table self !! index with
      | None => RFail TableIndexError self
      | Some slot => RDone (slot_holds slot course_code) self
      end
  end.

(** [Subjects.is_empty] *)
Definition Subjects_is_empty (self : Subjects) : bool :=
  bool_decide (number_of_subjects self = 0).

(** [Subjects.get_or_default] *)
Definition Subjects_get_or_default (course_code : string)
    (default : option Languages) (self : Subjects)
    : reg_outcome Subjects (option Languages) :=
  match Subjects_hash_function self course_code with
  | None => RFail ZeroDivisionError self
  | Some index =>
      match s_table self !! index with
      | None => RFail TableIndexError self
      | Some slot =>
          if slot_has slot course_code then
            match subject_list self !! course_code with
            | None => RFail KeyError self
            | Some languages => RDone (Some languages) self
            end
          else RDone default self
      end
  end.

(** [Subjects.update_course_code] *)
Definition update_course_code (old_code new_code : string) (self : Subjects)
    : reg_outcome Subjects bool :=
  match check_subject_exists old_code self with
  | RFail e s => RFail e s
  | RDone false s => RDone false s
  | RDone true _ =>
      match check_subject_exists new_code self with
      | RFail e s => RFail e s
      | RDone true s => RDone false s
      | RDone false _ =>
          match subject_list self !! old_code with
          | None => RFail KeyError self
          | Some languages =>
              match remove_subject old_code self with
              | RFail e s => RFail e s
              | RDone _ s1 =>
                  match Subjects_hash_function s1 new_code with
                  | None => RFail ZeroDivisionError s1
                  | Some index =>
                      match s_table s1 !! index with
                      | None => RFail TableIndexError s1
                      | Some slot =>
                          let '(tbl, bucket) :=
                            open_slot (s_table s1) index slot in
                          RDone true
                            (mkSubjects (s_size s1)
                               (<[index := Some (bucket ++ [new_code])]> tbl)
                               (number_of_subjects s1 + 1)
                               (<[new_code := languages]> (subject_list s1)))
                      end
                  end
              end
          end
      end
  end.

(** *** Runs of requests *)

(** What the driver asks of a registry of languages, one request after the
    other; a raise ends the run. *)
Inductive language_op :=
  | AddLanguage (language : string)
  | RemoveLanguage (language : string).

Definition language_step (op : language_op) (self : Languages)
    : reg_outcome Languages bool :=
  match op with
  | AddLanguage language => add_language language self
  | RemoveLanguage language => remove_language language self
  end.

Fixpoint language_run (ops : list language_op) (self : Languages)
    : reg_outcome Languages unit :=
  match ops with
  | [] => RDone tt self
  | op :: rest =>
      match language_step op self with
      | RDone _ self' => language_run rest self'
      | RFail e self' => RFail e self'
      end
  end.

Inductive subject_op :=
  | AddSubject (course_code : string)
  | RemoveSubject (course_code : string)
  | UpdateCode (old_code new_code : string).

Definition subject_step (op : subject_op) (self : Subjects)
    : reg_outcome Subjects bool :=
  match op with
  | AddSubject course_code => add_new_subject course_code self
  | RemoveSubject course_code => remove_subject course_code self
  | UpdateCode old_code new_code => update_course_code old_code new_code self
  end.

Fixpoint subject_run (ops : list subject_op) (self : Subjects)
    : reg_outcome Subjects unit :=
  match ops with
  | [] => RDone tt self
  | op :: rest =>
      match subject_step op self with
      | RDone _ self' => subject_run rest self'
      | RFail e self' => RFail e self'
      end
  end.

(** The state a method leaves. *)
Definition state_of {S A : Type} (r : reg_outcome S A) : S :=
  match r with
  | RDone _ s => s
  | RFail _ s => s
  end.

(** Two languages, and two subjects, registered in new registries. *)
Definition two_languages : Languages :=
  state_of (language_run [AddLanguage "English"; AddLanguage "Tamil"]
              (Languages_init 8)).

Definition two_subjects : Subjects :=
  state_of (subject_run [AddSubject "CS101"; AddSubject "MA102"]
              (Subjects_init 8)).

(** *** What a registry holds *)

(** The keys of a slot, none for [None]. *)
Definition bucket_of (slot : option (list string)) : list string :=
  match slot with
  | Some bucket => bucket
  | None => []
  end.

(** The key is in some bucket of the table. *)
Definition listed (tbl : table) (key : string) : Prop :=
  exists i bucket, tbl !! i = Some (Some bucket) /\ key ∈ bucket.

(** The table has [size] slots, and each bucket holds, once each, keys
    that hash to its slot. *)
Definition table_wf (size : nat) (tbl : table) : Prop :=
  (0 < size)%nat /\ length tbl = size /\
  forall i bucket, tbl !! i = Some (Some bucket) ->
    NoDup bucket /\ forall key, key ∈ bucket -> hash_of size key = Some i.

(** The keys of the dict are the keys in the table. *)
Definition Languages_wf (self : Languages) : Prop :=
  table_wf (l_size self) (l_table self) /\
  forall key, is_Some (language_map self !! key) <-> listed (l_table self) key.

Definition Subjects_wf (self : Subjects) : Prop :=
  table_wf (s_size self) (s_table self) /\
  (forall key, is_Some (subject_list self !! key)
               <-> listed (s_table self) key) /\
  number_of_subjects self = Z.of_nat (length (display_table (s_table self))).

(** * Properties *)

(** ** Comparisons *)

Lemma Qlt_bool_iff x y : Qlt_bool x y = true <-> (x < y)%Q.
Proof.
  unfold Qlt_bool. rewrite negb_true_iff. split.
  - intros H. apply Qnot_le_lt. intros Hle.
    apply Qle_bool_iff in Hle. congruence.
  - intros H. destruct (Qle_bool y x) eqn:E; [|reflexivity].
    apply Qle_bool_iff in E. exfalso. exact (Qlt_not_le _ _ H E).
Qed.

Lemma Qlt_bool_false_iff x y : Qlt_bool x y = false <-> (y <= x)%Q.
Proof.
  unfold Qlt_bool. rewrite negb_false_iff. apply Qle_bool_iff.
Qed.


(** ** Steps of a run *)

Lemma bind_ok {A B} (c : M A) (k : A -> M B) s a s' :
  c s = Ok a s' -> bind c k s = k a s'.
Proof. unfold bind. by intros ->. Qed.

Lemma bind_assoc {A B C} (c : M A) (k : A -> M B) (k' : B -> M C) s :
  bind (bind c k) k' s = bind c (fun a => bind (k a) k') s.
Proof. unfold bind. by destruct (c s). Qed.

Lemma member_at_ok a n s :
  member_store s !! a = Some n -> member_at a s = Ok n s.
Proof. unfold member_at. by intros ->. Qed.

Lemma waiting_at_ok a w s :
  waiting_store s !! a = Some w -> waiting_at a s = Ok w s.
Proof. unfold waiting_at. by intros ->. Qed.

Lemma group_at_ok gi g s :
  group_nodes s !! gi = Some g -> group_at gi s = Ok g s.
Proof. unfold group_at. by intros ->. Qed.

Lemma put_member_list_ok gi g m s :
  group_nodes s !! gi = Some g ->
  put_member_list gi m s
  = Ok tt (set_group_nodes (<[gi := set_member_list g m]> (group_nodes s)) s).
Proof. intros H. unfold put_member_list, bind, group_at. by rewrite H. Qed.

Lemma put_member_next_ok a n nx s :
  member_store s !! a = Some n ->
  put_member_next a nx s
  = Ok tt (set_member_store (<[a := set_m_next n nx]> (member_store s)) s).
Proof. intros H. unfold put_member_next, bind, member_at. by rewrite H. Qed.

Create HintDb run discriminated.
#[local] Hint Resolve member_at_ok waiting_at_ok group_at_ok
  put_member_list_ok put_member_next_ok : run.

(** Run the first call of a sequence. *)
Ltac mstep :=
  rewrite ?bind_assoc;
  erewrite bind_ok by (first [reflexivity | simpl; eauto with run]);
  cbv beta.

(** ** Chains *)

Section ChainFacts.
Context {N : Type} (nxt : N -> option addr).
Implicit Types (st : list N) (l : list addr).

Lemma chain_det st hd l1 l2 :
  chain nxt st hd l1 -> chain nxt st hd l2 -> l1 = l2.
Proof.
  intros H1. revert l2. induction H1 as [|a n l Ha _ IH]; intros l2 H2.
  - by inversion H2.
  - inversion H2 as [|a' n' l' Ha' Hl']; subst.
    rewrite Ha in Ha'. injection Ha' as <-. f_equal. by apply IH.
Qed.

Lemma chain_suffix st hd l1 a l2 :
  chain nxt st hd (l1 ++ a :: l2) -> chain nxt st (Some a) (a :: l2).
Proof.
  revert hd. induction l1 as [|b l1 IH]; intros hd H; simpl in H.
  - by inversion H; subst; econstructor.
  - inversion H; subst. eauto.
Qed.

Lemma chain_NoDup st hd l : chain nxt st hd l -> NoDup l.
Proof.
  induction 1 as [|a n l Ha Hl IH]; constructor; [|done].
  intros Hin. apply list_elem_of_split in Hin as (l1 & l2 & ->).
  assert (Hc : chain nxt st (Some a) (a :: l1 ++ a :: l2))
    by (by econstructor).
  pose proof (chain_suffix _ _ (a :: l1) a l2 Hc) as Hs.
  pose proof (chain_det _ _ _ _ Hc Hs) as Heq.
  apply (f_equal length) in Heq. simpl in Heq.
  rewrite length_app in Heq. simpl in Heq. lia.
Qed.

Lemma chain_bound st hd l :
  chain nxt st hd l -> Forall (fun a => (a < length st)%nat) l.
Proof.
  induction 1 as [|a n l Ha _ IH]; constructor; [|done].
  by eapply lookup_lt_Some.
Qed.

(** A chain does not see objects created after it. *)
Lemma chain_grow st extra hd l :
  chain nxt st hd l -> chain nxt (st ++ extra) hd l.
Proof.
  induction 1 as [|a n l Ha _ IH]; econstructor; [|done].
  by apply lookup_app_l_Some.
Qed.

(** Nor a write to an object that is not on it. *)
Lemma chain_frame st hd l a x :
  chain nxt st hd l -> a ∉ l -> chain nxt (<[a := x]> st) hd l.
Proof.
  induction 1 as [|b n l Hb _ IH]; intros Hnin; [constructor|].
  apply not_elem_of_cons in Hnin as [Hne Hnin].
  econstructor; [|by apply IH].
  by rewrite list_lookup_insert_ne.
Qed.

(** Redirecting the last object of a chain to another chain. *)
Lemma chain_splice st hd l tl n n' l2 :
  chain nxt st hd (l ++ [tl]) ->
  st !! tl = Some n ->
  chain nxt st (nxt n') l2 ->
  tl ∉ l2 ->
  chain nxt (<[tl := n']> st) hd (l ++ tl :: l2).
Proof.
  intros Hc Htl H2 Hnin.
  assert (Hnd : NoDup (l ++ [tl])) by (by eapply chain_NoDup).
  revert hd Hc Hnd. induction l as [|b l IH]; intros hd Hc Hnd; simpl in *.
  - inversion Hc; subst. econstructor.
    + apply list_lookup_insert_eq. by eapply lookup_lt_Some.
    + by apply chain_frame.
  - inversion Hc as [|? nb ? Hb Hrest]; subst.
    apply NoDup_cons in Hnd as [Hbn Hnd].
    econstructor.
    + rewrite list_lookup_insert_ne; [done|].
      intros ->. apply Hbn, elem_of_app. right. constructor.
    + by apply IH.
Qed.

(** A chain that can be followed to the end in [fuel] steps. *)
Lemma chain_last st hd l tl :
  chain nxt st hd (l ++ [tl]) ->
  exists n, st !! tl = Some n /\ nxt n = None.
Proof.
  revert hd. induction l as [|b l IH]; intros hd Hc; simpl in *.
  - inversion Hc as [|? n ? Ha Hn]; subst. inversion Hn. eauto.
  - inversion Hc; subst. eauto.
Qed.
End ChainFacts.

(** ** Tiers *)

Lemma label_of_low s : label_of s = low <-> (s < 40)%Q.
Proof.
  unfold label_of. destruct (Qlt_bool s 40) eqn:E40.
  - apply Qlt_bool_iff in E40. tauto.
  - apply Qlt_bool_false_iff in E40.
    split; [by destruct (Qlt_bool s 75)|].
    intros H. exfalso. exact (Qlt_not_le _ _ H E40).
Qed.

Lemma label_of_mid s : label_of s = mid <-> (40 <= s)%Q /\ (s < 75)%Q.
Proof.
  unfold label_of. destruct (Qlt_bool s 40) eqn:E40.
  - apply Qlt_bool_iff in E40. split; [done|].
    intros [H _]. exfalso. exact (Qlt_not_le _ _ E40 H).
  - apply Qlt_bool_false_iff in E40.
    destruct (Qlt_bool s 75) eqn:E75.
    + apply Qlt_bool_iff in E75. tauto.
    + apply Qlt_bool_false_iff in E75. split; [done|].
      intros [_ H]. exfalso. exact (Qlt_not_le _ _ H E75).
Qed.

Lemma label_of_high s : label_of s = high <-> (75 <= s)%Q.
Proof.
  unfold label_of. destruct (Qlt_bool s 40) eqn:E40.
  - apply Qlt_bool_iff in E40. split; [done|].
    intros H. exfalso. apply (Qlt_not_le _ _ E40).
    apply Qle_trans with 75%Q; [done|exact H].
  - destruct (Qlt_bool s 75) eqn:E75.
    + apply Qlt_bool_iff in E75. split; [done|].
      intros H. exfalso. exact (Qlt_not_le _ _ E75 H).
    + apply Qlt_bool_false_iff in E75. tauto.
Qed.

(** C8.  The label a record gets from [MemberNode.__init__] is "low" exactly
    when its marks are below 40, "mid" exactly when they are at least 40 and
    below 75, "high" exactly when they are at least 75; and
    [update_marks(new_marks)] stores the new marks and leaves the record with
    the label a record created with those marks has. *)
Theorem tier_derivation (s : Q) (name lang : string) (sid : Z)
    (self : MemberNode) :
  let r := MemberNode_init name s lang sid in
  (m_label r = low <-> (s < 40)%Q) /\
  (m_label r = mid <-> (40 <= s)%Q /\ (s < 75)%Q) /\
  (m_label r = high <-> (75 <= s)%Q) /\
  m_marks (update_marks self s) = s /\
  m_label (update_marks self s) = m_label r.
Proof.
  simpl. split; [apply label_of_low|]. split; [apply label_of_mid|].
  split; [apply label_of_high|]. split; reflexivity.
Qed.

(** ** Waiting lists *)

Lemma waiting_list_set t q s : waiting_list t (set_waiting_list t q s) = q.
Proof. by destruct t. Qed.

Lemma waiting_store_set_waiting_list t q s :
  waiting_store (set_waiting_list t q s) = waiting_store s.
Proof. by destruct t. Qed.

Lemma contents_set_w_next (ws : list WaitingListNode) (tl : addr) n nx
    (a : addr) :
  ws !! tl = Some n ->
  student_of <$> <[tl := set_w_next n nx]> ws !! a = student_of <$> ws !! a.
Proof.
  intros Htl. destruct (decide (a = tl)) as [->|Hne].
  - rewrite list_lookup_insert_eq; [|by eapply lookup_lt_Some].
    by rewrite Htl.
  - by rewrite list_lookup_insert_ne.
Qed.

Lemma enqueue_queue t sid name marks lang s al :
  is_queue (waiting_store s) (waiting_list t s) al ->
  exists s',
    enqueue t sid name marks lang s = Ok tt s' /\
    is_queue (waiting_store s') (waiting_list t s')
      (al ++ [length (waiting_store s)]) /\
    student_of <$> waiting_store s' !! length (waiting_store s)
      = Some (sid, name, marks, lang) /\
    (forall a, (a < length (waiting_store s))%nat ->
       student_of <$> waiting_store s' !! a
       = student_of <$> waiting_store s !! a).
Proof.
  intros [Hc Htl]. unfold enqueue, bind, get, modify. simpl.
  set (ws := waiting_store s) in *.
  set (nw := mkWaitingListNode sid name marks lang None).
  assert (Hnew : (ws ++ [nw]) !! length ws = Some nw)
    by apply list_lookup_middle, eq_refl.
  destruct al as [|tl al _] using rev_ind.
  - inversion Hc as [Hhd|]; subst.
    unfold WaitingList_is_empty. rewrite <- Hhd. simpl.
    eexists. split; [reflexivity|].
    rewrite waiting_list_set, waiting_store_set_waiting_list. simpl.
    split; [split; [|done]|split].
    + simpl. econstructor; [exact Hnew|constructor].
    + by rewrite Hnew.
    + intros a Ha. by rewrite lookup_app_l.
  - rewrite last_snoc in Htl.
    destruct (chain_last _ _ _ _ _ Hc) as (n & Hn & Hnx).
    assert (Hhd : exists h, wl_head (waiting_list t s) = Some h).
    { destruct al; inversion Hc; eauto. }
    destruct Hhd as [h Hhd].
    unfold WaitingList_is_empty. rewrite Hhd, Htl.
    unfold put_waiting_next, bind, waiting_at, modify. simpl. fold ws.
    rewrite (lookup_app_l_Some _ _ _ _ Hn).
    eexists. split; [reflexivity|]. simpl.
    assert (Hlt : (tl < length ws)%nat) by (by eapply lookup_lt_Some).
    assert (Hch : chain w_next (<[tl := set_w_next n (Some (length ws))]> (ws ++ [nw]))
                    (Some h) ((al ++ [tl]) ++ [length ws])).
    { rewrite <- Hhd, <- app_assoc. simpl.
      eapply chain_splice.
      - by apply chain_grow.
      - by apply lookup_app_l_Some.
      - simpl. econstructor; [exact Hnew|constructor].
      - rewrite list_elem_of_singleton. lia. }
    rewrite waiting_list_set.
    split; [split; [done|by simpl; rewrite last_snoc]|].
    split.
    + rewrite list_lookup_insert_ne by lia. by rewrite Hnew.
    + intros a Ha.
      rewrite (contents_set_w_next _ _ _ _ _ (lookup_app_l_Some _ _ _ _ Hn)).
      by rewrite lookup_app_l.
Qed.

Lemma dequeue_queue t s a al :
  is_queue (waiting_store s) (waiting_list t s) (a :: al) ->
  exists q',
    dequeue t s = Ok (Some a) (set_waiting_list t q' s) /\
    is_queue (waiting_store s) q' al.
Proof.
  intros [Hc Htl]. unfold dequeue, bind, get. simpl.
  inversion Hc as [|? w ? Ha Hrest Hhd]; subst.
  unfold waiting_at. rewrite Ha.
  destruct (w_next w) as [nx|] eqn:Hnx.
  - eexists. split; [reflexivity|]. split; [done|]. simpl.
    rewrite Htl. inversion Hrest; subst. by rewrite last_cons_cons.
  - eexists. split; [reflexivity|]. inversion Hrest; subst.
    split; [constructor|done].
Qed.

Lemma dequeue_queue_empty t s :
  is_queue (waiting_store s) (waiting_list t s) [] ->
  dequeue t s = Ok None s.
Proof.
  intros [Hc _]. unfold dequeue, bind, get. simpl.
  by inversion Hc as [Hhd|].
Qed.

Lemma enqueue_holds t x s l :
  queue_holds s t l ->
  exists s', enqueue_student t x s = Ok tt s' /\ queue_holds s' t (l ++ [x]).
Proof.
  intros (al & Hq & Hall). destruct x as [[[sid name] marks] lang].
  destruct (enqueue_queue t sid name marks lang s al Hq)
    as (s' & Hrun & Hq' & Hnew & Hold).
  exists s'. split; [exact Hrun|]. eexists. split; [exact Hq'|].
  apply Forall2_app.
  - destruct Hq as [Hc _]. apply chain_bound in Hc.
    clear Hq' Hrun Hnew. revert l Hall.
    induction al as [|a al IH]; intros l Hall;
      inversion Hall; subst; constructor.
    + inversion Hc; subst. by rewrite Hold.
    + inversion Hc; subst. by apply IH.
  - by repeat constructor.
Qed.

Lemma dequeue_holds t x s l :
  queue_holds s t (x :: l) ->
  exists q',
    dequeue_student t s = Ok (Some x) (set_waiting_list t q' s) /\
    queue_holds (set_waiting_list t q' s) t l.
Proof.
  intros (al & Hq & Hall). inversion Hall as [|a ? al' ? Ha Hrest]; subst.
  destruct (dequeue_queue t s a al' Hq) as (q' & Hrun & Hq').
  exists q'. unfold dequeue_student, bind. rewrite Hrun.
  unfold waiting_at. rewrite waiting_store_set_waiting_list.
  destruct (waiting_store s !! a) as [w|] eqn:Hw; [|done].
  simpl in Ha. injection Ha as <-. split; [done|].
  exists al'. by rewrite waiting_list_set, waiting_store_set_waiting_list.
Qed.

Lemma dequeue_holds_empty t s :
  queue_holds s t [] -> dequeue_student t s = Ok None s.
Proof.
  intros (al & Hq & Hall). inversion Hall; subst.
  unfold dequeue_student, bind. by rewrite dequeue_queue_empty.
Qed.

Lemma dequeue_n_holds t l l2 s :
  queue_holds s t (l ++ l2) ->
  exists s',
    dequeue_n (length l) t s = Ok (Some <$> l) s' /\ queue_holds s' t l2.
Proof.
  revert s. induction l as [|x l IH]; intros s Hq; simpl in *.
  - by exists s.
  - destruct (dequeue_holds _ _ _ _ Hq) as (q' & Hrun & Hq').
    destruct (IH _ Hq') as (s' & Hrun' & Hq'').
    exists s'. unfold bind. by rewrite Hrun, Hrun'.
Qed.

(** C9.  A waiting list is first in, first out.  Whatever students [l] the
    list of tier [t] holds: [dequeue] hands back the one that has waited
    longest and leaves the others in their order; and after [A], [B], [C] are
    enqueued in that order the list holds them behind [l], so that once the
    students of [l] have been dequeued, three more calls of [dequeue] return
    [A], [B], [C] in that order and leave the list empty. *)
Theorem waiting_list_fifo (t : tier) (s : Groups) (l : list student)
    (A B C : student) :
  queue_holds s t l ->
  (forall x l', l = x :: l' ->
     exists s', dequeue_student t s = Ok (Some x) s' /\ queue_holds s' t l') /\
  (l = [] -> dequeue_student t s = Ok None s) /\
  exists s1 s2 s3,
    (enqueue_student t A ;; enqueue_student t B ;; enqueue_student t C) s
      = Ok tt s1 /\
    queue_holds s1 t (l ++ [A; B; C]) /\
    dequeue_n (length l) t s1 = Ok (Some <$> l) s2 /\
    dequeue_n 3 t s2 = Ok [Some A; Some B; Some C] s3 /\
    queue_holds s3 t [] /\
    dequeue_student t s3 = Ok None s3.
Proof.
  intros Hq. split; [|split].
  - intros x l' ->. destruct (dequeue_holds _ _ _ _ Hq) as (q' & ? & ?). eauto.
  - intros ->. by apply dequeue_holds_empty.
  - destruct (enqueue_holds t A _ _ Hq) as (sa & Ha & Hqa).
    destruct (enqueue_holds t B _ _ Hqa) as (sb & Hb & Hqb).
    destruct (enqueue_holds t C _ _ Hqb) as (sc & Hc & Hqc).
    rewrite <- !app_assoc in Hqc. simpl in Hqc.
    destruct (dequeue_n_holds t l [A; B; C] sc Hqc) as (s2 & Hd2 & Hq2).
    destruct (dequeue_n_holds t [A; B; C] [] s2) as (s3 & Hd3 & Hq3);
      [by rewrite app_nil_r|].
    exists sc, s2, s3. unfold bind. rewrite Ha, Hb, Hc.
    repeat split; try done. by apply dequeue_holds_empty.
Qed.

Lemma waiting_list_fifo_witness :
  queue_holds fifo_state high [Amanda] /\
  exists s1 s2 s3,
    (enqueue_student high Bethany ;; enqueue_student high Devika ;;
     enqueue_student high Alex) fifo_state = Ok tt s1 /\
    dequeue_n 1 high s1 = Ok [Some Amanda] s2 /\
    dequeue_n 3 high s2 = Ok [Some Bethany; Some Devika; Some Alex] s3.
Proof.
  assert (Hq : queue_holds fifo_state high [Amanda]).
  { exists [0%nat]. split.
    - split; [|reflexivity]. econstructor; [reflexivity|constructor].
    - repeat constructor. }
  split; [exact Hq|].
  destruct (waiting_list_fifo high fifo_state _ Bethany Devika Alex Hq)
    as (_ & _ & s1 & s2 & s3 & H1 & _ & H2 & H3 & _).
  exists s1, s2, s3. split; [exact H1|]. split; [exact H2|exact H3].
Defined.

(** ** Rosters *)

Lemma last_node_chain fuel s hd l tl :
  chain m_next (member_store s) (Some hd) (l ++ [tl]) ->
  (length (l ++ [tl]) <= fuel)%nat ->
  last_node fuel hd s = Ok tl s.
Proof.
  revert hd fuel. induction l as [|b l IH]; intros hd fuel Hc Hf;
    (destruct fuel as [|fuel]; [simpl in Hf; lia|]); simpl in *.
  - inversion Hc as [|? n ? Ha Hn]; subst. inversion Hn as [Hnx|].
    unfold bind, member_at. by rewrite Ha, <- Hnx.
  - inversion Hc as [|? n ? Ha Hn]; subst.
    unfold bind, member_at. rewrite Ha.
    destruct (m_next n) as [b0|] eqn:E.
    + apply IH; [done|lia].
    + inversion Hn as [Hnil|]. by destruct l.
Qed.

Lemma chain_agree {N} (nxt : N -> option addr) (st st' : list N) hd l :
  chain nxt st hd l ->
  (forall a, a ∈ l -> st' !! a = st !! a) ->
  chain nxt st' hd l.
Proof.
  induction 1 as [|a n l Ha _ IH]; intros Hag; [constructor|].
  econstructor.
  - rewrite Hag; [done|constructor].
  - apply IH. intros b Hb. apply Hag. by constructor.
Qed.

Lemma add_member_spec fuel gi name marks lang sid s g l :
  group_nodes s !! gi = Some g ->
  chain m_next (member_store s) (head (member_list g)) l ->
  (length l <= fuel)%nat ->
  exists ms' hd',
    add_member fuel gi name marks lang sid s
    = Ok true
        (set_group_nodes
           (<[gi := set_member_list g
                      (count_added (label_of marks) (member_list g) hd')]>
              (group_nodes s))
           (set_member_store ms' s)) /\
    chain m_next ms' hd' (l ++ [length (member_store s)]) /\
    linked (member_store s) l (MemberNode_init name marks lang sid) ms'.
Proof.
  intros Hg Hc Hf. unfold add_member.
  set (ms := member_store s) in *.
  set (nw := MemberNode_init name marks lang sid).
  assert (Hnew : (ms ++ [nw]) !! length ms = Some nw)
    by apply list_lookup_middle, eq_refl.
  do 3 mstep. fold ms.
  destruct l as [|tl l _] using rev_ind.
  - inversion Hc as [Hhd|]. mstep.
    exists (ms ++ [nw]), (Some (length ms)).
    split; [reflexivity|]. split; [|split; [|split; [|split]]].
    + simpl. econstructor; [exact Hnew|constructor].
    + rewrite length_app. simpl. lia.
    + done.
    + intros a n Ha. exists (m_next n).
      rewrite (lookup_app_l_Some _ _ _ _ Ha). by destruct n.
    + intros a n Ha _. by apply lookup_app_l_Some.
  - destruct (chain_last _ _ _ _ _ Hc) as (n & Hn & Hnx).
    assert (Hhd : exists h, head (member_list g) = Some h).
    { destruct l; inversion Hc; eauto. }
    destruct Hhd as [h Hhd]. rewrite Hhd in Hc |- *.
    assert (Hlast : last_node fuel h (set_member_store (ms ++ [nw]) s)
                    = Ok tl (set_member_store (ms ++ [nw]) s)).
    { apply last_node_chain with l; [|done]. simpl. by apply chain_grow. }
    assert (Hn' : (ms ++ [nw]) !! tl = Some n) by (by apply lookup_app_l_Some).
    rewrite bind_assoc, (bind_ok _ _ _ _ _ Hlast). do 2 mstep.
    assert (Hlt : (tl < length ms)%nat) by (by eapply lookup_lt_Some).
    exists (<[tl := set_m_next n (Some (length ms))]> (ms ++ [nw])), (Some h).
    split; [reflexivity|]. split; [|split; [|split; [|split]]].
    + rewrite <- app_assoc. simpl. eapply chain_splice.
      * by apply chain_grow.
      * done.
      * simpl. econstructor; [exact Hnew|constructor].
      * rewrite list_elem_of_singleton. lia.
    + rewrite length_insert, length_app. simpl. lia.
    + rewrite list_lookup_insert_ne by lia. done.
    + intros a n' Ha. destruct (decide (a = tl)) as [->|Hne].
      * exists (Some (length ms)).
        rewrite list_lookup_insert_eq by (rewrite length_app; lia).
        pose proof (eq_trans (eq_sym Ha) Hn) as Heq. by injection Heq as ->.
      * exists (m_next n'). rewrite list_lookup_insert_ne by done.
        rewrite (lookup_app_l_Some _ _ _ _ Ha). by destruct n'.
    + intros a n' Ha Hne. rewrite last_snoc in Hne.
      rewrite list_lookup_insert_ne by congruence.
      by apply lookup_app_l_Some.
Qed.

Lemma node_holds_linked ms l nw ms' a x :
  linked ms l nw ms' -> node_holds ms a x -> node_holds ms' a x.
Proof.
  intros (_ & _ & Hdata & _) (n & Hn & Hx & Hl).
  destruct (Hdata a n Hn) as [nx Hn'].
  exists (set_m_next n nx). by destruct n.
Qed.

Lemma tier_count_snoc lb l x :
  tier_count lb (l ++ [x])
  = tier_count lb l + (if decide (label_of (student_marks x) = lb) then 1 else 0).
Proof.
  unfold tier_count. rewrite filter_app, length_app.
  rewrite filter_cons, filter_nil. case_decide; simpl; lia.
Qed.

Lemma tier_count_app lb l1 l2 :
  tier_count lb (l1 ++ l2) = tier_count lb l1 + tier_count lb l2.
Proof. unfold tier_count. rewrite filter_app, length_app. lia. Qed.

Lemma tier_count_Forall lb lb' l :
  Forall (fun x => label_of (student_marks x) = lb') l ->
  tier_count lb l = if decide (lb' = lb) then Z.of_nat (length l) else 0.
Proof.
  unfold tier_count. intros Hall.
  destruct (decide (lb' = lb)) as [<-|Hne];
    induction Hall as [|x l Hx _ IH]; try done; simpl in Hx.
  - rewrite filter_cons_True by done. simpl. lia.
  - rewrite filter_cons_False by congruence. done.
Qed.

Lemma queue_holds_ext s s' t l :
  waiting_store s' = waiting_store s ->
  waiting_list t s' = waiting_list t s ->
  queue_holds s t l -> queue_holds s' t l.
Proof. unfold queue_holds. by intros -> ->. Qed.

Lemma waiting_list_set_ne t t' q s :
  t' ≠ t -> waiting_list t' (set_waiting_list t q s) = waiting_list t' s.
Proof. by destruct t, t'. Qed.

Lemma waiting_list_set_group_nodes t gs s :
  waiting_list t (set_group_nodes gs s) = waiting_list t s.
Proof. by destruct t. Qed.

Lemma waiting_list_set_member_store t ms s :
  waiting_list t (set_member_store ms s) = waiting_list t s.
Proof. by destruct t. Qed.

Lemma waiting_list_set_no_of_groups t n s :
  waiting_list t (set_no_of_groups n s) = waiting_list t s.
Proof. by destruct t. Qed.

Create Rewrite HintDb fields.
#[local] Hint Rewrite waiting_list_set waiting_list_set_group_nodes
  waiting_list_set_member_store waiting_list_set_no_of_groups : fields.

(** [add_member] on a roster that holds [l]. *)
Lemma add_member_holds fuel gi x s l g al :
  group_nodes s !! gi = Some g ->
  chain m_next (member_store s) (head (member_list g)) al ->
  Forall2 (node_holds (member_store s)) al l ->
  (length al <= fuel)%nat ->
  exists ms' hd',
    let s' :=
      set_group_nodes
        (<[gi := set_member_list g
                   (count_added (label_of (student_marks x)) (member_list g)
                      hd')]> (group_nodes s))
        (set_member_store ms' s) in
    add_member fuel gi x.1.1.2 x.1.2 x.2 x.1.1.1 s = Ok true s' /\
    chain m_next ms' hd' (al ++ [length (member_store s)]) /\
    Forall2 (node_holds ms') (al ++ [length (member_store s)]) (l ++ [x]) /\
    linked (member_store s) al
      (MemberNode_init x.1.1.2 x.1.2 x.2 x.1.1.1) ms'.
Proof.
  intros Hg Hc Hall Hf.
  destruct (add_member_spec fuel gi x.1.1.2 x.1.2 x.2 x.1.1.1 s g al Hg Hc Hf)
    as (ms' & hd' & Hrun & Hc' & Hl).
  exists ms', hd'. split; [exact Hrun|]. split; [exact Hc'|].
  split; [|exact Hl].
  apply Forall2_app.
  - eapply Forall2_impl; [exact Hall|].
    intros a y. by apply node_holds_linked with al (MemberNode_init x.1.1.2 x.1.2 x.2 x.1.1.1).
  - constructor; [|constructor].
    destruct Hl as (_ & Hnew & _).
    eexists. split; [exact Hnew|]. by destruct x as [[[? ?] ?] ?].
Qed.

(** ** Forming a group *)

Lemma count_waiting_chain fuel s hd al n :
  chain w_next (waiting_store s) hd al ->
  (length al <= fuel)%nat ->
  count_waiting fuel hd n s = Ok (n + Z.of_nat (length al)) s.
Proof.
  intros Hc. revert fuel n.
  induction Hc as [|a w al Ha _ IH]; intros fuel n Hf.
  - destruct fuel; simpl; unfold ret; f_equal; lia.
  - destruct fuel as [|fuel]; simpl in *; [lia|].
    rewrite (bind_ok _ _ _ _ _ (waiting_at_ok _ _ _ Ha)).
    rewrite IH by lia. f_equal. lia.
Qed.

Lemma count_waiting_holds fuel s t l :
  queue_holds s t l ->
  (length l <= fuel)%nat ->
  count_waiting fuel (wl_head (waiting_list t s)) 0 s
  = Ok (Z.of_nat (length l)) s.
Proof.
  intros (al & [Hc _] & Hall) Hf.
  rewrite (count_waiting_chain _ _ _ al) by
    (done || by rewrite (Forall2_length _ _ _ Hall)).
  by rewrite (Forall2_length _ _ _ Hall).
Qed.

(** C4.  When the waiting lists hold fewer than 2 high, fewer than 3 mid or
    fewer than 2 low students, [create_new_group] returns [None] and changes
    nothing: each waiting list keeps its students in their order, and the
    groups, their rosters and [no_of_groups] are as before. *)
Theorem create_new_group_not_formed (fuel : nat) (s : Groups)
    (lh lm ll : list student) :
  queue_holds s high lh ->
  queue_holds s mid lm ->
  queue_holds s low ll ->
  (length lh < 2 \/ length lm < 3 \/ length ll < 2)%nat ->
  (length lh <= fuel)%nat -> (length lm <= fuel)%nat ->
  (length ll <= fuel)%nat ->
  create_new_group fuel s = Ok None s.
Proof.
  intros Hh Hm Hl Hfew Fh Fm Fl. unfold create_new_group.
  mstep.
  rewrite (bind_ok _ _ _ _ _ (count_waiting_holds fuel s high lh Hh Fh)).
  rewrite (bind_ok _ _ _ _ _ (count_waiting_holds fuel s mid lm Hm Fm)).
  rewrite (bind_ok _ _ _ _ _ (count_waiting_holds fuel s low ll Hl Fl)).
  destruct Hfew as [H|[H|H]].
  - rewrite (bool_decide_eq_false_2 (Z.of_nat (length lh) >= 2)) by lia.
    done.
  - rewrite (bool_decide_eq_false_2 (Z.of_nat (length lm) >= 3)) by lia.
    by rewrite andb_false_r.
  - rewrite (bool_decide_eq_false_2 (Z.of_nat (length ll) >= 2)) by lia.
    by rewrite andb_false_r.
Qed.

Lemma seat_filling c0 fuel t gi s qs l x rest :
  filling c0 gi s qs l ->
  qs t = x :: rest ->
  (length l <= fuel)%nat ->
  exists s',
    seat fuel t gi s = Ok tt s' /\
    filling c0 gi s' (q_upd qs t rest) (l ++ [x]) /\
    no_of_groups s' = no_of_groups s /\
    length (group_nodes s') = length (group_nodes s).
Proof.
  intros (Hqs & (g & al & Hg & Hc & Hall) & Hcnt) Hqt Hf.
  destruct c0 as [[[cl cm] ch] n0].
  pose proof (Hqs t) as Hq. rewrite Hqt in Hq.
  destruct Hq as (wal & Hq & Hwall).
  inversion Hwall as [|a ? wal' ? Ha Hwrest]; subst.
  destruct (dequeue_queue t s a wal' Hq) as (q' & Hdq & Hq').
  destruct (waiting_store s !! a) as [w|] eqn:Hw; [|done].
  simpl in Ha. injection Ha as <-.
  set (s1 := set_waiting_list t q' s) in *.
  assert (Hg1 : group_nodes s1 !! gi = Some g) by done.
  assert (Hlen : length al = length l) by (by eapply Forall2_length).
  destruct (add_member_holds fuel gi (student_of w) s1 l g al Hg1 Hc Hall)
    as (ms' & hd' & Hadd & Hc' & Hall' & Hlk); [lia|].
  simpl in Hadd. eexists. split; [|split; [|split]].
  - unfold seat. rewrite (bind_ok _ _ _ _ _ Hdq).
    rewrite (bind_ok _ _ _ _ _ (waiting_at_ok a w s1 Hw)).
    rewrite (bind_ok _ _ _ _ _ Hadd). reflexivity.
  - assert (Hgi : (gi < length (group_nodes s))%nat)
      by (by eapply lookup_lt_Some).
    split; [|split].
    + intros t'. unfold q_upd. case_decide as Ht.
      * subst t'. exists wal'. split; [|done].
        autorewrite with fields. subst s1. by autorewrite with fields.
      * eapply queue_holds_ext; [| |exact (Hqs t')]; [done|].
        autorewrite with fields. by apply waiting_list_set_ne.
    + eexists _, _. split; [simpl; by apply list_lookup_insert_eq|].
      split; [exact Hc'|exact Hall'].
    + unfold counters in *. simpl.
      rewrite list_lookup_insert_eq by done. simpl.
      rewrite Hg in Hcnt. simpl in Hcnt. injection Hcnt as -> -> -> ->.
      rewrite !tier_count_snoc, length_app. simpl.
      destruct (label_of _);
        repeat (case_decide; try congruence);
        f_equal; repeat (apply (f_equal2 pair)); lia.
  - done.
  - simpl. by rewrite length_insert.
Qed.

Lemma q_upd_same qs t l : q_upd qs t l t = l.
Proof. unfold q_upd. by rewrite decide_True. Qed.

Lemma q_upd_upd qs t l l' t' :
  q_upd (q_upd qs t l) t l' t' = q_upd qs t l' t'.
Proof. unfold q_upd. by case_decide. Qed.

Lemma filling_ext c0 gi s qs qs' l :
  (forall t, qs t = qs' t) -> filling c0 gi s qs l -> filling c0 gi s qs' l.
Proof.
  intros Heq (Hqs & Hr & Hc). split; [|done].
  intros t. rewrite <- Heq. apply Hqs.
Qed.

Lemma seat_n_filling c0 k fuel t gi : forall s qs l xs rest,
  filling c0 gi s qs l ->
  qs t = xs ++ rest ->
  length xs = k ->
  (length l + k <= fuel)%nat ->
  exists s',
    seat_n k fuel t gi s = Ok tt s' /\
    filling c0 gi s' (q_upd qs t rest) (l ++ xs) /\
    no_of_groups s' = no_of_groups s /\
    length (group_nodes s') = length (group_nodes s).
Proof.
  induction k as [|k IH]; intros s qs l xs rest Hfill Hqt Hlen Hf.
  - destruct xs; [|done]. exists s. rewrite app_nil_r.
    split; [done|]. split; [|done].
    eapply filling_ext; [|exact Hfill].
    intros t'. unfold q_upd. case_decide; by subst.
  - destruct xs as [|x xs]; [done|]. simpl in Hlen, Hqt.
    destruct (seat_filling c0 fuel t gi s qs l x (xs ++ rest) Hfill Hqt)
      as (s1 & Hrun1 & Hfill1 & Hn1 & Hl1); [lia|].
    destruct (IH s1 (q_upd qs t (xs ++ rest)) (l ++ [x]) xs rest Hfill1)
      as (s2 & Hrun2 & Hfill2 & Hn2 & Hl2).
    + apply q_upd_same.
    + lia.
    + rewrite length_app. simpl. lia.
    + exists s2. split; [|split; [|split]].
      * simpl. by rewrite (bind_ok _ _ _ _ _ Hrun1).
      * rewrite <- app_assoc in Hfill2. simpl in Hfill2.
        eapply filling_ext; [|exact Hfill2]. intros t'. apply q_upd_upd.
      * congruence.
      * congruence.
Qed.

Lemma add_new_group_ok gid s :
  add_new_group gid s
  = Ok (length (group_nodes s))
      (set_no_of_groups (no_of_groups s + 1)
         (set_group_nodes (group_nodes s ++ [GroupListNode_init gid]) s)).
Proof. reflexivity. Qed.

(** Where every group with an empty roster has its counters at zero, as
    [__init__] and [remove_group] leave them: when the waiting lists hold
    exactly 2 high, 3 mid and 2 low students, [create_new_group] returns a
    group whose roster is these 7 students (the high ones first, then the mid
    ones, then the low ones), with 2 high, 3 mid and 2 low members and
    counters that say so, and the three waiting lists are empty
    afterwards. *)
Lemma create_new_group_zero_counters (fuel : nat) (s : Groups)
    (lh lm ll : list student) :
  queue_holds s high lh ->
  queue_holds s mid lm ->
  queue_holds s low ll ->
  length lh = 2%nat -> length lm = 3%nat -> length ll = 2%nat ->
  Forall (fun x => label_of (student_marks x) = high) lh ->
  Forall (fun x => label_of (student_marks x) = mid) lm ->
  Forall (fun x => label_of (student_marks x) = low) ll ->
  vacant_clean s ->
  (7 <= fuel)%nat ->
  exists gi s',
    create_new_group fuel s = Ok (Some gi) s' /\
    roster_holds s' gi (lh ++ lm ++ ll) /\
    length (lh ++ lm ++ ll) = 7%nat /\
    tier_count high (lh ++ lm ++ ll) = 2 /\
    tier_count mid (lh ++ lm ++ ll) = 3 /\
    tier_count low (lh ++ lm ++ ll) = 2 /\
    counters s' gi = Some (2, 3, 2, 7) /\
    queue_holds s' high [] /\ queue_holds s' mid [] /\ queue_holds s' low [] /\
    WaitingList_is_empty (waiting_list_high s') = true /\
    WaitingList_is_empty (waiting_list_mid s') = true /\
    WaitingList_is_empty (waiting_list_low s') = true.
Proof.
  intros Hh Hm Hl Lh Lm Ll Th Tm Tl Hinv Hf.
  set (qs0 := fun t : tier =>
                match t with high => lh | mid => lm | low => ll end).
  assert (Hqs0 : forall t, queue_holds s t (qs0 t)) by (by intros []).
  assert (Hstart : exists gi s0,
    (match fst <$> list_find
                     (fun g => Member_is_empty (member_list g) = true)
                     (group_nodes s) with
     | Some gi => ret gi
     | None => add_new_group (no_of_groups s + 1)
     end) s = Ok gi s0 /\ filling (0, 0, 0, 0) gi s0 qs0 []).
  { destruct (list_find _ (group_nodes s)) as [[gi g]|] eqn:Hfind; simpl.
    - apply list_find_Some in Hfind as (Hg & Hemp & _).
      exists gi, s. split; [done|].
      assert (Hhd : head (member_list g) = None).
      { unfold Member_is_empty in Hemp. by destruct (head (member_list g)). }
      split; [done|]. split.
      + exists g, []. rewrite Hhd. repeat split; [done|constructor|constructor].
      + unfold vacant_clean in Hinv. rewrite Forall_lookup in Hinv.
        unfold counters. rewrite Hg. simpl. by rewrite (Hinv _ _ Hg Hhd).
    - eexists _, _. split; [apply add_new_group_ok|].
      split; [|split].
      + intros t. eapply queue_holds_ext; [| |exact (Hqs0 t)]; [done|].
        by autorewrite with fields.
      + eexists _, []. split; [simpl; apply list_lookup_middle, eq_refl|].
        split; constructor.
      + unfold counters. simpl. by rewrite list_lookup_middle. }
  destruct Hstart as (gi & s0 & Hrun0 & Hfill0).
  destruct (seat_n_filling _ 2 fuel high gi s0 qs0 [] lh [] Hfill0)
    as (s1 & Hrun1 & Hfill1 & _); [by rewrite app_nil_r|done|simpl; lia|].
  destruct (seat_n_filling _ 3 fuel mid gi s1 _ _ lm [] Hfill1)
    as (s2 & Hrun2 & Hfill2 & _);
    [by rewrite app_nil_r|done|rewrite length_app; simpl; lia|].
  destruct (seat_n_filling _ 2 fuel low gi s2 _ _ ll [] Hfill2)
    as (s3 & Hrun3 & Hfill3 & _);
    [by rewrite app_nil_r|done|rewrite !length_app; simpl; lia|].
  simpl in Hfill3. rewrite <- app_assoc in Hfill3.
  destruct Hfill3 as (Hqs3 & Hroster & Hcnt).
  assert (Hlen : length (lh ++ lm ++ ll) = 7%nat)
    by (rewrite !length_app; lia).
  assert (Hth : tier_count high (lh ++ lm ++ ll) = 2).
  { rewrite !tier_count_app, (tier_count_Forall _ _ _ Th),
      (tier_count_Forall _ _ _ Tm), (tier_count_Forall _ _ _ Tl).
    repeat case_decide; try congruence. lia. }
  assert (Htm : tier_count mid (lh ++ lm ++ ll) = 3).
  { rewrite !tier_count_app, (tier_count_Forall _ _ _ Th),
      (tier_count_Forall _ _ _ Tm), (tier_count_Forall _ _ _ Tl).
    repeat case_decide; try congruence. lia. }
  assert (Htl : tier_count low (lh ++ lm ++ ll) = 2).
  { rewrite !tier_count_app, (tier_count_Forall _ _ _ Th),
      (tier_count_Forall _ _ _ Tm), (tier_count_Forall _ _ _ Tl).
    repeat case_decide; try congruence. lia. }
  unfold counted_from in Hcnt. rewrite Hth, Htm, Htl, Hlen in Hcnt.
  simpl in Hcnt.
  assert (Hempty : forall t, queue_holds s3 t []).
  { intros t. specialize (Hqs3 t). unfold q_upd in Hqs3.
    by destruct t; repeat case_decide. }
  exists gi, s3. split.
  - unfold create_new_group. mstep.
    rewrite (bind_ok _ _ _ _ _
               (count_waiting_holds fuel s high lh Hh ltac:(lia))).
    rewrite (bind_ok _ _ _ _ _
               (count_waiting_holds fuel s mid lm Hm ltac:(lia))).
    rewrite (bind_ok _ _ _ _ _
               (count_waiting_holds fuel s low ll Hl ltac:(lia))).
    rewrite Lh, Lm, Ll. simpl.
    rewrite (bind_ok _ _ _ _ _ Hrun0).
    rewrite (bind_ok _ _ _ _ _ Hrun1).
    rewrite (bind_ok _ _ _ _ _ Hrun2).
    rewrite (bind_ok _ _ _ _ _ Hrun3).
    unfold counters in Hcnt.
    destruct (group_nodes s3 !! gi) as [g3|] eqn:Hg3; [|done].
    rewrite (bind_ok _ _ _ _ _ (group_at_ok _ _ _ Hg3)).
    simpl in Hcnt. injection Hcnt as _ _ _ ->. done.
  - repeat (split; [done|]).
    assert (Hnone : forall t, wl_head (waiting_list t s3) = None).
    { intros t. destruct (Hempty t) as (al & [Hc _] & Hall).
      inversion Hall; subst. by inversion Hc. }
    unfold WaitingList_is_empty.
    pose proof (Hnone high) as Eh. pose proof (Hnone mid) as Em.
    pose proof (Hnone low) as El. simpl in Eh, Em, El.
    by rewrite Eh, Em, El.
Qed.

(** ** The maintenance sweep *)

Lemma search_group_id_Some gid s gi :
  search_group_id gid s = Ok (Some gi) s ->
  exists g, group_nodes s !! gi = Some g /\ group_id g = gid.
Proof.
  unfold search_group_id. intros H. injection H as H.
  destruct (list_find _ (group_nodes s)) as [[i g]|] eqn:Hfind; [|done].
  simpl in H. injection H as ->.
  apply list_find_Some in Hfind as (Hg & Hid & _). eauto.
Qed.

Lemma search_group_id_run gid s :
  exists r, search_group_id gid s = Ok r s /\
    match r with
    | Some gi => exists g, group_nodes s !! gi = Some g /\ group_id g = gid
    | None => Forall (fun g => group_id g ≠ gid) (group_nodes s)
    end.
Proof.
  unfold search_group_id.
  destruct (list_find _ (group_nodes s)) as [[i g]|] eqn:Hfind; simpl.
  - eexists. split; [reflexivity|].
    apply list_find_Some in Hfind as (Hg & Hid & _). eauto.
  - eexists. split; [reflexivity|]. by apply list_find_None in Hfind.
Qed.



Lemma rated_below_two_ok g b s :
  avg_below_two g = Some b -> rated_below_two g s = Ok b s.
Proof. unfold rated_below_two. by intros ->. Qed.


Lemma avg_below_two_is_Some g :
  is_Some (calc_avg_rating g) -> is_Some (avg_below_two g).
Proof. intros [a Ha]. unfold avg_below_two. rewrite Ha. by eexists. Qed.

Lemma ratings_ok_lookup s gi g :
  ratings_ok s -> group_nodes s !! gi = Some g ->
  exists b, avg_below_two g = Some b.
Proof.
  intros Hok Hg. apply avg_below_two_is_Some.
  by apply (Forall_lookup_1 _ _ _ _ Hok Hg).
Qed.




(** ** Reshuffling *)

Lemma collect_chain fuel s hd al :
  chain m_next (member_store s) hd al ->
  (length al <= fuel)%nat ->
  collect fuel hd s = Ok al s.
Proof.
  intros Hc. revert fuel.
  induction Hc as [|a n al Ha _ IH]; intros fuel Hf.
  - by destruct fuel.
  - destruct fuel as [|fuel]; simpl in *; [lia|].
    rewrite (bind_ok _ _ _ _ _ (member_at_ok _ _ _ Ha)).
    by rewrite (bind_ok _ _ _ _ _ (IH fuel ltac:(lia))).
Qed.

Lemma Forall2_Permutation {A B} (R : A -> B -> Prop) l l' k :
  l ≡ₚ l' -> Forall2 R l k -> exists k', Forall2 R l' k' /\ k ≡ₚ k'.
Proof.
  intros Hp. revert k.
  induction Hp as [|x l l' _ IH|x y l|l l' l'' _ IH1 _ IH2]; intros k Hk.
  - inversion Hk; subst. by exists [].
  - inversion Hk as [|? z ? k0 Hx Hrest]; subst.
    destruct (IH _ Hrest) as (k' & Hk' & Hp').
    exists (z :: k'). split; [by constructor|by constructor].
  - inversion Hk as [|? z1 ? k0 Hy Hrest]; subst.
    inversion Hrest as [|? z2 ? k1 Hx Hrest']; subst.
    exists (z2 :: z1 :: k1). split; [by repeat constructor|constructor].
  - destruct (IH1 _ Hk) as (k1 & Hk1 & Hp1).
    destruct (IH2 _ Hk1) as (k2 & Hk2 & Hp2).
    exists k2. split; [done|by etrans].
Qed.

Lemma tier_count_length l :
  Z.of_nat (length l)
  = tier_count low l + tier_count mid l + tier_count high l.
Proof.
  unfold tier_count. induction l as [|x l IH]; [done|].
  rewrite !filter_cons. simpl length.
  destruct (label_of (student_marks x));
    repeat (case_decide; try congruence); simpl length; lia.
Qed.

Lemma tier_count_Permutation lb l l' :
  l ≡ₚ l' -> tier_count lb l = tier_count lb l'.
Proof. unfold tier_count. by intros ->. Qed.

(** A student goes to the first group. *)
Lemma deal_first fuel g1 g2 s l1 l2 x :
  g1 ≠ g2 ->
  dealing g1 g2 s l1 l2 ->
  (length l1 <= fuel)%nat ->
  exists s',
    add_member fuel g1 x.1.1.2 x.1.2 x.2 x.1.1.1 s = Ok true s' /\
    dealing g1 g2 s' (l1 ++ [x]) l2 /\
    (forall b y, node_holds (member_store s) b y ->
                 node_holds (member_store s') b y).
Proof.
  intros Hne (a1 & a2 & c1 & c2 & Hg1 & Hg2 & Hc1 & Hc2 & H1 & H2 & Hdis & Hcnt)
    Hf.
  assert (Hlen : length c1 = length l1) by (by eapply Forall2_length).
  destruct (add_member_holds fuel g1 x s l1 a1 c1 Hg1 Hc1 H1)
    as (ms' & hd' & Hadd & Hc' & Hall' & Hlk); [lia|].
  simpl in Hadd. eexists. split; [exact Hadd|]. split.
  - eexists _, a2, _, c2. simpl.
    split; [apply list_lookup_insert_eq; by eapply lookup_lt_Some|].
    split; [by rewrite list_lookup_insert_ne|].
    split; [exact Hc'|].
    split.
    { eapply chain_agree; [exact Hc2|]. intros a Ha.
      destruct Hlk as (_ & _ & _ & Hkeep).
      apply chain_bound in Hc2 as Hb. rewrite Forall_forall in Hb.
      destruct (member_store s !! a) as [n|] eqn:Hn.
      - apply Hkeep; [done|]. intros Hl. apply (Hdis a); [|done].
        by apply last_Some_elem_of.
      - apply lookup_ge_None in Hn. specialize (Hb a Ha). lia. }
    split; [exact Hall'|].
    split.
    { eapply Forall2_impl; [exact H2|]. intros b y.
      by eapply node_holds_linked. }
    split.
    { intros a Ha Ha2. apply elem_of_app in Ha as [Ha|Ha].
      - by apply (Hdis a).
      - apply list_elem_of_singleton in Ha. subst a.
        apply chain_bound in Hc2. rewrite Forall_forall in Hc2.
        specialize (Hc2 _ Ha2). lia. }
    unfold counters in *. simpl.
    rewrite list_lookup_insert_eq by (by eapply lookup_lt_Some). simpl.
    rewrite Hg1 in Hcnt. simpl in Hcnt. injection Hcnt as -> -> -> ->.
    rewrite !tier_count_snoc, length_app. simpl.
    destruct (label_of _);
      repeat (case_decide; try congruence);
      f_equal; repeat (apply (f_equal2 pair)); lia.
  - intros b y. by eapply node_holds_linked.
Qed.

(** A student goes to the second group. *)
Lemma deal_second fuel g1 g2 s l1 l2 x :
  g1 ≠ g2 ->
  dealing g1 g2 s l1 l2 ->
  (length l2 <= fuel)%nat ->
  exists s',
    add_member fuel g2 x.1.1.2 x.1.2 x.2 x.1.1.1 s = Ok true s' /\
    dealing g1 g2 s' l1 (l2 ++ [x]) /\
    (forall b y, node_holds (member_store s) b y ->
                 node_holds (member_store s') b y).
Proof.
  intros Hne (a1 & a2 & c1 & c2 & Hg1 & Hg2 & Hc1 & Hc2 & H1 & H2 & Hdis & Hcnt)
    Hf.
  assert (Hlen : length c2 = length l2) by (by eapply Forall2_length).
  destruct (add_member_holds fuel g2 x s l2 a2 c2 Hg2 Hc2 H2)
    as (ms' & hd' & Hadd & Hc' & Hall' & Hlk); [lia|].
  simpl in Hadd. eexists. split; [exact Hadd|]. split.
  - eexists a1, _, c1, _. simpl.
    split; [by rewrite list_lookup_insert_ne|].
    split; [apply list_lookup_insert_eq; by eapply lookup_lt_Some|].
    split.
    { eapply chain_agree; [exact Hc1|]. intros a Ha.
      destruct Hlk as (_ & _ & _ & Hkeep).
      apply chain_bound in Hc1 as Hb. rewrite Forall_forall in Hb.
      destruct (member_store s !! a) as [n|] eqn:Hn.
      - apply Hkeep; [done|]. intros Hl. apply (Hdis a); [done|].
        by apply last_Some_elem_of.
      - apply lookup_ge_None in Hn. specialize (Hb a Ha). lia. }
    split; [exact Hc'|].
    split.
    { eapply Forall2_impl; [exact H1|]. intros b y.
      by eapply node_holds_linked. }
    split; [exact Hall'|].
    split.
    { intros a Ha Ha2. apply elem_of_app in Ha2 as [Ha2|Ha2].
      - by apply (Hdis a).
      - apply list_elem_of_singleton in Ha2. subst a.
        apply chain_bound in Hc1. rewrite Forall_forall in Hc1.
        specialize (Hc1 _ Ha). lia. }
    unfold counters in *. simpl.
    by rewrite list_lookup_insert_ne.
  - intros b y. by eapply node_holds_linked.
Qed.

(** Decide the tests of a branch from what is known. *)
Ltac decide_tests :=
  repeat match goal with
    | |- context [bool_decide ?P] =>
        first [ rewrite (bool_decide_eq_true_2 P) by (done || lia)
              | rewrite (bool_decide_eq_false_2 P)
                  by (done || lia || congruence) ]
    end;
  cbn [andb orb].

Lemma perm_first {A} (l1 l2 : list A) x : (l1 ++ [x]) ++ l2 ≡ₚ x :: l1 ++ l2.
Proof. rewrite <- app_assoc. simpl. by rewrite Permutation_middle. Qed.

Lemma perm_second {A} (l1 l2 : list A) x : l1 ++ l2 ++ [x] ≡ₚ x :: l1 ++ l2.
Proof. by rewrite app_assoc, <- Permutation_cons_append. Qed.

Lemma place_deals fuel g1 g2 s counts l1 l2 a x :
  g1 ≠ g2 ->
  dealing g1 g2 s l1 l2 ->
  quota_inv counts l1 l2 ->
  node_holds (member_store s) a x ->
  (length l1 <= fuel)%nat -> (length l2 <= fuel)%nat ->
  exists s' counts' l1' l2',
    place fuel g1 g2 a counts s = Ok counts' s' /\
    dealing g1 g2 s' l1' l2' /\
    quota_inv counts' l1' l2' /\
    l1' ++ l2' ≡ₚ x :: l1 ++ l2 /\
    (forall b y, node_holds (member_store s) b y ->
                 node_holds (member_store s') b y).
Proof.
  intros Hne Hd Hq (n & Hn & Hx & Hl) F1 F2.
  destruct counts as [[cl cm] ch].
  destruct (deal_first fuel g1 g2 s l1 l2 x Hne Hd F1)
    as (sA & HaddA & HdA & HkA).
  destruct (deal_second fuel g1 g2 s l1 l2 x Hne Hd F2)
    as (sB & HaddB & HdB & HkB).
  subst x. simpl in HaddA, HaddB, Hl.
  unfold place. rewrite (bind_ok _ _ _ _ _ (member_at_ok _ _ _ Hn)).
  destruct Hq as (El & Em & Eh & Bl & Bm & Bh & Zl & Zm & Zh).
  assert (Hfirst : forall counts',
    quota_inv counts' (l1 ++ [member_student n]) l2 ->
    exists s' counts'' l1' l2',
      (add_member fuel g1 (m_name n) (m_marks n) (m_preferred_language n)
         (m_student_id n) ;; ret counts') s = Ok counts'' s' /\
      dealing g1 g2 s' l1' l2' /\ quota_inv counts'' l1' l2' /\
      l1' ++ l2' ≡ₚ member_student n :: l1 ++ l2 /\
      (forall b y, node_holds (member_store s) b y ->
                   node_holds (member_store s') b y)).
  { intros counts' Hq'. exists sA, counts', (l1 ++ [member_student n]), l2.
    rewrite (bind_ok _ _ _ _ _ HaddA).
    split; [done|]. split; [done|]. split; [done|].
    split; [apply perm_first|done]. }
  assert (Hsecond :
    quota_inv (cl, cm, ch) l1 (l2 ++ [member_student n]) ->
    exists s' counts'' l1' l2',
      (add_member fuel g2 (m_name n) (m_marks n) (m_preferred_language n)
         (m_student_id n) ;; ret (cl, cm, ch)) s = Ok counts'' s' /\
      dealing g1 g2 s' l1' l2' /\ quota_inv counts'' l1' l2' /\
      l1' ++ l2' ≡ₚ member_student n :: l1 ++ l2 /\
      (forall b y, node_holds (member_store s) b y ->
                   node_holds (member_store s') b y)).
  { intros Hq'. exists sB, (cl, cm, ch), l1, (l2 ++ [member_student n]).
    rewrite (bind_ok _ _ _ _ _ HaddB).
    split; [done|]. split; [done|]. split; [done|].
    split; [apply perm_second|done]. }
  destruct (decide (cl < 2)); destruct (decide (cm < 3));
    destruct (decide (ch < 2));
    destruct (m_label n) eqn:Elb; decide_tests;
    (apply Hfirst || apply Hsecond);
    unfold quota_inv; rewrite !tier_count_snoc; simpl student_marks;
    rewrite <- Hl; repeat (case_decide; try congruence);
    repeat split; lia.
Qed.

Lemma distribute_deals fuel g1 g2 pool : forall xs s counts l1 l2,
  g1 ≠ g2 ->
  dealing g1 g2 s l1 l2 ->
  quota_inv counts l1 l2 ->
  Forall2 (node_holds (member_store s)) pool xs ->
  (length l1 + length l2 + length pool <= fuel)%nat ->
  exists s' counts' l1' l2',
    distribute fuel g1 g2 pool counts s = Ok counts' s' /\
    dealing g1 g2 s' l1' l2' /\
    quota_inv counts' l1' l2' /\
    l1' ++ l2' ≡ₚ xs ++ l1 ++ l2.
Proof.
  induction pool as [|a pool IH]; intros xs s counts l1 l2 Hne Hd Hq Hall Hf.
  - inversion Hall; subst. by exists s, counts, l1, l2.
  - inversion Hall as [|? x ? xs' Hx Hrest]; subst. simpl in Hf.
    destruct (place_deals fuel g1 g2 s counts l1 l2 a x Hne Hd Hq Hx)
      as (s1 & counts1 & l1a & l2a & Hrun1 & Hd1 & Hq1 & Hp1 & Hkeep);
      [lia|lia|].
    assert (Hlen : (length l1a + length l2a = S (length l1 + length l2))%nat).
    { apply Permutation_length in Hp1.
      rewrite length_app in Hp1. simpl in Hp1.
      by rewrite length_app in Hp1. }
    destruct (IH xs' s1 counts1 l1a l2a Hne Hd1 Hq1)
      as (s2 & counts2 & l1b & l2b & Hrun2 & Hd2 & Hq2 & Hp2).
    + eapply Forall2_impl; [exact Hrest|]. intros b y. apply Hkeep.
    + lia.
    + exists s2, counts2, l1b, l2b. simpl.
      rewrite (bind_ok _ _ _ _ _ Hrun1). split; [done|].
      split; [done|]. split; [done|].
      rewrite Hp2, Hp1. symmetry. apply Permutation_middle.
Qed.

(** C1.  [reshuffle] on two distinct existing groups whose rosters together
    hold at least 2 high, 3 mid and 2 low students: whatever permutation the
    shuffle produces, the call returns the two groups, the first with a
    roster of exactly 7 students, 2 high, 3 mid and 2 low, and counters that
    say so; and the two rosters afterwards hold the students of the two
    rosters before, each as often as before, so that their number is
    unchanged. *)
Theorem reshuffle_quota (shuffle : list addr -> list addr) (fuel : nat)
    (s : Groups) (group1_id group2_id : Z) (g1 g2 : nat)
    (l1 l2 : list student) :
  (forall l, shuffle l ≡ₚ l) ->
  group1_id ≠ group2_id ->
  search_group_id group1_id s = Ok (Some g1) s ->
  search_group_id group2_id s = Ok (Some g2) s ->
  roster_holds s g1 l1 ->
  roster_holds s g2 l2 ->
  2 <= tier_count high (l1 ++ l2) ->
  3 <= tier_count mid (l1 ++ l2) ->
  2 <= tier_count low (l1 ++ l2) ->
  (length (l1 ++ l2) <= fuel)%nat ->
  exists s' l1' l2',
    reshuffle shuffle fuel group1_id group2_id s = Ok (Reshuffled g1 g2) s' /\
    roster_holds s' g1 l1' /\
    roster_holds s' g2 l2' /\
    tier_count high l1' = 2 /\ tier_count mid l1' = 3 /\
    tier_count low l1' = 2 /\ length l1' = 7%nat /\
    counters s' g1 = Some (2, 3, 2, 7) /\
    l1' ++ l2' ≡ₚ l1 ++ l2 /\
    (length l1' + length l2' = length l1 + length l2)%nat.
Proof.
  intros Hperm Hids Hs1 Hs2 (n1 & c1 & Hg1 & Hc1 & H1)
    (n2 & c2 & Hg2 & Hc2 & H2) Hh Hm Hl Hf.
  destruct (search_group_id_Some _ _ _ Hs1) as (n1' & Hg1' & Hid1).
  destruct (search_group_id_Some _ _ _ Hs2) as (n2' & Hg2' & Hid2).
  rewrite Hg1 in Hg1'. injection Hg1' as <-.
  rewrite Hg2 in Hg2'. injection Hg2' as <-.
  assert (Hne : g1 ≠ g2).
  { intros ->. rewrite Hg1 in Hg2. injection Hg2 as ->. congruence. }
  rewrite length_app in Hf.
  assert (Hlen1 : length c1 = length l1) by (by eapply Forall2_length).
  assert (Hlen2 : length c2 = length l2) by (by eapply Forall2_length).
  set (s1 := set_group_nodes
               (<[g1 := set_member_list n1 Member_init]> (group_nodes s)) s).
  set (sR := set_group_nodes
               (<[g2 := set_member_list n2 Member_init]> (group_nodes s1))
               s1).
  assert (Hg2s1 : group_nodes s1 !! g2 = Some n2)
    by (simpl; by rewrite list_lookup_insert_ne).
  set (pool := rev (shuffle (c1 ++ c2))).
  assert (Hpool : c1 ++ c2 ≡ₚ pool).
  { unfold pool. rewrite <- Permutation_rev. symmetry. apply Hperm. }
  destruct (Forall2_Permutation _ _ _ _ Hpool (Forall2_app H1 H2))
    as (xs & Hxs & Hpxs).
  assert (HdR : dealing g1 g2 sR [] []).
  { exists (set_member_list n1 Member_init), (set_member_list n2 Member_init),
      [], [].
    assert (Hl1 : (g1 < length (group_nodes s))%nat)
      by (by eapply lookup_lt_Some).
    assert (Hl2 : (g2 < length (group_nodes s))%nat)
      by (by eapply lookup_lt_Some).
    simpl. split.
    { rewrite list_lookup_insert_ne by done.
      by apply list_lookup_insert_eq. }
    split; [apply list_lookup_insert_eq; by rewrite length_insert|].
    split; [constructor|]. split; [constructor|].
    split; [constructor|]. split; [constructor|].
    split; [by intros a Ha%elem_of_nil|].
    unfold counters. simpl. rewrite list_lookup_insert_ne by done.
    by rewrite list_lookup_insert_eq. }
  assert (HqR : quota_inv (0, 0, 0) [] []) by (by vm_compute).
  destruct (distribute_deals fuel g1 g2 pool xs sR (0, 0, 0) [] [] Hne HdR HqR)
    as (s' & counts' & l1' & l2' & Hrun & Hd' & Hq' & Hp').
  { exact Hxs. }
  { simpl. apply Permutation_length in Hpool.
    rewrite length_app in Hpool. lia. }
  simpl in Hp'. rewrite app_nil_r in Hp'.
  assert (Hall : l1' ++ l2' ≡ₚ l1 ++ l2) by (by rewrite Hp', Hpxs).
  destruct counts' as [[cl cm] ch].
  destruct Hq' as (El & Em & Eh & Bl & Bm & Bh & Zl & Zm & Zh).
  pose proof (tier_count_Permutation high _ _ Hall) as Ph.
  pose proof (tier_count_Permutation mid _ _ Hall) as Pm.
  pose proof (tier_count_Permutation low _ _ Hall) as Pl.
  rewrite tier_count_app in Ph, Pm, Pl.
  assert (Nh : 0 <= tier_count high l2') by (unfold tier_count; lia).
  assert (Nm : 0 <= tier_count mid l2') by (unfold tier_count; lia).
  assert (Nl : 0 <= tier_count low l2') by (unfold tier_count; lia).
  assert (Ch : tier_count high l1' = 2).
  { destruct (decide (ch < 2)) as [Hlt|]; [|lia].
    specialize (Zh Hlt). lia. }
  assert (Cm : tier_count mid l1' = 3).
  { destruct (decide (cm < 3)) as [Hlt|]; [|lia].
    specialize (Zm Hlt). lia. }
  assert (Cl : tier_count low l1' = 2).
  { destruct (decide (cl < 2)) as [Hlt|]; [|lia].
    specialize (Zl Hlt). lia. }
  assert (L7 : length l1' = 7%nat).
  { pose proof (tier_count_length l1'). lia. }
  destruct Hd' as (a1 & a2 & d1 & d2 & Ha1 & Ha2 & Hd1 & Hd2 & F1 & F2
                   & _ & Hcnt).
  exists s', l1', l2'. split.
  - unfold reshuffle.
    rewrite (bind_ok _ _ _ _ _ Hs1), (bind_ok _ _ _ _ _ Hs2).
    rewrite (bind_ok _ _ _ _ _ (group_at_ok _ _ _ Hg1)).
    rewrite (bind_ok _ _ _ _ _ (collect_chain fuel s _ c1 Hc1 ltac:(lia))).
    rewrite (bind_ok _ _ _ _ _ (group_at_ok _ _ _ Hg2)).
    rewrite (bind_ok _ _ _ _ _ (collect_chain fuel s _ c2 Hc2 ltac:(lia))).
    rewrite (bind_ok _ _ _ _ _ (put_member_list_ok _ _ _ _ Hg1)).
    fold s1.
    rewrite (bind_ok _ _ _ _ _ (put_member_list_ok _ _ _ _ Hg2s1)).
    fold sR. fold pool.
    destruct pool as [|a pool'] eqn:Epool.
    + apply Permutation_nil_r in Hpool.
      apply (f_equal length) in Hpool. rewrite length_app in Hpool.
      simpl in Hpool. pose proof (tier_count_length (l1 ++ l2)) as Hsum.
      rewrite length_app in Hsum. lia.
    + by rewrite (bind_ok _ _ _ _ _ Hrun).
  - split; [by exists a1, d1|]. split; [by exists a2, d2|].
    repeat (split; [done|]).
    split; [by rewrite Hcnt, Ch, Cm, Cl, L7|].
    split; [done|].
    apply Permutation_length in Hall. by rewrite !length_app in Hall.
Qed.

(** ** The merge-eligibility sweep *)

Lemma py_in_id_groups gid (li : list nat) :
  py_in (PyInt gid) (PyGroup <$> li) = false.
Proof. induction li as [|gi li IH]; [done|]. simpl. exact IH. Qed.

Lemma merging_inner_skip fuel current_id s currs :
  Forall (fun gi => is_Some (group_nodes s !! gi)) currs ->
  merging_inner fuel current_id currs s = Ok tt s.
Proof.
  induction 1 as [|curr currs [c Hc] _ IH]; [done|]. simpl.
  rewrite (bind_ok _ _ _ _ _ (group_at_ok _ _ _ Hc)).
  rewrite bool_decide_eq_false_2 by lia. by mstep.
Qed.

Lemma merging_outer_skip fuel li s currents :
  Forall (fun gi => (gi < length (group_nodes s))%nat) currents ->
  merging_outer fuel (PyGroup <$> li) currents s = Ok tt s.
Proof.
  induction 1 as [|current currents Hlt _ IH]; [done|]. simpl.
  destruct (lookup_lt_is_Some_2 _ _ Hlt) as [g Hg].
  rewrite (bind_ok _ _ _ _ _ (group_at_ok _ _ _ Hg)).
  rewrite py_in_id_groups. simpl.
  assert (Hin : Forall (fun gi => is_Some (group_nodes s !! gi))
                  (seq 0 current)).
  { apply Forall_forall. intros gi Hgi. apply elem_of_seq in Hgi.
    apply lookup_lt_is_Some. lia. }
  by rewrite (bind_ok _ _ _ _ _ (merging_inner_skip fuel _ s _ Hin)).
Qed.

(** [possible_merging] merges nothing, in any state. *)
Lemma possible_merging_skip fuel s : possible_merging fuel s = Ok tt s.
Proof.
  unfold possible_merging. do 2 mstep.
  apply merging_outer_skip, Forall_forall.
  intros gi Hgi. apply elem_of_seq in Hgi. lia.
Qed.

(** C6.  Groups 1 and 2 of the driver, with 4 and 3 members, are both in
    [L2] of [classify_groups] and their members add up to 7, yet
    [possible_merging] returns leaving the state as it was: it has merged
    nothing. *)
Theorem possible_merging_merges_nothing :
  classify_groups after_departures
    = Ok ([], [0%nat; 1%nat]) after_departures /\
  counters after_departures 0 = Some (2, 2, 0, 4) /\
  counters after_departures 1 = Some (0, 1, 2, 3) /\
  possible_merging 7 after_departures = Ok tt after_departures.
Proof.
  split; [reflexivity|]. split; [reflexivity|]. split; [reflexivity|].
  apply possible_merging_skip.
Qed.

(** ** Merging *)

(** C2.  Groups 1 and 2 hold 4 and 2 members, together 2 high, 2 mid and
    2 low.  [merge_groups(1, 2)] returns [False], and the roster of group 1
    has changed: it now runs on through the members of group 2. *)
Theorem merge_rejection_mutates :
  roster 7 0 after_more_departures
    = Ok [Emma; Yogini; Fathima; Geetha] after_more_departures /\
  roster 7 1 after_more_departures
    = Ok [Devika; Alex] after_more_departures /\
  exists s',
    merge_groups 7 1 2 after_more_departures = Ok false s' /\
    roster 7 0 s' = Ok [Emma; Yogini; Fathima; Geetha; Devika; Alex] s' /\
    roster 7 1 s' = Ok [Devika; Alex] s'.
Proof.
  split; [reflexivity|]. split; [reflexivity|].
  exists (exec (merge_groups 7 1 2) after_more_departures).
  split; [reflexivity|]. split; reflexivity.
Qed.

(** Showing a chain of a given state. *)
Ltac show_chain :=
  repeat (eapply chain_cons; [reflexivity|simpl]); apply chain_nil.

(** C5.  In the driver's state after the departures the counters of both
    rosters agree with their members.  [merge_groups(1, 2)] returns [True]
    and leaves group 1 with 7 members, 2 of them high and 3 mid, while its
    counters still read 4 members, none high and 2 mid. *)
Theorem merge_leaves_counters_stale :
  Forall (fun g => roster_inv (member_store after_departures) (member_list g))
    (group_nodes after_departures) /\
  exists s' g,
    merge_groups 7 1 2 after_departures = Ok true s' /\
    group_nodes s' !! 0%nat = Some g /\
    roster 7 0 s'
      = Ok [Emma; Yogini; Fathima; Geetha; Devika; Alex; Sarah] s' /\
    counters s' 0 = Some (2, 2, 0, 4) /\
    ~ roster_inv (member_store s') (member_list g).
Proof.
  split.
  - repeat constructor.
    + exists [3; 4; 5; 6]%nat. split; [show_chain|by vm_compute].
    + exists [7; 8; 9]%nat. split; [show_chain|by vm_compute].
  - exists (exec (merge_groups 7 1 2) after_departures). eexists.
    split; [reflexivity|]. split; [reflexivity|].
    split; [reflexivity|]. split; [reflexivity|].
    intros (l & Hc & _ & _ & Hh & _).
    assert (Hc' : chain m_next
                    (member_store (exec (merge_groups 7 1 2) after_departures))
                    (Some 3%nat) [3; 4; 5; 6; 7; 8; 9]%nat) by show_chain.
    rewrite <- (chain_det _ _ _ _ _ Hc' Hc) in Hh. by vm_compute in Hh.
Qed.

(** ** A member leaves *)

Lemma search_from_lacks fuel s hd al member_id :
  chain m_next (member_store s) hd al ->
  Forall (fun a => forall n, member_store s !! a = Some n ->
                             m_student_id n ≠ member_id) al ->
  (length al <= fuel)%nat ->
  search_from fuel hd member_id s = Ok None s.
Proof.
  intros Hc. revert fuel.
  induction Hc as [|a n al Ha _ IH]; intros fuel Hno Hf; [by destruct fuel|].
  apply Forall_cons in Hno as [Hn Hno].
  destruct fuel as [|fuel]; simpl in *; [lia|].
  rewrite (bind_ok _ _ _ _ _ (member_at_ok _ _ _ Ha)).
  rewrite decide_False by (by apply Hn). apply IH; [done|lia].
Qed.

(** C7.  [Groups.delete_member] for a group id that is not in the directory,
    or for a member id that no node of the group's roster has, raises
    [AttributeError]; the directory is as it was. *)
Theorem delete_member_absent_raises (fuel : nat) (gid member_id : Z)
    (s : Groups) :
  search_group_id gid s = Ok None s \/
  (exists gi al, search_group_id gid s = Ok (Some gi) s /\
     roster_lacks s gi member_id al /\ (length al <= fuel)%nat) ->
  Groups_delete_member fuel gid member_id s = Raise AttributeError s.
Proof.
  intros [Hnone|(gi & al & Hsome & (g & Hg & Hc & Hno) & Hf)];
    unfold Groups_delete_member.
  - by rewrite (bind_ok _ _ _ _ _ Hnone).
  - rewrite (bind_ok _ _ _ _ _ Hsome). unfold search_member_id.
    rewrite bind_assoc, (bind_ok _ _ _ _ _ (group_at_ok _ _ _ Hg)).
    by rewrite (bind_ok _ _ _ _ _ (search_from_lacks _ _ _ _ _ Hc Hno Hf)).
Qed.

(** ** The theorems on the driver's scenario *)

Ltac show_queue al :=
  exists al; split; [split; [show_chain|reflexivity]|repeat constructor].

Ltac show_roster al :=
  eexists _, al; split; [reflexivity|];
  split; [show_chain|];
  repeat (constructor; [eexists; split; [reflexivity|by split]|]);
  constructor.

(** C3.  In the driver's scenario, once group 2 is merged into group 1 and
    the seven members of group 1 have left, group 1 has an empty roster while
    its counters read 0 low, -1 mid, -2 high and -3 members.  With exactly 2
    high, 3 mid and 2 low students waiting, [create_new_group] then seats the
    seven in group 1 and empties the three waiting lists, but returns [None]
    and takes one off [no_of_groups]: the counters of group 1 now read 4
    members, 2 of them low, 2 mid and none high. *)
Theorem create_new_group_stale_counters :
  (merge_groups 7 1 2 ;;
   Member_delete_member 7 0 5 ;; Member_delete_member 7 0 6 ;;
   Member_delete_member 7 0 7 ;; Member_delete_member 7 0 8 ;;
   Member_delete_member 7 0 10 ;; Member_delete_member 7 0 11 ;;
   Member_delete_member 7 0 12) after_departures
  = Ok true after_merge_emptied /\
  (enqueue_student high Amanda ;; enqueue_student high Bethany ;;
   enqueue_student mid Deborah ;; enqueue_student low Hannah ;;
   enqueue_student mid Michael ;; enqueue_student mid Ignacio ;;
   enqueue_student low Bartholomew) after_merge_emptied
  = Ok tt emptied_with_seven /\
  queue_holds emptied_with_seven high [Amanda; Bethany] /\
  queue_holds emptied_with_seven mid [Deborah; Michael; Ignacio] /\
  queue_holds emptied_with_seven low [Hannah; Bartholomew] /\
  roster_holds emptied_with_seven 0 [] /\
  counters emptied_with_seven 0 = Some (0, -1, -2, -3) /\
  no_of_groups emptied_with_seven = 2 /\
  exists s',
    create_new_group 7 emptied_with_seven = Ok None s' /\
    roster_holds s' 0
      [Amanda; Bethany; Deborah; Michael; Ignacio; Hannah; Bartholomew] /\
    counters s' 0 = Some (2, 2, 0, 4) /\
    queue_holds s' high [] /\ queue_holds s' mid [] /\
    queue_holds s' low [] /\
    no_of_groups s' = 1.
Proof.
  split; [by vm_compute|]. split; [by vm_compute|].
  split; [show_queue [14; 15]%nat|].
  split; [show_queue [16; 18; 19]%nat|].
  split; [show_queue [17; 20]%nat|].
  split; [eexists _, []; split; [reflexivity|]; split; constructor|].
  split; [reflexivity|]. split; [reflexivity|].
  eexists. split; [vm_compute; reflexivity|].
  split; [show_roster [14; 15; 16; 17; 18; 19; 20]%nat|].
  split; [reflexivity|].
  split; [show_queue (@nil addr)|].
  split; [show_queue (@nil addr)|].
  split; [show_queue (@nil addr)|reflexivity].
Qed.


Lemma create_new_group_not_formed_witness :
  create_new_group 7 waiting_short = Ok None waiting_short.
Proof.
  apply (create_new_group_not_formed 7 waiting_short
           [Amanda] [Deborah; Emma; Yogini; Sarah; Michael]
           [Fathima; Geetha]).
  - show_queue [0%nat].
  - show_queue [1; 2; 3; 4; 5]%nat.
  - show_queue [6; 7]%nat.
  - left. simpl. lia.
  - simpl. lia.
  - simpl. lia.
  - simpl. lia.
Defined.

Lemma delete_member_absent_raises_witness :
  Groups_delete_member 7 9 1 two_groups = Raise AttributeError two_groups /\
  Groups_delete_member 7 1 99 two_groups = Raise AttributeError two_groups.
Proof.
  split.
  - apply (delete_member_absent_raises 7 9 1 two_groups). by left.
  - apply (delete_member_absent_raises 7 1 99 two_groups). right.
    exists 0%nat, [0; 1; 2; 3; 4; 5; 6]%nat.
    split; [reflexivity|]. split; [|simpl; lia].
    eexists. split; [reflexivity|]. split; [show_chain|].
    repeat (constructor; [by intros n [= <-]|]). constructor.
Defined.

Lemma reshuffle_quota_witness :
  exists s' l1' l2',
    reshuffle (@rev addr) 14 1 2 two_groups = Ok (Reshuffled 0 1) s' /\
    roster_holds s' 0 l1' /\ roster_holds s' 1 l2' /\
    tier_count high l1' = 2 /\ tier_count mid l1' = 3 /\
    tier_count low l1' = 2 /\ length l1' = 7%nat /\
    counters s' 0 = Some (2, 3, 2, 7) /\
    (length l1' + length l2' = 14)%nat.
Proof.
  destruct (reshuffle_quota (@rev addr) 14 two_groups 1 2 0 1
              [Amanda; Bethany; Deborah; Emma; Yogini; Fathima; Geetha]
              [Devika; Alex; Sarah; Michael; Ignacio; Hannah; Bartholomew])
    as (s' & l1' & l2' & Hrun & H1 & H2 & Hh & Hm & Hl & H7 & Hc & _ & Hn).
  - intros l. symmetry. apply Permutation_rev.
  - lia.
  - reflexivity.
  - reflexivity.
  - show_roster [0; 1; 2; 3; 4; 5; 6]%nat.
  - show_roster [7; 8; 9; 10; 11; 12; 13]%nat.
  - by vm_compute.
  - by vm_compute.
  - by vm_compute.
  - simpl. lia.
  - exists s', l1', l2'. by repeat split.
Defined.


(** * Further properties of the code *)

(** ** Members leaving a roster *)

Lemma chain_unlink {N} (nxt : N -> option addr) (st : list N) hd l1 p b l2
    np nb np' :
  chain nxt st hd (l1 ++ p :: b :: l2) ->
  st !! p = Some np -> st !! b = Some nb ->
  nxt np' = nxt nb ->
  chain nxt (<[p := np']> st) hd (l1 ++ p :: l2).
Proof.
  intros Hc Hp Hb Hnx.
  assert (Hnd : NoDup (l1 ++ p :: b :: l2)) by (by eapply chain_NoDup).
  revert hd Hc Hnd. induction l1 as [|c l1 IH]; intros hd Hc Hnd; simpl in *.
  - inversion Hc as [|? n ? Hp' Hrest]; subst.
    inversion Hrest as [|? n' ? Hb' Hrest']; subst.
    rewrite Hb in Hb'. injection Hb' as <-.
    apply NoDup_cons in Hnd as [Hpn _].
    econstructor.
    + apply list_lookup_insert_eq. by eapply lookup_lt_Some.
    + rewrite Hnx. apply chain_frame; [done|].
      intros Hin. apply Hpn. by right.
  - inversion Hc as [|? n ? Hc0 Hrest]; subst.
    apply NoDup_cons in Hnd as [Hcn Hnd].
    econstructor.
    + rewrite list_lookup_insert_ne; [done|].
      intros ->. apply Hcn, elem_of_app. right. constructor.
    + by apply IH.
Qed.

Lemma node_holds_relinked ms ms' a x :
  relinked ms ms' -> node_holds ms a x -> node_holds ms' a x.
Proof.
  intros [_ Hdata] (n & Hn & Hx & Hl).
  destruct (Hdata a n Hn) as [nx Hn'].
  exists (set_m_next n nx). by destruct n.
Qed.

Lemma relinked_refl ms : relinked ms ms.
Proof.
  split; [done|]. intros a n Ha. exists (m_next n). by destruct n.
Qed.

Lemma relinked_insert ms p np nx :
  ms !! p = Some np -> relinked ms (<[p := set_m_next np nx]> ms).
Proof.
  intros Hp. split; [by rewrite length_insert|].
  intros a n Ha. destruct (decide (a = p)) as [->|Hne].
  - exists nx. rewrite list_lookup_insert_eq by (by eapply lookup_lt_Some).
    pose proof (eq_trans (eq_sym Ha) Hp) as Heq. by injection Heq as ->.
  - exists (m_next n). rewrite list_lookup_insert_ne by done.
    rewrite Ha. by destruct n.
Qed.

(** Run the first call of a sequence, given what it returns. *)
Ltac mrun H := rewrite ?bind_assoc; rewrite (bind_ok _ _ _ _ _ H); cbv beta.

(** The loop of [Member.delete_member]: it walks over [l1], whose nodes do
    not have the id, and unlinks [b], which has it, from the node before. *)
Lemma delete_after_run fuel gi sid s g : forall a l1 b l2 nb,
  group_nodes s !! gi = Some g ->
  chain m_next (member_store s) (Some a) (a :: l1 ++ b :: l2) ->
  Forall (fun c => forall n, member_store s !! c = Some n ->
                             m_student_id n ≠ sid) l1 ->
  member_store s !! b = Some nb -> m_student_id nb = sid ->
  (length l1 < fuel)%nat ->
  exists p np,
    last (a :: l1) = Some p /\ member_store s !! p = Some np /\
    delete_after fuel gi a sid s
    = Ok true
        (set_group_nodes
           (<[gi := set_member_list g
                      (count_removed (m_label nb) (member_list g)
                         (head (member_list g)))]> (group_nodes s))
           (set_member_store
              (<[p := set_m_next np (m_next nb)]> (member_store s)) s)).
Proof.
  induction fuel as [|fuel IH]; intros a l1 b l2 nb Hg Hc Hno Hb Hid Hf;
    [lia|].
  inversion Hc as [|? na ? Ha Hrest]; subst. simpl.
  mrun (member_at_ok _ _ _ Ha).
  destruct l1 as [|c l1]; simpl in *.
  - inversion Hrest as [|? nb' ? Hb' Hrest' Hnext]; subst.
    rewrite Hb in Hb'. injection Hb' as <-.
    mrun (member_at_ok _ _ _ Hb).
    rewrite decide_True by done.
    do 3 mstep.
    by exists a, na.
  - inversion Hrest as [|? nc ? Hc0 Hrest' Hnext]; subst.
    apply Forall_cons in Hno as [Hcid Hno].
    mrun (member_at_ok _ _ _ Hc0).
    rewrite decide_False by (by apply Hcid).
    rewrite <- Hnext in Hrest.
    destruct (IH c l1 b l2 nb Hg Hrest Hno Hb eq_refl ltac:(lia))
      as (p & np & Hlast & Hp & Hrun).
    exists p, np. split; [exact Hlast|done].
Qed.

Lemma set_member_store_same s : set_member_store (member_store s) s = s.
Proof. by destruct s. Qed.

Lemma not_id_nodes ms al l sid :
  Forall2 (node_holds ms) al l ->
  Forall (fun y => student_id_of y ≠ sid) l ->
  Forall (fun c => forall n, ms !! c = Some n -> m_student_id n ≠ sid) al.
Proof.
  induction 1 as [|a y al l (n & Hn & Hy & _) _ IH]; intros Hno;
    [constructor|].
  apply Forall_cons in Hno as [Hy' Hno]. constructor; [|by apply IH].
  intros n' Hn'. rewrite Hn in Hn'. injection Hn' as <-.
  by rewrite <- Hy in Hy'.
Qed.

(** [Member.delete_member] on a roster that holds the id. *)
Lemma delete_member_holds fuel gi sid s g al l1 x l2 :
  group_nodes s !! gi = Some g ->
  chain m_next (member_store s) (head (member_list g)) al ->
  Forall2 (node_holds (member_store s)) al (l1 ++ x :: l2) ->
  Forall (fun y => student_id_of y ≠ sid) l1 ->
  student_id_of x = sid ->
  (length l1 <= fuel)%nat ->
  exists ms' hd' al',
    Member_delete_member fuel gi sid s
    = Ok true
        (set_group_nodes
           (<[gi := set_member_list g
                      (count_removed (label_of (student_marks x))
                         (member_list g) hd')]> (group_nodes s))
           (set_member_store ms' s)) /\
    chain m_next ms' hd' al' /\
    Forall2 (node_holds ms') al' (l1 ++ l2) /\
    relinked (member_store s) ms'.
Proof.
  intros Hg Hc Hall Hno <- Hf.
  apply Forall2_app_inv_r in Hall as (a1 & a2' & H1 & H2 & ->).
  inversion H2 as [|b ? a2 ? Hx H2']; subst. clear H2.
  destruct Hx as (nb & Hb & Hx & Hlb). subst x.
  set (sid := student_id_of (member_student nb)) in *.
  assert (Hidb : m_student_id nb = sid) by done.
  unfold Member_delete_member. mrun (group_at_ok _ _ _ Hg).
  destruct a1 as [|a a1].
  - inversion H1; subst. simpl in Hc.
    inversion Hc as [|? nb' ? Hb' Hrest Hhd]; subst.
    rewrite Hb in Hb'. injection Hb' as <-.
    mrun (member_at_ok _ _ _ Hb). rewrite decide_True by done.
    mrun (put_member_list_ok gi g
            (count_removed (m_label nb) (member_list g) (m_next nb)) s Hg).
    exists (member_store s), (m_next nb), a2.
    rewrite set_member_store_same, Hlb.
    split; [done|]. split; [done|]. split; [done|apply relinked_refl].
  - inversion H1 as [|? y ? l1' Hy H1']; subst.
    apply Forall_cons in Hno as [Hyid Hno]. simpl in Hc, Hf.
    inversion Hc as [|? na ? Ha Hrest Hhd]; subst.
    destruct Hy as (na' & Ha' & Hy & Hly).
    rewrite Ha in Ha'. injection Ha' as <-.
    mrun (member_at_ok _ _ _ Ha).
    rewrite decide_False by (by rewrite <- Hy in Hyid).
    rewrite <- Hhd in Hc.
    pose proof (Forall2_length _ _ _ H1') as Hlen.
    destruct (delete_after_run fuel gi sid s g a a1 b a2 nb
                Hg Hc (not_id_nodes _ _ _ _ H1' Hno) Hb Hidb ltac:(lia))
      as (p & np & Hlast & Hp & Hrun).
    rewrite Hrun, <- Hlb, <- Hhd.
    apply last_Some in Hlast as [q Hq].
    eexists _, _, (a :: a1 ++ a2). split; [reflexivity|].
    assert (Hc' : chain m_next
                    (<[p := set_m_next np (m_next nb)]> (member_store s))
                    (Some a) (a :: a1 ++ a2)).
    { change (a :: a1 ++ a2) with ((a :: a1) ++ a2).
      change (a :: a1 ++ b :: a2) with ((a :: a1) ++ b :: a2) in Hc.
      rewrite Hq in Hc |- *. rewrite <- app_assoc in Hc |- *.
      simpl in Hc |- *.
      by apply (chain_unlink m_next _ _ q p b a2 np nb). }
    assert (Hrel : relinked (member_store s)
                     (<[p := set_m_next np (m_next nb)]> (member_store s)))
      by (by apply relinked_insert).
    split; [exact Hc'|]. split; [|exact Hrel].
    change (y :: l1' ++ l2) with ((y :: l1') ++ l2).
    change (a :: a1 ++ a2) with ((a :: a1) ++ a2).
    apply Forall2_app.
    + constructor.
      * eapply node_holds_relinked; [exact Hrel|]. by exists na.
      * eapply Forall2_impl; [exact H1'|]. intros c z.
        by apply node_holds_relinked.
    + eapply Forall2_impl; [exact H2'|]. intros c z.
      by apply node_holds_relinked.
Qed.

Lemma delete_after_absent fuel gi sid s : forall a l,
  chain m_next (member_store s) (Some a) (a :: l) ->
  Forall (fun c => forall n, member_store s !! c = Some n ->
                             m_student_id n ≠ sid) l ->
  (length l < fuel)%nat ->
  delete_after fuel gi a sid s = Ok false s.
Proof.
  induction fuel as [|fuel IH]; intros a l Hc Hno Hf; [lia|].
  inversion Hc as [|? na ? Ha Hrest]; subst. simpl.
  mrun (member_at_ok _ _ _ Ha).
  destruct l as [|c l].
  - by inversion Hrest as [Hnone|].
  - inversion Hrest as [|? nc ? Hc0 Hrest' Hnext]; subst.
    apply Forall_cons in Hno as [Hcid Hno].
    mrun (member_at_ok _ _ _ Hc0).
    rewrite decide_False by (by apply Hcid).
    rewrite <- Hnext in Hrest. apply (IH c l); [done|done|simpl in Hf; lia].
Qed.

Lemma counted_snoc l x :
  counted (label_of (student_marks x)) 1 (counters_of l)
  = counters_of (l ++ [x]).
Proof.
  unfold counted, counters_of. rewrite !tier_count_snoc, length_app. simpl.
  destruct (label_of _);
    repeat (case_decide; try congruence);
    repeat (apply (f_equal2 pair)); lia.
Qed.

Lemma tier_count_cons lb x l :
  tier_count lb (x :: l)
  = (if decide (label_of (student_marks x) = lb) then 1 else 0)
    + tier_count lb l.
Proof.
  unfold tier_count. rewrite filter_cons. case_decide; simpl length; lia.
Qed.

Lemma counted_remove l1 x l2 :
  counted (label_of (student_marks x)) (-1) (counters_of (l1 ++ x :: l2))
  = counters_of (l1 ++ l2).
Proof.
  unfold counted, counters_of.
  rewrite !tier_count_app, !tier_count_cons, !length_app. simpl.
  destruct (label_of _);
    repeat (case_decide; try congruence);
    repeat (apply (f_equal2 pair)); lia.
Qed.

Lemma counters_count_added gi g gs s lb hd c :
  group_nodes s !! gi = Some g ->
  counters s gi = Some c ->
  counters
    (set_group_nodes
       (<[gi := set_member_list g (count_added lb (member_list g) hd)]>
          (group_nodes s)) gs) gi
  = Some (counted lb 1 c).
Proof.
  intros Hg Hc. unfold counters in *. simpl.
  rewrite list_lookup_insert_eq by (by eapply lookup_lt_Some).
  rewrite Hg in Hc. simpl in *. injection Hc as <-. by destruct lb.
Qed.

Lemma counters_count_removed gi g gs s lb hd c :
  group_nodes s !! gi = Some g ->
  counters s gi = Some c ->
  counters
    (set_group_nodes
       (<[gi := set_member_list g (count_removed lb (member_list g) hd)]>
          (group_nodes s)) gs) gi
  = Some (counted lb (-1) c).
Proof.
  intros Hg Hc. unfold counters in *. simpl.
  rewrite list_lookup_insert_eq by (by eapply lookup_lt_Some).
  rewrite Hg in Hc. simpl in *. injection Hc as <-. by destruct lb.
Qed.

(** X1.  [Member.add_member] on a roster that holds the students [l]
    returns [True] and leaves the roster holding [l] followed by the new
    student; the counter of the new student's tier and the member count go up
    by one, so counters that agreed with the roster still agree; the waiting
    lists and the other group records are untouched. *)
Theorem add_member_appends (fuel gi : nat) (x : student) (s : Groups)
    (l : list student) (c : Z * Z * Z * Z) :
  roster_holds s gi l ->
  counters s gi = Some c ->
  (length l <= fuel)%nat ->
  exists s',
    add_member fuel gi x.1.1.2 x.1.2 x.2 x.1.1.1 s = Ok true s' /\
    roster_holds s' gi (l ++ [x]) /\
    counters s' gi = Some (counted (label_of (student_marks x)) 1 c) /\
    (c = counters_of l -> counters s' gi = Some (counters_of (l ++ [x]))) /\
    waiting_store s' = waiting_store s /\
    (forall t, waiting_list t s' = waiting_list t s) /\
    no_of_groups s' = no_of_groups s /\
    (forall gj, gj ≠ gi -> group_nodes s' !! gj = group_nodes s !! gj).
Proof.
  intros (g & al & Hg & Hc & Hall) Hcnt Hf.
  destruct (add_member_holds fuel gi x s l g al Hg Hc Hall)
    as (ms' & hd' & Hadd & Hc' & Hall' & _);
    [by rewrite (Forall2_length _ _ _ Hall)|].
  simpl in Hadd. eexists. split; [exact Hadd|].
  assert (Hcnt' := counters_count_added gi g (set_member_store ms' s) s
                     (label_of (student_marks x)) hd' c Hg Hcnt).
  split; [|split; [exact Hcnt'|split; [|split; [done|split; [|split]]]]].
  - eexists _, _. split; [simpl; apply list_lookup_insert_eq;
                          by eapply lookup_lt_Some|].
    by split.
  - intros ->. by rewrite Hcnt', counted_snoc.
  - intros t. by autorewrite with fields.
  - done.
  - intros gj Hne. simpl. by rewrite list_lookup_insert_ne.
Qed.

(** X2.  [Member.delete_member] for an id that the student [x] of the
    roster is the first to have returns [True] and leaves the roster holding
    the other students in their order; the counter of the tier of [x] and the
    member count go down by one, so counters that agreed with the roster
    still agree. *)
Theorem Member_delete_member_removes (fuel gi : nat) (sid : Z) (s : Groups)
    (l1 l2 : list student) (x : student) (c : Z * Z * Z * Z) :
  roster_holds s gi (l1 ++ x :: l2) ->
  Forall (fun y => student_id_of y ≠ sid) l1 ->
  student_id_of x = sid ->
  counters s gi = Some c ->
  (length l1 <= fuel)%nat ->
  exists s',
    Member_delete_member fuel gi sid s = Ok true s' /\
    roster_holds s' gi (l1 ++ l2) /\
    counters s' gi = Some (counted (label_of (student_marks x)) (-1) c) /\
    (c = counters_of (l1 ++ x :: l2) ->
     counters s' gi = Some (counters_of (l1 ++ l2))) /\
    waiting_store s' = waiting_store s /\
    (forall t, waiting_list t s' = waiting_list t s).
Proof.
  intros (g & al & Hg & Hc & Hall) Hno Hid Hcnt Hf.
  destruct (delete_member_holds fuel gi sid s g al l1 x l2 Hg Hc Hall Hno Hid Hf)
    as (ms' & hd' & al' & Hrun & Hc' & Hall' & _).
  eexists. split; [exact Hrun|].
  assert (Hcnt' := counters_count_removed gi g (set_member_store ms' s) s
                     (label_of (student_marks x)) hd' c Hg Hcnt).
  split; [|split; [exact Hcnt'|split; [|split; [done|]]]].
  - eexists _, _. split; [simpl; apply list_lookup_insert_eq;
                          by eapply lookup_lt_Some|].
    by split.
  - intros ->. by rewrite Hcnt', counted_remove.
  - intros t. by autorewrite with fields.
Qed.

(** X3.  [Member.delete_member] for an id that no student of the roster
    has returns [False] and changes nothing. *)
Theorem Member_delete_member_absent (fuel gi : nat) (sid : Z) (s : Groups)
    (l : list student) :
  roster_holds s gi l ->
  Forall (fun y => student_id_of y ≠ sid) l ->
  (length l <= fuel)%nat ->
  Member_delete_member fuel gi sid s = Ok false s.
Proof.
  intros (g & al & Hg & Hc & Hall) Hno Hf.
  pose proof (Forall2_length _ _ _ Hall) as Hlen.
  pose proof (not_id_nodes _ _ _ _ Hall Hno) as Hno'.
  unfold Member_delete_member. mrun (group_at_ok _ _ _ Hg).
  destruct (head (member_list g)) as [hd|] eqn:Hhd; [|done].
  inversion Hc as [|a na al0 Ha Hrest]; subst.
  apply Forall_cons in Hno' as [Hna Hno'].
  mrun (member_at_ok _ _ _ Ha). rewrite decide_False by (by apply Hna).
  apply (delete_after_absent _ _ _ _ hd al0); [done|done|].
  simpl in Hlen. lia.
Qed.

Lemma search_from_find fuel s sid : forall hd al l,
  chain m_next (member_store s) hd al ->
  Forall2 (node_holds (member_store s)) al l ->
  (length l <= fuel)%nat ->
  exists r,
    search_from fuel hd sid s = Ok r s /\
    match list_find (fun x => student_id_of x = sid) l with
    | Some (_, x) => exists a, r = Some a /\ node_holds (member_store s) a x
    | None => r = None
    end.
Proof.
  induction fuel as [|fuel IH]; intros hd al l Hc Hall Hf.
  - destruct l; [|simpl in Hf; lia]. inversion Hall; subst.
    inversion Hc; subst. by exists None.
  - inversion Hc as [|a n al0 Ha Hrest]; subst.
    + inversion Hall; subst. by exists None.
    + inversion Hall as [|? x ? l0 Hx Hall0]; subst. simpl.
      mrun (member_at_ok _ _ _ Ha).
      pose proof Hx as (n' & Hn' & Hxs & _).
      rewrite Ha in Hn'. injection Hn' as <-.
      assert (Hid : m_student_id n = student_id_of x) by (by rewrite <- Hxs).
      rewrite Hid. case_decide as Hd.
      * exists (Some a). split; [done|]. eauto.
      * destruct (IH _ _ _ Hrest Hall0 ltac:(simpl in Hf; lia))
          as (r & Hrun & Hr).
        exists r. split; [done|].
        destruct (list_find _ l0) as [[i y]|]; simpl; done.
Qed.

(** X4.  [Member.search_member_id] changes nothing and returns the node of
    the first student of the roster with the id, or [None] when no student
    of the roster has it. *)
Theorem search_member_id_first (fuel gi : nat) (sid : Z) (s : Groups)
    (l : list student) :
  roster_holds s gi l ->
  (length l <= fuel)%nat ->
  exists r,
    search_member_id fuel gi sid s = Ok r s /\
    match list_find (fun x => student_id_of x = sid) l with
    | Some (_, x) => exists a, r = Some a /\ node_holds (member_store s) a x
    | None => r = None
    end.
Proof.
  intros (g & al & Hg & Hc & Hall) Hf.
  unfold search_member_id. mrun (group_at_ok _ _ _ Hg).
  by eapply search_from_find.
Qed.

(** ** Merging two rosters *)

Lemma count_labels_chain fuel s : forall hd al l h m lo,
  chain m_next (member_store s) hd al ->
  Forall2 (node_holds (member_store s)) al l ->
  (length al <= fuel)%nat ->
  count_labels fuel hd h m lo s
  = Ok (h + tier_count high l, m + tier_count mid l, lo + tier_count low l) s.
Proof.
  induction fuel as [|fuel IH]; intros hd al l h m lo Hc Hall Hf.
  - destruct al; [|simpl in Hf; lia]. inversion Hall; subst.
    inversion Hc; subst. simpl. unfold ret, tier_count. simpl.
    by rewrite !Z.add_0_r.
  - inversion Hc as [|a n al0 Ha Hrest]; subst.
    + inversion Hall; subst. simpl. unfold ret, tier_count. simpl.
      by rewrite !Z.add_0_r.
    + inversion Hall as [|? x ? l0 (n' & Hn' & Hx & Hl) Hall0]; subst.
      rewrite Ha in Hn'. injection Hn' as <-. simpl.
      mrun (member_at_ok _ _ _ Ha). rewrite !tier_count_cons.
      simpl in Hf. simpl in Hl.
      rewrite Hl.
      destruct (label_of (student_marks (member_student n))) eqn:El;
        rewrite (IH _ _ _ _ _ _ Hrest Hall0) by lia;
        repeat (case_decide; try congruence); f_equal;
        repeat (apply (f_equal2 pair)); lia.
Qed.

(** X5.  [merge_groups] on two groups whose rosters have no node in common,
    the first not empty: the roster of the first group becomes its students
    followed by those of the second, and its counters stay as they were.
    The call returns [True] exactly when the joined roster has 2 high, 3 mid
    and 2 low students, and then the second group is left empty with zero
    counters; otherwise it returns [False] and the second group keeps its
    roster and counters.  The waiting lists are untouched. *)
Theorem merge_groups_joins (fuel : nat) (id1 id2 : Z) (s : Groups)
    (g1 g2 : nat) (l1 l2 : list student) :
  search_group_id id1 s = Ok (Some g1) s ->
  search_group_id id2 s = Ok (Some g2) s ->
  rosters_apart s g1 g2 l1 l2 ->
  l1 ≠ [] ->
  (length (l1 ++ l2) <= fuel)%nat ->
  exists s',
    merge_groups fuel id1 id2 s
      = Ok (bool_decide (valid_composition (l1 ++ l2))) s' /\
    roster_holds s' g1 (l1 ++ l2) /\
    counters s' g1 = counters s g1 /\
    (valid_composition (l1 ++ l2) ->
       roster_holds s' g2 [] /\ counters s' g2 = Some (0, 0, 0, 0)) /\
    (~ valid_composition (l1 ++ l2) ->
       roster_holds s' g2 l2 /\ counters s' g2 = counters s g2) /\
    waiting_store s' = waiting_store s /\
    (forall t, waiting_list t s' = waiting_list t s).
Proof.
  intros Hs1 Hs2 (n1 & n2 & c1 & c2 & Hg1 & Hg2 & Hc1 & Hc2 & H1 & H2 & Hdis)
    Hne Hf.
  pose proof (Forall2_length _ _ _ H1) as Hlen1.
  pose proof (Forall2_length _ _ _ H2) as Hlen2.
  rewrite length_app in Hf.
  destruct c1 as [|tl q _] using rev_ind.
  { inversion H1; subst. done. }
  destruct (chain_last _ _ _ _ _ Hc1) as (ntl & Htl & Hnx).
  assert (Hhd : exists a, head (member_list n1) = Some a).
  { destruct q; inversion Hc1; eauto. }
  destruct Hhd as [a Hhd]. rewrite Hhd in Hc1.
  assert (Hng : g1 ≠ g2).
  { intros ->. rewrite Hg1 in Hg2. injection Hg2 as <-.
    rewrite Hhd in Hc2. pose proof (chain_det _ _ _ _ _ Hc1 Hc2) as <-.
    apply (Hdis tl); apply elem_of_app; right; constructor. }
  set (ms' := <[tl := set_m_next ntl (head (member_list n2))]>
                (member_store s)).
  assert (Hc' : chain m_next ms' (Some a) (q ++ tl :: c2)).
  { apply (chain_splice m_next _ _ q tl ntl); try done.
    apply (Hdis tl). apply elem_of_app. right. constructor. }
  assert (Hrel : relinked (member_store s) ms')
    by (by apply relinked_insert).
  assert (Hall' : Forall2 (node_holds ms') (q ++ tl :: c2) (l1 ++ l2)).
  { change (q ++ tl :: c2) with (q ++ [tl] ++ c2). rewrite app_assoc.
    apply Forall2_app; (eapply Forall2_impl; [eassumption|]);
      intros b y; by apply node_holds_relinked. }
  assert (Hc2' : chain m_next ms' (head (member_list n2)) c2).
  { apply chain_frame; [done|]. apply (Hdis tl).
    apply elem_of_app. right. constructor. }
  assert (H2' : Forall2 (node_holds ms') c2 l2).
  { eapply Forall2_impl; [exact H2|]. intros b y.
    by apply node_holds_relinked. }
  assert (Hcount : count_labels fuel (Some a) 0 0 0 (set_member_store ms' s)
            = Ok (tier_count high (l1 ++ l2), tier_count mid (l1 ++ l2),
                  tier_count low (l1 ++ l2)) (set_member_store ms' s)).
  { rewrite (count_labels_chain fuel _ (Some a) (q ++ tl :: c2) (l1 ++ l2));
      [done|done|done|].
    rewrite length_app in *. simpl in *. lia. }
  assert (Hmerge : merge_members fuel (Some a) (head (member_list n2)) s
            = Ok (if bool_decide (valid_composition (l1 ++ l2))
                  then Some a else None) (set_member_store ms' s)).
  { unfold merge_members.
    rewrite (bind_ok _ _ _ _ _ (last_node_chain fuel s a q tl Hc1 ltac:(lia))).
    mrun (put_member_next_ok tl ntl (head (member_list n2)) s Htl).
    fold ms'. mrun Hcount.
    unfold valid_composition. case_decide as Hd; case_bool_decide as Hv;
      try done; exfalso; lia. }
  destruct (search_group_id_Some _ _ _ Hs2) as (n2' & Hg2' & Hid2).
  rewrite Hg2 in Hg2'. injection Hg2' as <-.
  assert (Hl1 : (g1 < length (group_nodes s))%nat)
    by (by eapply lookup_lt_Some).
  assert (Hl2 : (g2 < length (group_nodes s))%nat)
    by (by eapply lookup_lt_Some).
  unfold merge_groups. mrun Hs1. mrun Hs2.
  mrun (group_at_ok _ _ _ Hg1). mrun (group_at_ok _ _ _ Hg2).
  rewrite Hhd. mrun Hmerge.
  case_bool_decide as Hv.
  - (* accepted *)
    set (m1 := mkMember (Some a) (number_of_members (member_list n1))
                 (count_low (member_list n1)) (count_mid (member_list n1))
                 (count_high (member_list n1))).
    set (sA := set_group_nodes
                 (<[g1 := set_member_list n1 m1]> (group_nodes s))
                 (set_member_store ms' s)).
    mrun (put_member_list_ok g1 n1 m1 (set_member_store ms' s) Hg1).
    fold sA.
    assert (HsA : search_group_id (group_id n2) sA = Ok (Some g2) sA).
    { unfold search_group_id in *. injection Hs2 as Hs2. f_equal.
      simpl. rewrite <- Hs2. rewrite Hid2.
      destruct (search_group_id_Some _ _ _ Hs1) as (n1' & Hg1' & Hid1).
      rewrite Hg1 in Hg1'. injection Hg1' as <-.
      assert (Hsame : forall gs : list GroupListNode,
                group_id <$> gs = group_id <$> group_nodes s ->
                fst <$> list_find (fun g => group_id g = id2) gs
                = fst <$> list_find (fun g => group_id g = id2)
                            (group_nodes s)).
      { intros gs. generalize (group_nodes s). clear.
        induction gs as [|g gs IH]; intros gs' Heq;
          destruct gs' as [|g' gs']; try done.
        simpl in Heq. injection Heq as Hg Heq. simpl.
        rewrite Hg. case_decide; [done|].
        specialize (IH _ Heq).
        destruct (list_find _ gs) as [[? ?]|], (list_find _ gs') as [[? ?]|];
          simpl in *; congruence. }
      apply Hsame. rewrite list_fmap_insert. simpl.
      apply list_insert_id. by rewrite list_lookup_fmap, Hg1. }
    unfold remove_group. mrun HsA.
    assert (Hg2A : group_nodes sA !! g2 = Some n2)
      by (simpl; by rewrite list_lookup_insert_ne).
    mrun (put_member_list_ok g2 n2 Member_init sA Hg2A).
    eexists. split; [reflexivity|]. simpl.
    split; [|split; [|split; [|split; [done|split; [done|]]]]].
    + exists (set_member_list n1 m1), (q ++ tl :: c2). simpl.
      rewrite list_lookup_insert_ne by done.
      rewrite list_lookup_insert_eq by done. done.
    + unfold counters. simpl. rewrite list_lookup_insert_ne by done.
      rewrite list_lookup_insert_eq by done. by rewrite Hg1.
    + intros _. split.
      * exists (set_member_list n2 Member_init), []. simpl.
        rewrite list_lookup_insert_eq by (by rewrite length_insert).
        split; [done|]. split; constructor.
      * unfold counters. simpl.
        by rewrite list_lookup_insert_eq by (by rewrite length_insert).
    + intros t. by autorewrite with fields.
  - (* rejected *)
    eexists. split; [reflexivity|]. simpl.
    split; [|split; [done|split; [done|split; [|split; [done|]]]]].
    + exists n1, (q ++ tl :: c2). by rewrite Hhd.
    + intros _. split; [by exists n2, c2|done].
    + intros t. by autorewrite with fields.
Qed.

(** X6.  [merge_groups] raises [AttributeError] and changes nothing when
    one of the ids is not in the directory, or when the first group has an
    empty roster. *)
Theorem merge_groups_raises (fuel : nat) (id1 id2 : Z) (s : Groups) :
  search_group_id id1 s = Ok None s \/
  search_group_id id2 s = Ok None s \/
  (exists g1 n1, search_group_id id1 s = Ok (Some g1) s /\
     group_nodes s !! g1 = Some n1 /\ head (member_list n1) = None) ->
  merge_groups fuel id1 id2 s = Raise AttributeError s.
Proof.
  intros H. unfold merge_groups.
  destruct (search_group_id_run id1 s) as (r1 & Hr1 & Hg1).
  destruct (search_group_id_run id2 s) as (r2 & Hr2 & Hg2).
  mrun Hr1. mrun Hr2.
  destruct H as [H|[H|(g1 & n1 & H & Hn1 & Hhd)]].
  - rewrite Hr1 in H. by injection H as ->.
  - rewrite Hr2 in H. injection H as ->. by destruct r1.
  - rewrite Hr1 in H. injection H as ->.
    destruct r2 as [g2|]; [|done].
    destruct Hg2 as (n2 & Hn2 & _).
    mrun (group_at_ok _ _ _ Hn1). mrun (group_at_ok _ _ _ Hn2).
    by rewrite Hhd.
Qed.

(** ** Merging rosters that share nodes *)

Lemma bind_out_of_fuel {A B} (c : M A) (k : A -> M B) s :
  c s = OutOfFuel -> bind c k s = OutOfFuel.
Proof. unfold bind. by intros ->. Qed.

Lemma last_node_outcome fuel s : forall a c,
  chain m_next (member_store s) (Some a) c ->
  last_node fuel a s = OutOfFuel \/
  exists tl, last c = Some tl /\ last_node fuel a s = Ok tl s.
Proof.
  induction fuel as [|fuel IH]; intros a c Hc; [by left|].
  inversion Hc as [|? n c0 Ha Hrest]; subst. simpl.
  mrun (member_at_ok _ _ _ Ha).
  destruct (m_next n) as [b|] eqn:Hnx.
  - destruct (IH b c0 Hrest) as [Hout|(tl & Hlast & Hrun)]; [by left|].
    right. exists tl. split; [|done].
    destruct c0; [done|]. by rewrite last_cons_cons.
  - right. exists a. inversion Hrest; subst. done.
Qed.

(** Following [next] from a node of a set that [next] never leaves. *)
Lemma count_labels_loops fuel s (S : list addr) : forall a h m lo,
  (forall b, b ∈ S ->
     exists n b', member_store s !! b = Some n /\ m_next n = Some b' /\
                  b' ∈ S) ->
  a ∈ S ->
  count_labels fuel (Some a) h m lo s = OutOfFuel.
Proof.
  induction fuel as [|fuel IH]; intros a h m lo Hclosed Ha; [done|].
  destruct (Hclosed a Ha) as (n & b & Hn & Hnx & Hb). simpl.
  mrun (member_at_ok _ _ _ Hn). rewrite Hnx.
  destruct (m_label n); by apply IH.
Qed.

Lemma chain_step {N} (nxt : N -> option addr) (st : list N) hd c b :
  chain nxt st hd c -> b ∈ c ->
  exists n, st !! b = Some n /\
    (nxt n = None /\ last c = Some b \/ exists b', nxt n = Some b' /\ b' ∈ c).
Proof.
  induction 1 as [|a n c Ha Hc IH]; intros Hb; [by apply elem_of_nil in Hb|].
  apply elem_of_cons in Hb as [->|Hb].
  - exists n. split; [done|]. inversion Hc as [Hnone|a' n' c' Ha' Hc' Hsome].
    + by left.
    + right. exists a'. split; [done|]. right. left.
  - destruct (IH Hb) as (nb & Hnb & Hcase). exists nb. split; [done|].
    destruct Hcase as [[Hnone Hlast]|(b' & Hnx & Hin)].
    + left. split; [done|]. destruct c; [done|]. by rewrite last_cons_cons.
    + right. exists b'. split; [done|by right].
Qed.

(** X7.  [merge_groups] on two groups with non-empty rosters where the last
    node of the first roster is on the second (the same group twice, or a
    pair whose merge was rejected before) never returns: the chain it counts
    closes on itself, whatever the step budget. *)
Theorem merge_groups_shared_tail_diverges (fuel : nat) (id1 id2 : Z)
    (s : Groups) (g1 g2 : nat) :
  search_group_id id1 s = Ok (Some g1) s ->
  search_group_id id2 s = Ok (Some g2) s ->
  rosters_share_tail s g1 g2 ->
  merge_groups fuel id1 id2 s = OutOfFuel.
Proof.
  intros Hs1 Hs2 (n1 & n2 & c1 & c2 & tl & Hg1 & Hg2 & Hc1 & Hc2 & Hlast & Hin).
  unfold merge_groups. mrun Hs1. mrun Hs2.
  mrun (group_at_ok _ _ _ Hg1). mrun (group_at_ok _ _ _ Hg2).
  destruct (head (member_list n1)) as [a|] eqn:Hhd1;
    [|inversion Hc1; subst; done].
  destruct (head (member_list n2)) as [a2|] eqn:Hhd2;
    [|inversion Hc2; subst; by apply elem_of_nil in Hin].
  apply bind_out_of_fuel. unfold merge_members.
  destruct (last_node_outcome fuel s a c1 Hc1) as [Hout|(tl' & Hl' & Hrun)];
    [by apply bind_out_of_fuel|].
  rewrite Hlast in Hl'. injection Hl' as <-.
  mrun Hrun.
  assert (Htl1 : tl ∈ c1) by (by apply last_Some_elem_of).
  assert (Htl : exists ntl, member_store s !! tl = Some ntl /\
                            m_next ntl = None).
  { apply last_Some in Hlast as [q ->]. by eapply chain_last. }
  destruct Htl as (ntl & Hntl & Hnone).
  mrun (put_member_next_ok tl ntl (Some a2) s Hntl).
  apply bind_out_of_fuel.
  apply (count_labels_loops _ _ (c1 ++ c2)).
  - intros b Hb. simpl.
    destruct (decide (b = tl)) as [->|Hne].
    + exists (set_m_next ntl (Some a2)), a2.
      rewrite list_lookup_insert_eq by (by eapply lookup_lt_Some).
      split; [done|]. split; [done|]. apply elem_of_app. right.
      inversion Hc2; subst. left.
    + rewrite list_lookup_insert_ne by done.
      apply elem_of_app in Hb as [Hb|Hb].
      * destruct (chain_step _ _ _ _ b Hc1 Hb)
          as (nb & Hnb & [[_ Hl]|(b' & Hnx & Hb')]).
        -- rewrite Hlast in Hl. by injection Hl as ->.
        -- exists nb, b'. split; [done|]. split; [done|].
           apply elem_of_app. by left.
      * destruct (chain_step _ _ _ _ b Hc2 Hb)
          as (nb & Hnb & [[_ Hl]|(b' & Hnx & Hb')]).
        -- destruct (chain_step _ _ _ _ tl Hc2 Hin)
             as (ntl' & Hntl' & [[_ Hl2]|(b' & Hnx' & _)]).
           ++ rewrite Hl in Hl2. by injection Hl2 as ->.
           ++ rewrite Hntl in Hntl'. injection Hntl' as <-. congruence.
        -- exists nb, b'. split; [done|]. split; [done|].
           apply elem_of_app. by right.
  - apply elem_of_app. left. inversion Hc1; subst. left.
Qed.

(** ** Groups of the directory *)

Lemma list_find_ids (id : Z) : forall gs gs' : list GroupListNode,
  group_id <$> gs = group_id <$> gs' ->
  fst <$> list_find (fun g => group_id g = id) gs
  = fst <$> list_find (fun g => group_id g = id) gs'.
Proof.
  induction gs as [|g gs IH]; intros gs' Heq; destruct gs' as [|g' gs'];
    try done.
  simpl in Heq. injection Heq as Hg Heq. simpl.
  rewrite Hg. case_decide; [done|].
  specialize (IH _ Heq).
  destruct (list_find _ gs) as [[? ?]|], (list_find _ gs') as [[? ?]|];
    simpl in *; congruence.
Qed.

(** [search_group_id] sees only the ids, in their order. *)
Lemma search_group_id_ids id s s' r :
  group_id <$> group_nodes s' = group_id <$> group_nodes s ->
  search_group_id id s = Ok r s ->
  search_group_id id s' = Ok r s'.
Proof.
  unfold search_group_id. intros Hids H. injection H as <-.
  by rewrite (list_find_ids id _ _ Hids).
Qed.

Lemma ids_set_member_list (gs : list GroupListNode) gi g m :
  gs !! gi = Some g ->
  group_id <$> <[gi := set_member_list g m]> gs = group_id <$> gs.
Proof.
  intros Hg. rewrite list_fmap_insert. simpl.
  apply list_insert_id. by rewrite list_lookup_fmap, Hg.
Qed.

(** X8.  [remove_group] for an id of the directory returns [True] and
    empties the roster of the first group with that id, setting its counters
    to zero; the group stays in the list under its id with its session
    ratings, [no_of_groups] is not decreased, and the other groups, the
    member nodes and the waiting lists are untouched.  For an id that is not
    in the directory it returns [False] and changes nothing. *)
Theorem remove_group_clears (gid : Z) (s : Groups) :
  (forall gi g,
     search_group_id gid s = Ok (Some gi) s ->
     group_nodes s !! gi = Some g ->
     exists s',
       remove_group gid s = Ok true s' /\
       group_nodes s' !! gi
         = Some (mkGroupListNode gid Member_init (session_rating g)) /\
       roster_holds s' gi [] /\
       counters s' gi = Some (0, 0, 0, 0) /\
       search_group_id gid s' = Ok (Some gi) s' /\
       (forall gj, gj ≠ gi -> group_nodes s' !! gj = group_nodes s !! gj) /\
       length (group_nodes s') = length (group_nodes s) /\
       no_of_groups s' = no_of_groups s /\
       member_store s' = member_store s /\
       waiting_store s' = waiting_store s /\
       (forall t, waiting_list t s' = waiting_list t s)) /\
  (search_group_id gid s = Ok None s -> remove_group gid s = Ok false s).
Proof.
  split.
  - intros gi g Hs Hg.
    destruct (search_group_id_Some _ _ _ Hs) as (g' & Hg' & Hid).
    rewrite Hg in Hg'. injection Hg' as <-.
    unfold remove_group. mrun Hs.
    mrun (put_member_list_ok gi g Member_init s Hg).
    assert (Hlt : (gi < length (group_nodes s))%nat)
      by (by eapply lookup_lt_Some).
    eexists. split; [reflexivity|]. simpl.
    rewrite list_lookup_insert_eq by done.
    split; [by rewrite <- Hid; destruct g|].
    split.
    { eexists _, []. simpl. rewrite list_lookup_insert_eq by done.
      split; [done|]. split; constructor. }
    split; [unfold counters; simpl; by rewrite list_lookup_insert_eq|].
    split.
    { eapply search_group_id_ids; [|exact Hs]. simpl.
      by apply ids_set_member_list. }
    split; [intros gj Hne; by rewrite list_lookup_insert_ne|].
    split; [by rewrite length_insert|].
    repeat (split; [done|]). intros t. by autorewrite with fields.
  - intros Hs. unfold remove_group. by mrun Hs.
Qed.

(** X9.  [add_new_group] appends a group with the given id, an empty roster
    and zero counters, returns it and adds one to [no_of_groups].  It does
    not look at the ids in use: when the id was free [search_group_id] now
    finds the new group, and when it was taken [search_group_id] keeps
    finding the old group, never the new one. *)
Theorem add_new_group_appends (gid : Z) (s : Groups) :
  exists s',
    add_new_group gid s = Ok (length (group_nodes s)) s' /\
    group_nodes s' = group_nodes s ++ [GroupListNode_init gid] /\
    roster_holds s' (length (group_nodes s)) [] /\
    counters s' (length (group_nodes s)) = Some (0, 0, 0, 0) /\
    no_of_groups s' = no_of_groups s + 1 /\
    (search_group_id gid s = Ok None s ->
     search_group_id gid s' = Ok (Some (length (group_nodes s))) s') /\
    (forall gi, search_group_id gid s = Ok (Some gi) s ->
       search_group_id gid s' = Ok (Some gi) s' /\
       (gi < length (group_nodes s))%nat).
Proof.
  eexists. split; [apply add_new_group_ok|]. simpl.
  split; [done|]. split.
  { eexists _, []. simpl. rewrite list_lookup_middle by done.
    split; [done|]. split; constructor. }
  split; [unfold counters; simpl; by rewrite list_lookup_middle|].
  split; [done|].
  unfold search_group_id. simpl. split.
  - intros H. injection H as H. f_equal.
    destruct (list_find _ (group_nodes s)) as [[i g]|] eqn:Hfind; [done|].
    rewrite list_find_app_r by done. simpl.
    by rewrite decide_True by done.
  - intros gi H. injection H as H.
    destruct (list_find _ (group_nodes s)) as [[i g]|] eqn:Hfind; [|done].
    simpl in H. injection H as ->.
    rewrite (list_find_app_l _ _ _ _ _ Hfind). split; [done|].
    apply list_find_Some in Hfind as [Hi _]. by eapply lookup_lt_Some.
Qed.

(** X13.  [possible_merging] returns without changing anything, in every
    state and for every step budget: its test can never hold, so it never
    calls [merge_groups]. *)
Theorem possible_merging_changes_nothing (fuel : nat) (s : Groups) :
  possible_merging fuel s = Ok tt s.
Proof.
  unfold possible_merging. do 2 mstep.
  apply merging_outer_skip, Forall_forall.
  intros gi Hgi. apply elem_of_seq in Hgi. lia.
Qed.

(** X14.  [reshuffle] returns its not-found result and changes nothing when
    one of the ids is not in the directory.  On two existing groups whose
    rosters are both empty it raises [IndexError] (the pool has nothing to
    pop), having reset the counters of both. *)
Theorem reshuffle_edge_cases (shuffle : list addr -> list addr)
    (fuel : nat) (id1 id2 : Z) (s : Groups) :
  (forall l, shuffle l ≡ₚ l) ->
  (search_group_id id1 s = Ok None s \/ search_group_id id2 s = Ok None s ->
   reshuffle shuffle fuel id1 id2 s = Ok NotFound s) /\
  (forall g1 g2 n1 n2,
     search_group_id id1 s = Ok (Some g1) s ->
     search_group_id id2 s = Ok (Some g2) s ->
     group_nodes s !! g1 = Some n1 -> group_nodes s !! g2 = Some n2 ->
     head (member_list n1) = None -> head (member_list n2) = None ->
     exists s',
       reshuffle shuffle fuel id1 id2 s = Raise IndexError s' /\
       counters s' g1 = Some (0, 0, 0, 0) /\
       counters s' g2 = Some (0, 0, 0, 0)).
Proof.
  intros Hperm. split.
  - intros H. unfold reshuffle.
    destruct (search_group_id_run id1 s) as (r1 & Hr1 & _).
    destruct (search_group_id_run id2 s) as (r2 & Hr2 & _).
    mrun Hr1. mrun Hr2.
    destruct H as [H|H].
    + rewrite Hr1 in H. by injection H as ->.
    + rewrite Hr2 in H. injection H as ->. by destruct r1.
  - intros g1 g2 n1 n2 Hs1 Hs2 Hg1 Hg2 Hh1 Hh2.
    unfold reshuffle. mrun Hs1. mrun Hs2.
    mrun (group_at_ok _ _ _ Hg1). rewrite Hh1.
    assert (Hcol : forall st, collect fuel None st = Ok [] st)
      by (intros st; by destruct fuel).
    mrun (Hcol s). mrun (group_at_ok _ _ _ Hg2). rewrite Hh2. mrun (Hcol s).
    assert (Hsh : shuffle [] = []) by apply Permutation_nil_r, Hperm.
    simpl. rewrite Hsh. simpl.
    mrun (put_member_list_ok g1 n1 Member_init s Hg1).
    assert (Hl1 : (g1 < length (group_nodes s))%nat)
      by (by eapply lookup_lt_Some).
    assert (Hl2 : (g2 < length (group_nodes s))%nat)
      by (by eapply lookup_lt_Some).
    assert (Hg2' : exists n2',
              <[g1 := set_member_list n1 Member_init]> (group_nodes s) !! g2
              = Some n2').
    { apply lookup_lt_is_Some. by rewrite length_insert. }
    destruct Hg2' as [n2' Hg2'].
    mrun (put_member_list_ok g2 n2' Member_init
            (set_group_nodes
               (<[g1 := set_member_list n1 Member_init]> (group_nodes s)) s)
            Hg2').
    eexists. split; [reflexivity|]. unfold counters. simpl.
    split.
    + destruct (decide (g1 = g2)) as [->|Hne].
      * by rewrite list_lookup_insert_eq by (by rewrite length_insert).
      * rewrite list_lookup_insert_ne by done.
        by rewrite list_lookup_insert_eq.
    + by rewrite list_lookup_insert_eq by (by rewrite length_insert).
Qed.

(** ** A member leaves a group *)

Lemma list_find_first (sid : Z) (l1 l2 : list student) x :
  Forall (fun y => student_id_of y ≠ sid) l1 ->
  student_id_of x = sid ->
  list_find (fun y => student_id_of y = sid) (l1 ++ x :: l2)
  = Some (length l1, x).
Proof.
  intros Hno Hx. rewrite list_find_app_r by (by apply list_find_None).
  simpl. by rewrite decide_True by done.
Qed.

(** X11.  [Groups.delete_member] for a member [x] of the group: when a
    student [w] waits in the list of the tier of [x], [w] leaves that list
    and joins the end of the roster while [x] leaves the roster; when nobody
    waits there the roster only loses [x].  The counters follow both steps,
    the other waiting lists keep what they hold, and the merging pass at the
    end changes nothing. *)
Theorem Groups_delete_member_backfills (fuel : nat) (gid mid_ : Z)
    (s : Groups) (gi : nat) (l1 l2 : list student) (x : student)
    (c : Z * Z * Z * Z) (q : list student) :
  search_group_id gid s = Ok (Some gi) s ->
  roster_holds s gi (l1 ++ x :: l2) ->
  Forall (fun y => student_id_of y ≠ mid_) l1 ->
  student_id_of x = mid_ ->
  counters s gi = Some c ->
  queue_holds s (label_of (student_marks x)) q ->
  (S (length (l1 ++ x :: l2)) <= fuel)%nat ->
  exists s',
    Groups_delete_member fuel gid mid_ s = Ok tt s' /\
    match q with
    | [] =>
        roster_holds s' gi (l1 ++ l2) /\
        queue_holds s' (label_of (student_marks x)) [] /\
        counters s' gi = Some (counted (label_of (student_marks x)) (-1) c)
    | w :: q' =>
        roster_holds s' gi (l1 ++ l2 ++ [w]) /\
        queue_holds s' (label_of (student_marks x)) q' /\
        counters s' gi
        = Some (counted (label_of (student_marks x)) (-1)
                  (counted (label_of (student_marks w)) 1 c))
    end /\
    (forall t' q', t' ≠ label_of (student_marks x) ->
       queue_holds s t' q' -> queue_holds s' t' q').
Proof.
  intros Hs (g & al & Hg & Hc & Hall) Hno Hx Hcnt Hq Hf. subst mid_.
  pose proof (eq_refl (student_id_of x)) as Hx.
  pose proof (Forall2_length _ _ _ Hall) as Hlen.
  set (t := label_of (student_marks x)) in *.
  assert (Hl1 : (length l1 <= fuel)%nat) by (rewrite length_app in Hf; lia).
  assert (Hgi : (gi < length (group_nodes s))%nat)
    by (by eapply lookup_lt_Some).
  unfold Groups_delete_member. mrun Hs.
  unfold search_member_id. mrun (group_at_ok _ _ _ Hg).
  destruct (search_from_find fuel s (student_id_of x) _ _ _ Hc Hall ltac:(lia))
    as (r & Hrun & Hr).
  rewrite (list_find_first _ _ _ _ Hno Hx) in Hr.
  destruct Hr as (b & -> & nb & Hnb & Hxb & Hlb).
  mrun Hrun. mrun (member_at_ok _ _ _ Hnb). rewrite Hlb. fold t.
  clear Hxb Hlb.
  destruct Hq as (wal & Hwq & Hwall).
  destruct q as [|w q'].
  - inversion Hwall; subst wal.
    mrun (dequeue_queue_empty _ _ Hwq).
    destruct (delete_member_holds fuel gi (student_id_of x) s g al l1 x l2
                Hg Hc Hall Hno Hx Hl1)
      as (ms' & hd' & al' & Hdel & Hc' & Hall' & _).
    mstep. mrun Hdel. rewrite possible_merging_skip.
    eexists. split; [reflexivity|]. split; [split; [|split]|].
    + eexists _, al'. simpl. rewrite list_lookup_insert_eq by done. done.
    + exists []. split; [|constructor].
      simpl. by autorewrite with fields.
    + by apply (counters_count_removed gi g _ s t hd' c).
    + intros t' q' _ Hq'. eapply queue_holds_ext; [| |exact Hq']; [done|].
      by autorewrite with fields.
  - inversion Hwall as [|a ? wal' ? Ha Hwrest]; subst.
    destruct (dequeue_queue _ s a wal' Hwq) as (wq & Hdq & Hwq').
    destruct (waiting_store s !! a) as [wn|] eqn:Hwn; [|done].
    simpl in Ha. injection Ha as <-.
    set (s1 := set_waiting_list t wq s) in *.
    mrun Hdq. mrun (waiting_at_ok a wn s1 Hwn).
    destruct (add_member_holds fuel gi (student_of wn) s1 _ g al Hg Hc Hall)
      as (msA & hdA & Hadd & HcA & HallA & _); [lia|].
    simpl in Hadd. mrun Hadd.
    set (gA := set_member_list g
                 (count_added (label_of (student_marks (student_of wn)))
                    (member_list g) hdA)) in *.
    set (sA := set_group_nodes (<[gi := gA]> (group_nodes s))
                 (set_member_store msA s1)) in *.
    assert (HgA : group_nodes sA !! gi = Some gA)
      by (simpl; by apply list_lookup_insert_eq).
    rewrite <- app_assoc in HallA. simpl in HallA.
    destruct (delete_member_holds fuel gi (student_id_of x) sA gA _ l1 x
                (l2 ++ [student_of wn]) HgA HcA HallA Hno Hx Hl1)
      as (ms' & hd' & al' & Hdel & Hc' & Hall' & _).
    mstep. mrun Hdel. rewrite possible_merging_skip.
    eexists. split; [reflexivity|]. split; [split; [|split]|].
    + eexists _, al'. simpl.
      rewrite list_lookup_insert_eq by (by rewrite length_insert). done.
    + exists wal'. split; [|done].
      subst sA s1. simpl. by autorewrite with fields.
    + assert (HcA' : counters sA gi
                     = Some (counted (label_of
                                        (student_marks (student_of wn))) 1 c))
        by (by apply (counters_count_added gi g _ s)).
      by apply (counters_count_removed gi gA _ sA t hd').
    + intros t' q'' Hne Hq'. eapply queue_holds_ext; [| |exact Hq']; [done|].
      subst sA s1. autorewrite with fields. by apply waiting_list_set_ne.
Qed.

(** ** The group that [create_new_group] fills *)

Lemma meta_set_member_list (gs : list GroupListNode) gi g m :
  gs !! gi = Some g ->
  group_meta <$> <[gi := set_member_list g m]> gs = group_meta <$> gs.
Proof.
  intros Hg. rewrite list_fmap_insert.
  apply list_insert_id. by rewrite list_lookup_fmap, Hg.
Qed.

Lemma seat_meta c0 fuel t gi s qs l x rest s' :
  filling c0 gi s qs l ->
  qs t = x :: rest ->
  (length l <= fuel)%nat ->
  seat fuel t gi s = Ok tt s' ->
  group_meta <$> group_nodes s' = group_meta <$> group_nodes s.
Proof.
  intros (Hqs & (g & al & Hg & Hc & Hall) & Hcnt) Hqt Hf Hrun.
  pose proof (Hqs t) as Hq. rewrite Hqt in Hq.
  destruct Hq as (wal & Hq & Hwall).
  inversion Hwall as [|a ? wal' ? Ha Hwrest]; subst.
  destruct (dequeue_queue t s a wal' Hq) as (q' & Hdq & Hq').
  destruct (waiting_store s !! a) as [w|] eqn:Hw; [|done].
  set (s1 := set_waiting_list t q' s) in *.
  assert (Hg1 : group_nodes s1 !! gi = Some g) by done.
  assert (Hlen : length al = length l) by (by eapply Forall2_length).
  destruct (add_member_holds fuel gi (student_of w) s1 l g al Hg1 Hc Hall)
    as (ms' & hd' & Hadd & _); [lia|].
  simpl in Hadd. unfold seat in Hrun.
  rewrite (bind_ok _ _ _ _ _ Hdq) in Hrun.
  rewrite (bind_ok _ _ _ _ _ (waiting_at_ok a w s1 Hw)) in Hrun.
  rewrite (bind_ok _ _ _ _ _ Hadd) in Hrun.
  injection Hrun as <-. simpl. by apply meta_set_member_list.
Qed.

Lemma seat_n_meta c0 k fuel t gi : forall s qs l xs rest s',
  filling c0 gi s qs l ->
  qs t = xs ++ rest ->
  length xs = k ->
  (length l + k <= fuel)%nat ->
  seat_n k fuel t gi s = Ok tt s' ->
  group_meta <$> group_nodes s' = group_meta <$> group_nodes s.
Proof.
  induction k as [|k IH]; intros s qs l xs rest s' Hfill Hqt Hlen Hf Hrun.
  - simpl in Hrun. by injection Hrun as <-.
  - destruct xs as [|x xs]; [done|]. simpl in Hlen, Hqt.
    destruct (seat_filling c0 fuel t gi s qs l x (xs ++ rest) Hfill Hqt)
      as (s1 & Hrun1 & Hfill1 & _); [lia|].
    simpl in Hrun. rewrite (bind_ok _ _ _ _ _ Hrun1) in Hrun.
    rewrite (IH s1 (q_upd qs t (xs ++ rest)) (l ++ [x]) xs rest s' Hfill1).
    + apply (seat_meta c0 fuel t gi s qs l x (xs ++ rest) s1 Hfill Hqt
               ltac:(lia) Hrun1).
    + apply q_upd_same.
    + lia.
    + rewrite length_app. simpl. lia.
    + done.
Qed.

(** X12.  [create_new_group] with at least 2 high, 3 mid and 2 low students
    waiting: it takes the first two, three and two students off the three
    lists, the others keep waiting in their order, and seats the seven, in
    this order, in the first group whose roster is empty or, where there is
    none, in a new group with no ratings and the id [no_of_groups + 1] that it
    appends.  A group that is reused keeps its id and its session ratings, the
    list of groups is as long as before, and the counters of the group count
    the seven on top of what they read before; the call returns the group and
    leaves [no_of_groups] as it is when the counter of members read 0, and
    otherwise returns [None] and takes one off [no_of_groups].  A new group is
    always returned, and [no_of_groups] grows by one. *)
Theorem create_new_group_slot (fuel : nat) (s : Groups)
    (lh rh lm rm ll rl : list student) :
  queue_holds s high (lh ++ rh) ->
  queue_holds s mid (lm ++ rm) ->
  queue_holds s low (ll ++ rl) ->
  length lh = 2%nat -> length lm = 3%nat -> length ll = 2%nat ->
  (7 <= fuel)%nat ->
  (length (lh ++ rh) <= fuel)%nat ->
  (length (lm ++ rm) <= fuel)%nat ->
  (length (ll ++ rl) <= fuel)%nat ->
  exists r gi s',
    create_new_group fuel s = Ok r s' /\
    roster_holds s' gi (lh ++ lm ++ ll) /\
    queue_holds s' high rh /\ queue_holds s' mid rm /\
    queue_holds s' low rl /\
    match list_find vacant (group_nodes s) with
    | Some (i, g) =>
        let m := member_list g in
        gi = i /\
        group_meta <$> group_nodes s' = group_meta <$> group_nodes s /\
        counters s' gi
        = Some (counted_from
                  (count_low m, count_mid m, count_high m,
                   number_of_members m)
                  (lh ++ lm ++ ll)) /\
        r = (if decide (number_of_members m = 0) then Some gi else None) /\
        no_of_groups s'
        = (if decide (number_of_members m = 0) then no_of_groups s
           else no_of_groups s - 1)
    | None =>
        gi = length (group_nodes s) /\
        group_meta <$> group_nodes s'
        = (group_meta <$> group_nodes s) ++ [(no_of_groups s + 1, [])] /\
        counters s' gi = Some (counted_from (0, 0, 0, 0) (lh ++ lm ++ ll)) /\
        r = Some gi /\
        no_of_groups s' = no_of_groups s + 1
    end.
Proof.
  intros Hh Hm Hl Lh Lm Ll Hf Fh Fm Fl.
  set (qs0 := fun t : tier =>
                match t with
                | high => lh ++ rh | mid => lm ++ rm | low => ll ++ rl
                end).
  assert (Hqs0 : forall t, queue_holds s t (qs0 t)) by (by intros []).
  set (c0 := match list_find vacant (group_nodes s) with
             | Some (_, g) =>
                 let m := member_list g in
                 (count_low m, count_mid m, count_high m, number_of_members m)
             | None => (0, 0, 0, 0)
             end).
  assert (Hstart : exists gi s0,
    (match fst <$> list_find vacant (group_nodes s) with
     | Some gi => ret gi
     | None => add_new_group (no_of_groups s + 1)
     end) s = Ok gi s0 /\ filling c0 gi s0 qs0 [] /\
    match list_find vacant (group_nodes s) with
    | Some (i, g) =>
        gi = i /\ no_of_groups s0 = no_of_groups s /\
        group_meta <$> group_nodes s0 = group_meta <$> group_nodes s
    | None =>
        gi = length (group_nodes s) /\
        no_of_groups s0 = no_of_groups s + 1 /\
        group_meta <$> group_nodes s0
        = (group_meta <$> group_nodes s) ++ [(no_of_groups s + 1, [])]
    end).
  { subst c0.
    destruct (list_find vacant (group_nodes s)) as [[gi g]|] eqn:Hfind; simpl.
    - apply list_find_Some in Hfind as (Hg & Hemp & _).
      exists gi, s. split; [done|].
      assert (Hhd : head (member_list g) = None).
      { unfold vacant, Member_is_empty in Hemp.
        by destruct (head (member_list g)). }
      split; [|done]. split; [done|]. split.
      + exists g, []. rewrite Hhd. repeat split; [done|constructor|constructor].
      + unfold counters. rewrite Hg. simpl. unfold tier_count. simpl.
        by rewrite !Z.add_0_r.
    - eexists _, _. split; [apply add_new_group_ok|].
      split; [|simpl; by rewrite fmap_app].
      split; [|split].
      + intros t. eapply queue_holds_ext; [| |exact (Hqs0 t)]; [done|].
        by autorewrite with fields.
      + eexists _, []. split; [simpl; apply list_lookup_middle, eq_refl|].
        split; constructor.
      + unfold counters. simpl. by rewrite list_lookup_middle. }
  destruct Hstart as (gi & s0 & Hrun0 & Hfill0 & Hslot).
  destruct (seat_n_filling c0 2 fuel high gi s0 qs0 [] lh rh Hfill0)
    as (s1 & Hrun1 & Hfill1 & Hn1 & _); [done|done|simpl; lia|].
  pose proof (seat_n_meta c0 2 fuel high gi s0 qs0 [] lh rh s1 Hfill0
                eq_refl Lh ltac:(simpl; lia) Hrun1) as M1.
  destruct (seat_n_filling c0 3 fuel mid gi s1 _ _ lm rm Hfill1)
    as (s2 & Hrun2 & Hfill2 & Hn2 & _);
    [done|done|rewrite length_app; simpl; lia|].
  pose proof (seat_n_meta c0 3 fuel mid gi s1 _ _ lm rm s2 Hfill1
                eq_refl Lm ltac:(rewrite length_app; simpl; lia) Hrun2) as M2.
  destruct (seat_n_filling c0 2 fuel low gi s2 _ _ ll rl Hfill2)
    as (s3 & Hrun3 & Hfill3 & Hn3 & _);
    [done|done|rewrite !length_app; simpl; lia|].
  pose proof (seat_n_meta c0 2 fuel low gi s2 _ _ ll rl s3 Hfill2
                eq_refl Ll ltac:(rewrite !length_app; simpl; lia) Hrun3)
    as M3.
  simpl in Hfill3. rewrite <- app_assoc in Hfill3.
  destruct Hfill3 as (Hqs3 & Hroster & Hcnt).
  assert (Hlen : length (lh ++ lm ++ ll) = 7%nat)
    by (rewrite !length_app; lia).
  assert (Hq3 : queue_holds s3 high rh /\ queue_holds s3 mid rm /\
                queue_holds s3 low rl).
  { split; [|split].
    - specialize (Hqs3 high). unfold q_upd in Hqs3.
      by repeat case_decide.
    - specialize (Hqs3 mid). unfold q_upd in Hqs3.
      by repeat case_decide.
    - specialize (Hqs3 low). unfold q_upd in Hqs3.
      by repeat case_decide. }
  destruct Hq3 as (Hh3 & Hm3 & Hl3).
  destruct c0 as [[[cl cm] ch] n0] eqn:Hc0.
  assert (Hrun : create_new_group fuel s
                 = if decide (n0 = 0) then Ok (Some gi) s3
                   else Ok None (set_no_of_groups (no_of_groups s3 - 1) s3)).
  { unfold create_new_group. mstep.
    rewrite (bind_ok _ _ _ _ _
               (count_waiting_holds fuel s high _ Hh Fh)).
    rewrite (bind_ok _ _ _ _ _
               (count_waiting_holds fuel s mid _ Hm Fm)).
    rewrite (bind_ok _ _ _ _ _
               (count_waiting_holds fuel s low _ Hl Fl)).
    rewrite !length_app, Lh, Lm, Ll.
    rewrite (bool_decide_eq_true_2 (_ >= 2)) by lia.
    rewrite (bool_decide_eq_true_2 (_ >= 3)) by lia.
    rewrite (bool_decide_eq_true_2 (_ >= 2)) by lia.
    simpl.
    rewrite (bind_ok _ _ _ _ _ Hrun0).
    rewrite (bind_ok _ _ _ _ _ Hrun1).
    rewrite (bind_ok _ _ _ _ _ Hrun2).
    rewrite (bind_ok _ _ _ _ _ Hrun3).
    unfold counters in Hcnt.
    destruct (group_nodes s3 !! gi) as [g3|] eqn:Hg3; [|done].
    rewrite (bind_ok _ _ _ _ _ (group_at_ok _ _ _ Hg3)).
    simpl in Hcnt. injection Hcnt as _ _ _ ->. rewrite Hlen.
    destruct (decide (n0 = 0)) as [->|Hn0].
    - by rewrite bool_decide_eq_false_2 by lia.
    - by rewrite bool_decide_eq_true_2 by lia. }
  assert (Hmeta : group_meta <$> group_nodes s3
                  = group_meta <$> group_nodes s0)
    by (by rewrite M3, M2, M1).
  destruct (list_find vacant (group_nodes s)) as [[i g]|] eqn:Hfind.
  - destruct Hslot as (-> & Hno & Hm0). simpl in Hc0.
    injection Hc0 as <- <- <- <-. cbv zeta.
    destruct (decide (number_of_members (member_list g) = 0)) as [Hz|Hnz].
    + exists (Some i), i, s3. split_and!; try done.
      * by rewrite Hmeta.
      * congruence.
    + exists None, i, (set_no_of_groups (no_of_groups s3 - 1) s3).
      split_and!; try done.
      * by rewrite <- Hm0, <- Hmeta.
      * simpl. congruence.
  - destruct Hslot as (-> & Hno & Hm0). injection Hc0 as <- <- <- <-.
    rewrite decide_True in Hrun by done.
    exists (Some (length (group_nodes s))), (length (group_nodes s)), s3.
    split_and!; try done.
    + by rewrite Hmeta.
    + congruence.
Qed.

(** ** Both groups of a reshuffle *)

Lemma deal_first_both fuel g1 g2 s l1 l2 x :
  g1 ≠ g2 ->
  dealing g1 g2 s l1 l2 -> dealing g2 g1 s l2 l1 ->
  (length l1 <= fuel)%nat ->
  exists s',
    add_member fuel g1 x.1.1.2 x.1.2 x.2 x.1.1.1 s = Ok true s' /\
    dealing g1 g2 s' (l1 ++ [x]) l2 /\ dealing g2 g1 s' l2 (l1 ++ [x]) /\
    (forall b y, node_holds (member_store s) b y ->
                 node_holds (member_store s') b y).
Proof.
  intros Hne Hd Hd' Hf.
  destruct (deal_first fuel g1 g2 s l1 l2 x Hne Hd Hf)
    as (s' & Hrun & Hd1 & Hk).
  destruct (deal_second fuel g2 g1 s l2 l1 x (not_eq_sym Hne) Hd' Hf)
    as (s'' & Hrun' & Hd2 & _).
  rewrite Hrun in Hrun'. injection Hrun' as <-. by exists s'.
Qed.

Lemma deal_second_both fuel g1 g2 s l1 l2 x :
  g1 ≠ g2 ->
  dealing g1 g2 s l1 l2 -> dealing g2 g1 s l2 l1 ->
  (length l2 <= fuel)%nat ->
  exists s',
    add_member fuel g2 x.1.1.2 x.1.2 x.2 x.1.1.1 s = Ok true s' /\
    dealing g1 g2 s' l1 (l2 ++ [x]) /\ dealing g2 g1 s' (l2 ++ [x]) l1 /\
    (forall b y, node_holds (member_store s) b y ->
                 node_holds (member_store s') b y).
Proof.
  intros Hne Hd Hd' Hf.
  destruct (deal_second fuel g1 g2 s l1 l2 x Hne Hd Hf)
    as (s' & Hrun & Hd1 & Hk).
  destruct (deal_first fuel g2 g1 s l2 l1 x (not_eq_sym Hne) Hd' Hf)
    as (s'' & Hrun' & Hd2 & _).
  rewrite Hrun in Hrun'. injection Hrun' as <-. by exists s'.
Qed.

Lemma place_both fuel g1 g2 s counts l1 l2 a x :
  g1 ≠ g2 ->
  dealing g1 g2 s l1 l2 -> dealing g2 g1 s l2 l1 ->
  quota_inv counts l1 l2 ->
  node_holds (member_store s) a x ->
  (length l1 <= fuel)%nat -> (length l2 <= fuel)%nat ->
  exists s' counts' l1' l2',
    place fuel g1 g2 a counts s = Ok counts' s' /\
    dealing g1 g2 s' l1' l2' /\ dealing g2 g1 s' l2' l1' /\
    quota_inv counts' l1' l2' /\
    l1' ++ l2' ≡ₚ x :: l1 ++ l2 /\
    (forall b y, node_holds (member_store s) b y ->
                 node_holds (member_store s') b y).
Proof.
  intros Hne Hd Hd' Hq (n & Hn & Hx & Hl) F1 F2.
  destruct counts as [[cl cm] ch].
  destruct (deal_first_both fuel g1 g2 s l1 l2 x Hne Hd Hd' F1)
    as (sA & HaddA & HdA & HdA' & HkA).
  destruct (deal_second_both fuel g1 g2 s l1 l2 x Hne Hd Hd' F2)
    as (sB & HaddB & HdB & HdB' & HkB).
  subst x. simpl in HaddA, HaddB, Hl.
  unfold place. rewrite (bind_ok _ _ _ _ _ (member_at_ok _ _ _ Hn)).
  destruct Hq as (El & Em & Eh & Bl & Bm & Bh & Zl & Zm & Zh).
  assert (Hfirst : forall counts',
    quota_inv counts' (l1 ++ [member_student n]) l2 ->
    exists s' counts'' l1' l2',
      (add_member fuel g1 (m_name n) (m_marks n) (m_preferred_language n)
         (m_student_id n) ;; ret counts') s = Ok counts'' s' /\
      dealing g1 g2 s' l1' l2' /\ dealing g2 g1 s' l2' l1' /\
      quota_inv counts'' l1' l2' /\
      l1' ++ l2' ≡ₚ member_student n :: l1 ++ l2 /\
      (forall b y, node_holds (member_store s) b y ->
                   node_holds (member_store s') b y)).
  { intros counts' Hq'. exists sA, counts', (l1 ++ [member_student n]), l2.
    rewrite (bind_ok _ _ _ _ _ HaddA).
    split; [done|]. split; [done|]. split; [done|]. split; [done|].
    split; [apply perm_first|done]. }
  assert (Hsecond :
    quota_inv (cl, cm, ch) l1 (l2 ++ [member_student n]) ->
    exists s' counts'' l1' l2',
      (add_member fuel g2 (m_name n) (m_marks n) (m_preferred_language n)
         (m_student_id n) ;; ret (cl, cm, ch)) s = Ok counts'' s' /\
      dealing g1 g2 s' l1' l2' /\ dealing g2 g1 s' l2' l1' /\
      quota_inv counts'' l1' l2' /\
      l1' ++ l2' ≡ₚ member_student n :: l1 ++ l2 /\
      (forall b y, node_holds (member_store s) b y ->
                   node_holds (member_store s') b y)).
  { intros Hq'. exists sB, (cl, cm, ch), l1, (l2 ++ [member_student n]).
    rewrite (bind_ok _ _ _ _ _ HaddB).
    split; [done|]. split; [done|]. split; [done|]. split; [done|].
    split; [apply perm_second|done]. }
  destruct (decide (cl < 2)); destruct (decide (cm < 3));
    destruct (decide (ch < 2));
    destruct (m_label n) eqn:Elb; decide_tests;
    (apply Hfirst || apply Hsecond);
    unfold quota_inv; rewrite !tier_count_snoc; simpl student_marks;
    rewrite <- Hl; repeat (case_decide; try congruence);
    repeat split; lia.
Qed.

Lemma distribute_both fuel g1 g2 pool : forall xs s counts l1 l2,
  g1 ≠ g2 ->
  dealing g1 g2 s l1 l2 -> dealing g2 g1 s l2 l1 ->
  quota_inv counts l1 l2 ->
  Forall2 (node_holds (member_store s)) pool xs ->
  (length l1 + length l2 + length pool <= fuel)%nat ->
  exists s' counts' l1' l2',
    distribute fuel g1 g2 pool counts s = Ok counts' s' /\
    dealing g1 g2 s' l1' l2' /\ dealing g2 g1 s' l2' l1' /\
    quota_inv counts' l1' l2' /\
    l1' ++ l2' ≡ₚ xs ++ l1 ++ l2.
Proof.
  induction pool as [|a pool IH];
    intros xs s counts l1 l2 Hne Hd Hd' Hq Hall Hf.
  - inversion Hall; subst. by exists s, counts, l1, l2.
  - inversion Hall as [|? x ? xs' Hx Hrest]; subst. simpl in Hf.
    destruct (place_both fuel g1 g2 s counts l1 l2 a x Hne Hd Hd' Hq Hx)
      as (s1 & counts1 & l1a & l2a & Hrun1 & Hd1 & Hd1' & Hq1 & Hp1 & Hkeep);
      [lia|lia|].
    assert (Hlen : (length l1a + length l2a = S (length l1 + length l2))%nat).
    { apply Permutation_length in Hp1.
      rewrite length_app in Hp1. simpl in Hp1.
      by rewrite length_app in Hp1. }
    destruct (IH xs' s1 counts1 l1a l2a Hne Hd1 Hd1' Hq1)
      as (s2 & counts2 & l1b & l2b & Hrun2 & Hd2 & Hd2' & Hq2 & Hp2).
    + eapply Forall2_impl; [exact Hrest|]. intros b y. apply Hkeep.
    + lia.
    + exists s2, counts2, l1b, l2b. simpl.
      rewrite (bind_ok _ _ _ _ _ Hrun1). split; [done|].
      split; [done|]. split; [done|]. split; [done|].
      rewrite Hp2, Hp1. symmetry. apply Permutation_middle.
Qed.

(** What a reshuffle of two distinct groups leaves. *)
Lemma reshuffle_run (shuffle : list addr -> list addr)
    (fuel : nat) (s : Groups) (group1_id group2_id : Z) (g1 g2 : nat)
    (l1 l2 : list student) :
  (forall l, shuffle l ≡ₚ l) ->
  group1_id ≠ group2_id ->
  search_group_id group1_id s = Ok (Some g1) s ->
  search_group_id group2_id s = Ok (Some g2) s ->
  roster_holds s g1 l1 ->
  roster_holds s g2 l2 ->
  l1 ++ l2 ≠ [] ->
  (length (l1 ++ l2) <= fuel)%nat ->
  exists s' l1' l2',
    reshuffle shuffle fuel group1_id group2_id s = Ok (Reshuffled g1 g2) s' /\
    roster_holds s' g1 l1' /\ roster_holds s' g2 l2' /\
    l1' ++ l2' ≡ₚ l1 ++ l2 /\
    counters s' g1 = Some (counters_of l1') /\
    counters s' g2 = Some (counters_of l2') /\
    tier_count high l1' = Z.min 2 (tier_count high (l1 ++ l2)) /\
    tier_count mid l1' = Z.min 3 (tier_count mid (l1 ++ l2)) /\
    tier_count low l1' = Z.min 2 (tier_count low (l1 ++ l2)) /\
    (valid_composition l1 -> valid_composition l2 ->
     valid_composition l1' /\ valid_composition l2').
Proof.
  intros Hperm Hids Hs1 Hs2 (n1 & c1 & Hg1 & Hc1 & H1)
    (n2 & c2 & Hg2 & Hc2 & H2) Hnonempty Hf.
  destruct (search_group_id_Some _ _ _ Hs1) as (n1' & Hg1' & Hid1).
  destruct (search_group_id_Some _ _ _ Hs2) as (n2' & Hg2' & Hid2).
  rewrite Hg1 in Hg1'. injection Hg1' as <-.
  rewrite Hg2 in Hg2'. injection Hg2' as <-.
  assert (Hne : g1 ≠ g2).
  { intros ->. rewrite Hg1 in Hg2. injection Hg2 as ->. congruence. }
  rewrite length_app in Hf.
  assert (Hlen1 : length c1 = length l1) by (by eapply Forall2_length).
  assert (Hlen2 : length c2 = length l2) by (by eapply Forall2_length).
  set (s1 := set_group_nodes
               (<[g1 := set_member_list n1 Member_init]> (group_nodes s)) s).
  set (sR := set_group_nodes
               (<[g2 := set_member_list n2 Member_init]> (group_nodes s1))
               s1).
  assert (Hg2s1 : group_nodes s1 !! g2 = Some n2)
    by (simpl; by rewrite list_lookup_insert_ne).
  set (pool := rev (shuffle (c1 ++ c2))).
  assert (Hpool : c1 ++ c2 ≡ₚ pool).
  { unfold pool. rewrite <- Permutation_rev. symmetry. apply Hperm. }
  destruct (Forall2_Permutation _ _ _ _ Hpool (Forall2_app H1 H2))
    as (xs & Hxs & Hpxs).
  assert (Hl1 : (g1 < length (group_nodes s))%nat)
    by (by eapply lookup_lt_Some).
  assert (Hl2 : (g2 < length (group_nodes s))%nat)
    by (by eapply lookup_lt_Some).
  assert (HgR1 : group_nodes sR !! g1 = Some (set_member_list n1 Member_init)).
  { simpl. rewrite list_lookup_insert_ne by done.
    by apply list_lookup_insert_eq. }
  assert (HgR2 : group_nodes sR !! g2 = Some (set_member_list n2 Member_init)).
  { simpl. apply list_lookup_insert_eq. by rewrite length_insert. }
  assert (HdR : dealing g1 g2 sR [] []).
  { exists (set_member_list n1 Member_init), (set_member_list n2 Member_init),
      [], [].
    split; [done|]. split; [done|].
    split; [constructor|]. split; [constructor|].
    split; [constructor|]. split; [constructor|].
    split; [by intros a Ha%elem_of_nil|].
    unfold counters. by rewrite HgR1. }
  assert (HdR' : dealing g2 g1 sR [] []).
  { exists (set_member_list n2 Member_init), (set_member_list n1 Member_init),
      [], [].
    split; [done|]. split; [done|].
    split; [constructor|]. split; [constructor|].
    split; [constructor|]. split; [constructor|].
    split; [by intros a Ha%elem_of_nil|].
    unfold counters. by rewrite HgR2. }
  assert (HqR : quota_inv (0, 0, 0) [] []) by (by vm_compute).
  destruct (distribute_both fuel g1 g2 pool xs sR (0, 0, 0) [] []
              Hne HdR HdR' HqR)
    as (s' & counts' & l1' & l2' & Hrun & Hd' & Hd'' & Hq' & Hp').
  { exact Hxs. }
  { simpl. apply Permutation_length in Hpool.
    rewrite length_app in Hpool. lia. }
  simpl in Hp'. rewrite app_nil_r in Hp'.
  assert (Hall : l1' ++ l2' ≡ₚ l1 ++ l2) by (by rewrite Hp', Hpxs).
  destruct counts' as [[cl cm] ch].
  destruct Hq' as (El & Em & Eh & Bl & Bm & Bh & Zl & Zm & Zh).
  pose proof (tier_count_Permutation high _ _ Hall) as Ph.
  pose proof (tier_count_Permutation mid _ _ Hall) as Pm.
  pose proof (tier_count_Permutation low _ _ Hall) as Pl.
  rewrite tier_count_app in Ph, Pm, Pl.
  assert (Nh : 0 <= tier_count high l2') by (unfold tier_count; lia).
  assert (Nm : 0 <= tier_count mid l2') by (unfold tier_count; lia).
  assert (Nl : 0 <= tier_count low l2') by (unfold tier_count; lia).
  assert (Ch : tier_count high l1' = Z.min 2 (tier_count high (l1 ++ l2))).
  { destruct (decide (ch < 2)) as [Hlt|]; [specialize (Zh Hlt)|]; lia. }
  assert (Cm : tier_count mid l1' = Z.min 3 (tier_count mid (l1 ++ l2))).
  { destruct (decide (cm < 3)) as [Hlt|]; [specialize (Zm Hlt)|]; lia. }
  assert (Cl : tier_count low l1' = Z.min 2 (tier_count low (l1 ++ l2))).
  { destruct (decide (cl < 2)) as [Hlt|]; [specialize (Zl Hlt)|]; lia. }
  destruct Hd' as (a1 & a2 & d1 & d2 & Ha1 & Ha2 & Hd1 & Hd2 & F1 & F2
                   & _ & Hcnt1).
  destruct Hd'' as (_ & _ & _ & _ & _ & _ & _ & _ & _ & _ & _ & Hcnt2).
  exists s', l1', l2'. split.
  - unfold reshuffle.
    rewrite (bind_ok _ _ _ _ _ Hs1), (bind_ok _ _ _ _ _ Hs2).
    rewrite (bind_ok _ _ _ _ _ (group_at_ok _ _ _ Hg1)).
    rewrite (bind_ok _ _ _ _ _ (collect_chain fuel s _ c1 Hc1 ltac:(lia))).
    rewrite (bind_ok _ _ _ _ _ (group_at_ok _ _ _ Hg2)).
    rewrite (bind_ok _ _ _ _ _ (collect_chain fuel s _ c2 Hc2 ltac:(lia))).
    rewrite (bind_ok _ _ _ _ _ (put_member_list_ok _ _ _ _ Hg1)).
    fold s1.
    rewrite (bind_ok _ _ _ _ _ (put_member_list_ok _ _ _ _ Hg2s1)).
    fold sR. fold pool.
    destruct pool as [|a pool'] eqn:Epool.
    + apply Permutation_nil_r in Hpool.
      apply (f_equal length) in Hpool. rewrite length_app in Hpool.
      simpl in Hpool. exfalso. apply Hnonempty.
      apply length_zero_iff_nil. rewrite length_app. lia.
    + by rewrite (bind_ok _ _ _ _ _ Hrun).
  - split; [by exists a1, d1|]. split; [by exists a2, d2|].
    split; [done|]. split; [done|]. split; [done|].
    split; [done|]. split; [done|]. split; [done|].
    intros (V1h & V1m & V1l) (V2h & V2m & V2l).
    rewrite !tier_count_app in *. unfold valid_composition. lia.
Qed.

(** X15.  [reshuffle] on two distinct groups whose rosters together hold at
    least one student: the two rosters afterwards hold the students of
    before, the counters of both groups agree with their new rosters, and
    the first group has of each tier as many students as there were, up to
    its quota of 2 high, 3 mid and 2 low.  So when both groups had 2 high,
    3 mid and 2 low members, both have again. *)
Theorem reshuffle_both_groups (shuffle : list addr -> list addr)
    (fuel : nat) (s : Groups) (group1_id group2_id : Z) (g1 g2 : nat)
    (l1 l2 : list student) :
  (forall l, shuffle l ≡ₚ l) ->
  group1_id ≠ group2_id ->
  search_group_id group1_id s = Ok (Some g1) s ->
  search_group_id group2_id s = Ok (Some g2) s ->
  roster_holds s g1 l1 ->
  roster_holds s g2 l2 ->
  l1 ++ l2 ≠ [] ->
  (length (l1 ++ l2) <= fuel)%nat ->
  exists s' l1' l2',
    reshuffle shuffle fuel group1_id group2_id s = Ok (Reshuffled g1 g2) s' /\
    roster_holds s' g1 l1' /\ roster_holds s' g2 l2' /\
    l1' ++ l2' ≡ₚ l1 ++ l2 /\
    counters s' g1 = Some (counters_of l1') /\
    counters s' g2 = Some (counters_of l2') /\
    tier_count high l1' = Z.min 2 (tier_count high (l1 ++ l2)) /\
    tier_count mid l1' = Z.min 3 (tier_count mid (l1 ++ l2)) /\
    tier_count low l1' = Z.min 2 (tier_count low (l1 ++ l2)) /\
    (valid_composition l1 -> valid_composition l2 ->
     valid_composition l1' /\ valid_composition l2').
Proof.
  intros Hperm Hids Hs1 Hs2 Hr1 Hr2 Hne Hf.
  destruct (reshuffle_run shuffle fuel s group1_id group2_id g1 g2 l1 l2
              Hperm Hids Hs1 Hs2 Hr1 Hr2 Hne Hf) as (s' & l1' & l2' & H).
  by exists s', l1', l2'.
Qed.

(** ** The sweep with at most one group to reshuffle *)

Lemma check_full_quiet (s : Groups) : forall L1 L,
  Forall (fun gi => exists g, group_nodes s !! gi = Some g /\
                      number_of_members (member_list g) = 7) L1 ->
  (forall gi, ~ to_remove s gi) ->
  ratings_ok s ->
  check_full L1 L s = Ok (L ++ filter (to_reshuffle s) L1) s.
Proof.
  induction L1 as [|gi L1 IH]; intros L Hfull Hno Hok.
  - simpl. by rewrite app_nil_r.
  - apply Forall_cons in Hfull as [(g & Hg & H7) Hfull]. simpl.
    mrun (group_at_ok _ _ _ Hg).
    specialize (Hno gi) as Hnogi. unfold to_remove in Hnogi.
    rewrite Hg in Hnogi. rewrite filter_cons.
    destruct (ratings_ok_lookup s gi g Hok Hg) as [below Hlow].
    case_bool_decide as Hcomp.
    + mrun (rated_below_two_ok g below s Hlow).
      destruct below; [exfalso; by apply Hnogi|].
      mstep. rewrite IH by done.
      rewrite decide_False; [done|].
      unfold to_reshuffle. rewrite Hg. intros (_ & ? & ? & ? & _).
      destruct Hcomp as [?|[?|?]]; done.
    + assert (Hex : count_high (member_list g) = 2 /\
                    count_mid (member_list g) = 3 /\
                    count_low (member_list g) = 2).
      { destruct (decide (count_high (member_list g) = 2));
          destruct (decide (count_mid (member_list g) = 3));
          destruct (decide (count_low (member_list g) = 2)); tauto. }
      destruct Hex as (Eh & Em & El).
      mrun (rated_below_two_ok g below s Hlow).
      destruct below.
      * rewrite IH by done. rewrite decide_True.
        -- by rewrite <- app_assoc.
        -- unfold to_reshuffle. by rewrite Hg.
      * rewrite IH by done. rewrite decide_False; [done|].
        unfold to_reshuffle. rewrite Hg. intros (_ & _ & _ & _ & ?).
        congruence.
Qed.

(** X16.  In a state where the average rating of every group can be
    computed and [condition_checker] has no group to remove and exactly one
    group to reshuffle, it reshuffles nothing and returns with the state
    unchanged: a lone low-rated group is left as it is. *)
Theorem condition_checker_lone_group (shuffle : list addr -> list addr)
    (fuel : nat) (s : Groups) (gi : nat) :
  ratings_ok s ->
  (forall gj, ~ to_remove s gj) ->
  worklist s = [gi] ->
  condition_checker shuffle fuel s = Ok tt s.
Proof.
  intros Hok Hno Hwork. unfold condition_checker. mstep. simpl.
  set (full := fun gi => _ = true).
  set (all := seq 0 (length (group_nodes s))) in *.
  assert (HL : check_full (filter full all) [] s = Ok [gi] s).
  { rewrite check_full_quiet; [|..|done|done].
    - simpl. rewrite <- Hwork. unfold worklist. fold all. f_equal.
      rewrite list_filter_filter. apply list_filter_iff.
      intros gj. unfold full, to_reshuffle.
      destruct (group_nodes s !! gj) as [g|]; [|tauto].
      rewrite bool_decide_eq_true. tauto.
    - apply Forall_forall. intros gj Hgj.
      apply list_elem_of_filter in Hgj as [Hf _]. unfold full in Hf.
      destruct (group_nodes s !! gj) as [g|]; [|done].
      exists g. split; [done|]. by apply bool_decide_eq_true in Hf. }
  mrun HL. simpl. mstep. simpl.
  rewrite bool_decide_eq_false_2 by (by intros H; apply H).
  mstep. apply possible_merging_skip.
Qed.

(** ** The sweep with two groups to reshuffle *)

Lemma bind_Ok_inv {A B} (c : M A) (k : A -> M B) s r s' :
  bind c k s = Ok r s' -> exists a s1, c s = Ok a s1 /\ k a s1 = Ok r s'.
Proof. unfold bind. destruct (c s) as [a s1| | |]; try done. eauto. Qed.

Lemma keeps_meta_bind {A B} (c : M A) (k : A -> M B) :
  keeps_meta c -> (forall a, keeps_meta (k a)) -> keeps_meta (bind c k).
Proof.
  intros Hc Hk s r s' (a & s1 & H1 & H2)%bind_Ok_inv.
  rewrite (Hk a _ _ _ H2). by apply (Hc _ _ _ H1).
Qed.

Lemma keeps_meta_same {A} (c : M A) :
  (forall s r s', c s = Ok r s' -> group_nodes s' = group_nodes s) ->
  keeps_meta c.
Proof. intros H s r s' Hrun. by rewrite (H _ _ _ Hrun). Qed.

Lemma keeps_meta_ret {A} (a : A) : keeps_meta (ret a).
Proof. apply keeps_meta_same. by intros s r s' [= _ <-]. Qed.

Lemma keeps_meta_raise {A} e : keeps_meta (@raise A e).
Proof. by intros s r s'. Qed.

Lemma keeps_meta_out_of_fuel {A} : keeps_meta (@out_of_fuel A).
Proof. by intros s r s'. Qed.

Lemma keeps_meta_get : keeps_meta get.
Proof. apply keeps_meta_same. by intros s r s' [= _ <-]. Qed.

Lemma keeps_meta_member_at a : keeps_meta (member_at a).
Proof.
  apply keeps_meta_same. unfold member_at. intros s r s'.
  destruct (member_store s !! a); [|done]. by intros [= _ <-].
Qed.

Lemma keeps_meta_group_at gi : keeps_meta (group_at gi).
Proof.
  apply keeps_meta_same. unfold group_at. intros s r s'.
  destruct (group_nodes s !! gi); [|done]. by intros [= _ <-].
Qed.

Lemma keeps_meta_set_member_store ms :
  keeps_meta (modify (set_member_store ms)).
Proof. apply keeps_meta_same. by intros s r s' [= _ <-]. Qed.

Lemma keeps_meta_search_group_id gid : keeps_meta (search_group_id gid).
Proof. apply keeps_meta_same. by intros s r s' [= _ <-]. Qed.

Lemma keeps_meta_put_member_list gi m : keeps_meta (put_member_list gi m).
Proof.
  intros s r s' (g & s1 & Hg & Hm)%bind_Ok_inv.
  unfold group_at in Hg. destruct (group_nodes s !! gi) as [g'|] eqn:E; [|done].
  injection Hg as -> <-. injection Hm as _ <-. simpl.
  by apply meta_set_member_list.
Qed.

Lemma keeps_meta_put_member_next a nx : keeps_meta (put_member_next a nx).
Proof.
  apply keeps_meta_same. intros s r s' (n & s1 & Hn & Hm)%bind_Ok_inv.
  unfold member_at in Hn. destruct (member_store s !! a); [|done].
  injection Hn as _ <-. by injection Hm as _ <-.
Qed.

Create HintDb meta.
#[local] Hint Resolve keeps_meta_ret keeps_meta_raise keeps_meta_out_of_fuel
  keeps_meta_get keeps_meta_member_at keeps_meta_group_at
  keeps_meta_set_member_store keeps_meta_search_group_id
  keeps_meta_put_member_list keeps_meta_put_member_next : meta.

Ltac keeps_step :=
  first [ solve [auto with meta] | apply keeps_meta_bind; [|intros ?] ].

Lemma keeps_meta_last_node fuel : forall a, keeps_meta (last_node fuel a).
Proof.
  induction fuel as [|fuel IH]; intros a; simpl; [auto with meta|].
  keeps_step; [auto with meta|]. destruct (m_next _); auto with meta.
Qed.

#[local] Hint Resolve keeps_meta_last_node : meta.

Lemma keeps_meta_collect fuel : forall cur, keeps_meta (collect fuel cur).
Proof.
  induction fuel as [|fuel IH]; intros [a|]; simpl; auto with meta.
  repeat keeps_step.
Qed.

#[local] Hint Resolve keeps_meta_collect : meta.

Lemma keeps_meta_add_member fuel gi name marks lang sid :
  keeps_meta (add_member fuel gi name marks lang sid).
Proof.
  unfold add_member. do 4 keeps_step; [|auto with meta].
  destruct (head _); repeat keeps_step.
Qed.

#[local] Hint Resolve keeps_meta_add_member : meta.

Lemma keeps_meta_place fuel g1 g2 member counts :
  keeps_meta (place fuel g1 g2 member counts).
Proof.
  unfold place. destruct counts as [[cl cm] ch]. keeps_step; [auto with meta|].
  repeat match goal with
         | |- keeps_meta (if ?b then _ else _) => destruct b
         end;
    repeat keeps_step.
Qed.

#[local] Hint Resolve keeps_meta_place : meta.

Lemma keeps_meta_distribute fuel g1 g2 pool :
  forall counts, keeps_meta (distribute fuel g1 g2 pool counts).
Proof.
  induction pool as [|a pool IH]; intros counts; simpl; [auto with meta|].
  repeat keeps_step.
Qed.

#[local] Hint Resolve keeps_meta_distribute : meta.

Lemma keeps_meta_reshuffle shuffle fuel id1 id2 :
  keeps_meta (reshuffle shuffle fuel id1 id2).
Proof.
  unfold reshuffle.
  apply keeps_meta_bind; [auto with meta|intros group1].
  apply keeps_meta_bind; [auto with meta|intros group2].
  destruct group1 as [g1|], group2 as [g2|]; try auto with meta.
  do 6 keeps_step; [auto with meta|]. destruct (rev (shuffle _)); repeat keeps_step.
Qed.

Lemma search_group_id_unique (s : Groups) (gi : nat) (g : GroupListNode) :
  NoDup (group_id <$> group_nodes s) ->
  group_nodes s !! gi = Some g ->
  search_group_id (group_id g) s = Ok (Some gi) s.
Proof.
  intros Hnd Hg. unfold search_group_id. f_equal.
  destruct (list_find _ (group_nodes s)) as [[i g']|] eqn:E; simpl.
  - apply list_find_Some in E as (Hi & Hid & _). f_equal.
    apply (NoDup_lookup _ i gi (group_id g) Hnd);
      rewrite list_lookup_fmap; [by rewrite Hi; simpl; f_equal|by rewrite Hg].
  - apply list_find_None in E.
    by pose proof (Forall_lookup_1 _ _ _ _ E Hg).
Qed.

Lemma check_full_worklist (s : Groups) :
  ratings_ok s ->
  (forall gj, ~ to_remove s gj) ->
  exists L1 L2,
    classify_groups s = Ok (L1, L2) s /\
    check_full L1 [] s = Ok (worklist s) s.
Proof.
  intros Hok Hno. eexists _, _. split; [reflexivity|].
  set (full := fun gi => _ = true).
  set (all := seq 0 (length (group_nodes s))) in *.
  rewrite check_full_quiet; [|..|done|done].
  - simpl. unfold worklist. fold all. f_equal.
    rewrite list_filter_filter. apply list_filter_iff.
    intros gj. unfold full, to_reshuffle.
    destruct (group_nodes s !! gj) as [g|]; [|tauto].
    rewrite bool_decide_eq_true. tauto.
  - apply Forall_forall. intros gj Hgj.
    apply list_elem_of_filter in Hgj as [Hf _]. unfold full in Hf.
    destruct (group_nodes s !! gj) as [g|]; [|done].
    exists g. split; [done|]. by apply bool_decide_eq_true in Hf.
Qed.

Lemma to_reshuffle_valid (s : Groups) (gi : nat) (l : list student) :
  to_reshuffle s gi ->
  counters s gi = Some (counters_of l) ->
  valid_composition l /\ length l = 7%nat.
Proof.
  unfold to_reshuffle, counters. destruct (group_nodes s !! gi) as [g|]; [|done].
  intros (H7 & Hh & Hm & Hl & _) [= El Em Eh En]. unfold valid_composition.
  split; [lia|lia].
Qed.

(** *** The member nodes a reshuffle creates *)

Lemma creates_bind (n m : nat) {A B} (c : M A) (k : A -> M B) :
  creates n c -> (forall a, creates m (k a)) -> creates (n + m) (bind c k).
Proof.
  intros Hc Hk s r s' (a & s1 & H1 & H2)%bind_Ok_inv.
  rewrite (Hk a _ _ _ H2), (Hc _ _ _ H1). lia.
Qed.

Lemma creates_none {A} (c : M A) :
  (forall s r s', c s = Ok r s' ->
     length (member_store s') = length (member_store s)) ->
  creates 0 c.
Proof. intros H s r s' Hrun. rewrite (H _ _ _ Hrun). lia. Qed.

Lemma creates_ret {A} (a : A) : creates 0 (ret a).
Proof. apply creates_none. by intros s r s' [= _ <-]. Qed.

Lemma creates_raise {A} e : creates 0 (@raise A e).
Proof. by intros s r s'. Qed.

Lemma creates_out_of_fuel {A} : creates 0 (@out_of_fuel A).
Proof. by intros s r s'. Qed.

Lemma creates_member_at a : creates 0 (member_at a).
Proof.
  apply creates_none. unfold member_at. intros s r s'.
  destruct (member_store s !! a); [|done]. by intros [= _ <-].
Qed.

Lemma creates_group_at gi : creates 0 (group_at gi).
Proof.
  apply creates_none. unfold group_at. intros s r s'.
  destruct (group_nodes s !! gi); [|done]. by intros [= _ <-].
Qed.

Lemma creates_put_member_list gi m : creates 0 (put_member_list gi m).
Proof.
  apply creates_none. intros s r s' (g & s1 & Hg & Hm)%bind_Ok_inv.
  unfold group_at in Hg. destruct (group_nodes s !! gi); [|done].
  injection Hg as _ <-. by injection Hm as _ <-.
Qed.

Lemma creates_put_member_next a nx : creates 0 (put_member_next a nx).
Proof.
  apply creates_none. intros s r s' (n & s1 & Hn & Hm)%bind_Ok_inv.
  unfold member_at in Hn. destruct (member_store s !! a); [|done].
  injection Hn as _ <-. injection Hm as _ <-. simpl.
  by rewrite length_insert.
Qed.

Create HintDb store.
#[local] Hint Resolve creates_ret creates_raise creates_out_of_fuel
  creates_member_at creates_group_at creates_put_member_list
  creates_put_member_next : store.

Ltac creates_step :=
  first [ solve [auto with store]
        | apply (creates_bind 0 0); [|intros ?] ].

Lemma creates_last_node fuel : forall a, creates 0 (last_node fuel a).
Proof.
  induction fuel as [|fuel IH]; intros a; simpl; [auto with store|].
  creates_step; [auto with store|]. destruct (m_next _); auto with store.
Qed.

#[local] Hint Resolve creates_last_node : store.

Lemma creates_add_member fuel gi name marks lang sid :
  creates 1 (add_member fuel gi name marks lang sid).
Proof.
  intros s r s' Hrun. unfold add_member in Hrun.
  apply bind_Ok_inv in Hrun as (s0 & sa & Hget & Hrun).
  injection Hget as <- <-.
  apply bind_Ok_inv in Hrun as (u & s1 & Hmod & Hrun).
  injection Hmod as _ <-.
  assert (Hrest : creates 0
            (let* g := group_at gi in
             match head (member_list g) with
             | Some hd =>
                 let* current := last_node fuel hd in
                 put_member_next current (Some (length (member_store s)));;
                 put_member_list gi
                   (count_added
                      (m_label (MemberNode_init name marks lang sid))
                      (member_list g) (head (member_list g)))
             | None =>
                 put_member_list gi
                   (count_added
                      (m_label (MemberNode_init name marks lang sid))
                      (member_list g) (Some (length (member_store s))))
             end;;
             ret true)).
  { do 2 creates_step; [|auto with store].
    destruct (head _); repeat creates_step. }
  rewrite (Hrest _ _ _ Hrun). simpl. rewrite length_app. simpl. lia.
Qed.

Lemma creates_place fuel g1 g2 member counts :
  creates 1 (place fuel g1 g2 member counts).
Proof.
  unfold place. destruct counts as [[cl cm] ch].
  apply (creates_bind 0 1); [auto with store|]. intros n. cbv zeta.
  repeat case_bool_decide; simpl;
    try (exfalso; destruct (m_label n); congruence);
    (apply (creates_bind 1 0);
     [apply creates_add_member | intros ?; apply creates_ret]).
Qed.

Lemma creates_distribute fuel g1 g2 pool :
  forall counts, creates (length pool) (distribute fuel g1 g2 pool counts).
Proof.
  induction pool as [|a pool IH]; intros counts; simpl; [auto with store|].
  apply (creates_bind 1 (length pool)); [apply creates_place|].
  intros counts'. apply IH.
Qed.

(** A reshuffle deals every member of both rosters out anew. *)
Lemma reshuffle_creates (shuffle : list addr -> list addr) (fuel : nat)
    (s : Groups) (id1 id2 : Z) (g1 g2 : nat) (l1 l2 : list student) r s' :
  (forall l, shuffle l ≡ₚ l) ->
  search_group_id id1 s = Ok (Some g1) s ->
  search_group_id id2 s = Ok (Some g2) s ->
  roster_holds s g1 l1 ->
  roster_holds s g2 l2 ->
  (length (l1 ++ l2) <= fuel)%nat ->
  reshuffle shuffle fuel id1 id2 s = Ok r s' ->
  length (member_store s')
  = (length (member_store s) + (length l1 + length l2))%nat.
Proof.
  intros Hperm Hs1 Hs2 (n1 & c1 & Hg1 & Hc1 & H1) (n2 & c2 & Hg2 & Hc2 & H2)
    Hf Hrun.
  rewrite length_app in Hf.
  assert (Hlen1 : length c1 = length l1) by (by eapply Forall2_length).
  assert (Hlen2 : length c2 = length l2) by (by eapply Forall2_length).
  unfold reshuffle in Hrun.
  rewrite (bind_ok _ _ _ _ _ Hs1), (bind_ok _ _ _ _ _ Hs2) in Hrun.
  rewrite (bind_ok _ _ _ _ _ (group_at_ok _ _ _ Hg1)) in Hrun.
  rewrite (bind_ok _ _ _ _ _ (collect_chain fuel s _ c1 Hc1 ltac:(lia)))
    in Hrun.
  rewrite (bind_ok _ _ _ _ _ (group_at_ok _ _ _ Hg2)) in Hrun.
  rewrite (bind_ok _ _ _ _ _ (collect_chain fuel s _ c2 Hc2 ltac:(lia)))
    in Hrun.
  apply bind_Ok_inv in Hrun as (u1 & sa & Hp1 & Hrun).
  apply bind_Ok_inv in Hrun as (u2 & sb & Hp2 & Hrun).
  pose proof (creates_put_member_list _ _ _ _ _ Hp1) as La.
  pose proof (creates_put_member_list _ _ _ _ _ Hp2) as Lb.
  assert (Hpool : length (rev (shuffle (c1 ++ c2)))
                  = (length l1 + length l2)%nat).
  { rewrite length_rev, (Permutation_length (Hperm _)), length_app. lia. }
  destruct (rev (shuffle (c1 ++ c2))) as [|a pool]; [done|].
  apply bind_Ok_inv in Hrun as (counts & sc & Hd & Hret).
  injection Hret as _ <-.
  rewrite (creates_distribute _ _ _ _ _ _ _ _ Hd), Hpool. lia.
Qed.

(** X29.  [condition_checker] in a state with distinct group ids, ratings
    whose averages can be computed, no group to remove and exactly two groups
    to reshuffle, whose counters agree with their rosters: it reshuffles the
    pair twice and returns.  The state it leaves is the one that [reshuffle]
    of the first with the second, and then [reshuffle] of the second with the
    first, leave; each of the two deals all fourteen members out anew, so 28
    member nodes are created.  The two rosters then hold the fourteen students
    of before, each with 2 high, 3 mid and 2 low members and counters that
    agree; the ids and the session ratings of all groups are as before, so the
    two groups are still rated below 2. *)
Theorem condition_checker_two_groups (shuffle : list addr -> list addr)
    (fuel : nat) (s : Groups) (g1 g2 : nat) (id1 id2 : Z)
    (l1 l2 : list student) :
  (forall l, shuffle l ≡ₚ l) ->
  NoDup (group_id <$> group_nodes s) ->
  ratings_ok s ->
  (forall gj, ~ to_remove s gj) ->
  worklist s = [g1; g2] ->
  group_id <$> group_nodes s !! g1 = Some id1 ->
  group_id <$> group_nodes s !! g2 = Some id2 ->
  roster_holds s g1 l1 ->
  roster_holds s g2 l2 ->
  counters s g1 = Some (counters_of l1) ->
  counters s g2 = Some (counters_of l2) ->
  (14 <= fuel)%nat ->
  exists s1 s' l1' l2',
    reshuffle shuffle fuel id1 id2 s = Ok (Reshuffled g1 g2) s1 /\
    reshuffle shuffle fuel id2 id1 s1 = Ok (Reshuffled g2 g1) s' /\
    condition_checker shuffle fuel s = Ok tt s' /\
    length (member_store s') = (length (member_store s) + 28)%nat /\
    roster_holds s' g1 l1' /\ roster_holds s' g2 l2' /\
    l1' ++ l2' ≡ₚ l1 ++ l2 /\
    valid_composition l1' /\ valid_composition l2' /\
    counters s' g1 = Some (counters_of l1') /\
    counters s' g2 = Some (counters_of l2') /\
    group_meta <$> group_nodes s' = group_meta <$> group_nodes s.
Proof.
  intros Hperm Hnd Hok Hno Hwork Hi1 Hi2 Hr1 Hr2 Hc1 Hc2 Hf.
  assert (Hin1 : to_reshuffle s g1).
  { assert (H : g1 ∈ worklist s) by (rewrite Hwork; left).
    by apply list_elem_of_filter in H as [? _]. }
  assert (Hin2 : to_reshuffle s g2).
  { assert (H : g2 ∈ worklist s) by (rewrite Hwork; right; left).
    by apply list_elem_of_filter in H as [? _]. }
  assert (Hne : g1 ≠ g2).
  { assert (H : NoDup (worklist s)) by apply NoDup_filter, NoDup_seq.
    rewrite Hwork in H. apply NoDup_cons in H as [H _].
    intros ->. apply H. left. }
  destruct (to_reshuffle_valid s g1 l1 Hin1 Hc1) as [V1 N1].
  destruct (to_reshuffle_valid s g2 l2 Hin2 Hc2) as [V2 N2].
  pose proof Hr1 as (n1 & c1 & Hg1 & _).
  pose proof Hr2 as (n2 & c2 & Hg2 & _).
  rewrite Hg1 in Hi1. injection Hi1 as <-.
  rewrite Hg2 in Hi2. injection Hi2 as <-.
  assert (Hids : group_id n1 ≠ group_id n2).
  { intros E. apply Hne.
    apply (NoDup_lookup _ g1 g2 (group_id n1) Hnd);
      rewrite list_lookup_fmap; [by rewrite Hg1|by rewrite Hg2, E]. }
  pose proof (search_group_id_unique s g1 n1 Hnd Hg1) as Hs1.
  pose proof (search_group_id_unique s g2 n2 Hnd Hg2) as Hs2.
  destruct (reshuffle_run shuffle fuel s (group_id n1) (group_id n2) g1 g2
              l1 l2 Hperm Hids Hs1 Hs2 Hr1 Hr2)
    as (s1 & l1a & l2a & Hrun1 & Hr1a & Hr2a & Hp1 & _ & _ & _ & _ & _ & Hv1).
  { destruct l1; [done|]. done. }
  { rewrite length_app. lia. }
  destruct (Hv1 V1 V2) as [V1a V2a].
  pose proof (keeps_meta_reshuffle _ _ _ _ _ _ _ Hrun1) as Hmeta1.
  assert (Hids1 : group_id <$> group_nodes s1 = group_id <$> group_nodes s).
  { apply (f_equal (fmap fst)) in Hmeta1.
    by rewrite <- !list_fmap_compose in Hmeta1. }
  pose proof Hr1a as (n1a & c1a & Hg1a & _).
  pose proof Hr2a as (n2a & c2a & Hg2a & _).
  assert (Hid1a : group_id n1a = group_id n1).
  { apply (f_equal (fun l => l !! g1)) in Hids1.
    rewrite !list_lookup_fmap, Hg1a, Hg1 in Hids1. by injection Hids1. }
  assert (Hid2a : group_id n2a = group_id n2).
  { apply (f_equal (fun l => l !! g2)) in Hids1.
    rewrite !list_lookup_fmap, Hg2a, Hg2 in Hids1. by injection Hids1. }
  assert (Hlen1 : (length l1a + length l2a = 14)%nat).
  { rewrite <- length_app, Hp1, length_app. lia. }
  pose proof (search_group_id_ids _ s s1 _ Hids1 Hs1) as Hs1a.
  pose proof (search_group_id_ids _ s s1 _ Hids1 Hs2) as Hs2a.
  destruct (reshuffle_run shuffle fuel s1 (group_id n2) (group_id n1) g2 g1
              l2a l1a Hperm)
    as (s2 & l2b & l1b & Hrun2 & Hr2b & Hr1b & Hp2 & Hc2b & Hc1b & _ & _ & _
        & Hv2); try done.
  { intros E. apply (f_equal length) in E.
    rewrite length_app in E. simpl in E. lia. }
  { rewrite length_app. lia. }
  destruct (Hv2 V2a V1a) as [V2b V1b].
  pose proof (keeps_meta_reshuffle _ _ _ _ _ _ _ Hrun2) as Hmeta2.
  pose proof (reshuffle_creates shuffle fuel s _ _ g1 g2 l1 l2 _ _
                Hperm Hs1 Hs2 Hr1 Hr2 ltac:(rewrite length_app; lia) Hrun1)
    as Hst1.
  pose proof (reshuffle_creates shuffle fuel s1 _ _ g2 g1 l2a l1a _ _
                Hperm Hs2a Hs1a Hr2a Hr1a ltac:(rewrite length_app; lia)
                Hrun2)
    as Hst2.
  exists s1, s2, l1b, l2b. split; [done|]. split; [done|]. split.
  - unfold condition_checker.
    destruct (check_full_worklist s Hok Hno) as (L1 & L2 & Hcl & Hck).
    mrun Hcl. simpl. mrun Hck. rewrite Hwork. simpl.
    unfold reshuffle_pair at 1. simpl.
    mrun (group_at_ok _ _ _ Hg1). mrun (group_at_ok _ _ _ Hg2).
    mrun Hrun1. mstep. simpl. mstep. simpl.
    rewrite bool_decide_eq_true_2 by done.
    unfold reshuffle_pair. simpl.
    mrun (group_at_ok _ _ _ Hg2a). mrun (group_at_ok _ _ _ Hg1a).
    rewrite Hid2a, Hid1a.
    mrun Hrun2. do 2 mstep. apply possible_merging_skip.
  - split_and!; try done.
    + lia.
    + by rewrite (Permutation_app_comm l1b l2b), Hp2,
        (Permutation_app_comm l2a l1a).
    + by rewrite Hmeta2.
Qed.

(** ** The groups the sweep removes *)

Lemma set_group_nodes_same (s : Groups) : set_group_nodes (group_nodes s) s = s.
Proof. by destruct s. Qed.

Lemma check_full_sweep (s0 : Groups) :
  NoDup (group_id <$> group_nodes s0) ->
  ratings_ok s0 ->
  forall L1 L gs,
    NoDup L1 ->
    (forall gi, gi ∈ L1 -> gs !! gi = group_nodes s0 !! gi) ->
    group_id <$> gs = group_id <$> group_nodes s0 ->
    Forall (fun gi => exists g, group_nodes s0 !! gi = Some g /\
                        number_of_members (member_list g) = 7) L1 ->
    exists gs',
      check_full L1 L (set_group_nodes gs s0)
      = Ok (L ++ filter (to_reshuffle s0) L1) (set_group_nodes gs' s0) /\
      forall gi,
        gs' !! gi
        = if decide (gi ∈ L1 /\ to_remove s0 gi)
          then (fun g => set_member_list g Member_init)
                 <$> group_nodes s0 !! gi
          else gs !! gi.
Proof.
  intros Hids Hok.
  induction L1 as [|gi L1 IH]; intros L gs Hnd Hsame Hgid Hfull.
  - exists gs. split; [simpl; by rewrite app_nil_r|].
    intros gi. rewrite decide_False; [done|]. by intros [?%elem_of_nil _].
  - apply NoDup_cons in Hnd as [Hfresh Hnd].
    apply Forall_cons in Hfull as [(g & Hg & H7) Hfull].
    assert (Hgs : gs !! gi = Some g) by (rewrite Hsame; [done|left]).
    assert (Hsame' : forall gj, gj ∈ L1 -> gs !! gj = group_nodes s0 !! gj).
    { intros gj Hgj. apply Hsame. by right. }
    assert (Hstay : ~ to_remove s0 gi ->
              forall L', exists gs',
                check_full L1 L' (set_group_nodes gs s0)
                = Ok (L' ++ filter (to_reshuffle s0) L1)
                    (set_group_nodes gs' s0) /\
                forall gj,
                  gs' !! gj
                  = if decide (gj ∈ gi :: L1 /\ to_remove s0 gj)
                    then (fun g => set_member_list g Member_init)
                           <$> group_nodes s0 !! gj
                    else gs !! gj).
    { intros Hkeep L'.
      destruct (IH L' gs Hnd Hsame' Hgid Hfull) as (gs' & Hrun & Hlook).
      exists gs'. split; [done|]. intros gj. rewrite Hlook.
      destruct (decide (gj = gi)) as [->|Hne].
      - rewrite !decide_False; [done|tauto|tauto].
      - apply decide_ext. rewrite elem_of_cons. tauto. }
    simpl. mrun (group_at_ok gi g (set_group_nodes gs s0) Hgs).
    rewrite filter_cons.
    pose proof (eq_refl : to_remove s0 gi = to_remove s0 gi) as Hrm.
    unfold to_remove at 2 in Hrm. rewrite Hg in Hrm.
    pose proof (eq_refl : to_reshuffle s0 gi = to_reshuffle s0 gi) as Hsh.
    unfold to_reshuffle at 2 in Hsh. rewrite Hg in Hsh.
    destruct (ratings_ok_lookup s0 gi g Hok Hg) as [below Hlow].
    case_bool_decide as Hcomp.
    + rewrite decide_False
        by (rewrite Hsh; intros (_ & ? & ? & ? & _);
            destruct Hcomp as [?|[?|?]]; done).
      mrun (rated_below_two_ok g below (set_group_nodes gs s0) Hlow).
      destruct below.
      * assert (Hto : to_remove s0 gi) by (by rewrite Hrm).
        set (gs1 := <[gi := set_member_list g Member_init]> gs).
        assert (Hrun1 : remove_group (group_id g) (set_group_nodes gs s0)
                        = Ok true (set_group_nodes gs1 s0)).
        { unfold remove_group.
          mrun (search_group_id_unique (set_group_nodes gs s0) gi g
                  ltac:(simpl; by rewrite Hgid) Hgs).
          by mrun (put_member_list_ok gi g Member_init
                     (set_group_nodes gs s0) Hgs). }
        mrun Hrun1. mstep.
        destruct (IH L gs1 Hnd) as (gs' & Hrun & Hlook).
        { intros gj Hgj. unfold gs1.
          rewrite list_lookup_insert_ne by (by intros ->). by apply Hsame'. }
        { unfold gs1. by rewrite ids_set_member_list. }
        { done. }
        exists gs'. split; [done|]. intros gj. rewrite Hlook.
        destruct (decide (gj = gi)) as [->|Hne].
        -- rewrite decide_False by tauto.
           rewrite decide_True by (split; [left|done]).
           unfold gs1. rewrite list_lookup_insert_eq
             by (by eapply lookup_lt_Some).
           by rewrite Hg.
        -- unfold gs1. rewrite list_lookup_insert_ne by done.
           apply decide_ext. rewrite elem_of_cons. tauto.
      * mstep. apply Hstay. rewrite Hrm. intros (_ & _ & ?). congruence.
    + assert (Hkeep : ~ to_remove s0 gi).
      { rewrite Hrm. intros (_ & ? & _). done. }
      assert (Hex : count_high (member_list g) = 2 /\
                    count_mid (member_list g) = 3 /\
                    count_low (member_list g) = 2).
      { destruct (decide (count_high (member_list g) = 2));
          destruct (decide (count_mid (member_list g) = 3));
          destruct (decide (count_low (member_list g) = 2)); tauto. }
      mrun (rated_below_two_ok g below (set_group_nodes gs s0) Hlow).
      destruct below.
      * rewrite decide_True by (rewrite Hsh; tauto).
        destruct (Hstay Hkeep (L ++ [gi])) as (gs' & Hrun & Hlook).
        exists gs'. split; [|done]. by rewrite Hrun, <- app_assoc.
      * rewrite decide_False
          by (rewrite Hsh; intros (_ & _ & _ & _ & ?); congruence).
        by apply Hstay.
Qed.

Lemma check_full_swept (s : Groups) :
  NoDup (group_id <$> group_nodes s) ->
  ratings_ok s ->
  exists L1 L2,
    classify_groups s = Ok (L1, L2) s /\
    check_full L1 [] s = Ok (worklist s) (swept s).
Proof.
  intros Hids Hok. eexists _, _. split; [reflexivity|].
  set (full := fun gi => _ = true).
  set (all := seq 0 (length (group_nodes s))).
  assert (Hfull : forall gi, gi ∈ filter full all <->
            exists g, group_nodes s !! gi = Some g /\
              number_of_members (member_list g) = 7).
  { intros gi. rewrite list_elem_of_filter. unfold full, all.
    rewrite elem_of_seq. split.
    - intros [Hf _]. destruct (group_nodes s !! gi) as [g|]; [|done].
      exists g. split; [done|]. by apply bool_decide_eq_true in Hf.
    - intros (g & Hg & H7). rewrite Hg. split.
      + by apply bool_decide_eq_true.
      + apply lookup_lt_Some in Hg. lia. }
  destruct (check_full_sweep s Hids Hok (filter full all) [] (group_nodes s))
    as (gs' & Hrun & Hlook).
  - apply NoDup_filter, NoDup_seq.
  - done.
  - done.
  - apply Forall_forall. intros gi Hgi. by apply Hfull.
  - rewrite set_group_nodes_same in Hrun. rewrite Hrun. f_equal.
    + simpl. unfold worklist. fold all.
      rewrite list_filter_filter. apply list_filter_iff.
      intros gj. unfold full, to_reshuffle.
      destruct (group_nodes s !! gj) as [g|]; [|tauto].
      rewrite bool_decide_eq_true. tauto.
    + unfold swept. f_equal. apply list_eq. intros gi.
      rewrite Hlook, list_lookup_imap.
      destruct (group_nodes s !! gi) as [g|] eqn:Hg; simpl.
      * destruct (decide (to_remove s gi)) as [Hto|Hno].
        -- rewrite decide_True; [done|]. split; [|done].
           apply Hfull. exists g. split; [done|].
           unfold to_remove in Hto. rewrite Hg in Hto. tauto.
        -- rewrite decide_False; [done|tauto].
      * by destruct (decide _).
Qed.

(** X30.  [condition_checker] in a state with distinct group ids, ratings
    whose averages can be computed and at most one group to reshuffle: every
    group whose counters read 7 members, not in the composition 2 high, 3 mid
    and 2 low, and whose average rating is below 2, is left with an empty
    roster and zero counters under its id and ratings; every other group and
    all else is as before.  With one group to reshuffle the call returns; with
    none it raises [IndexError] once the removals are done. *)
Theorem condition_checker_removes (shuffle : list addr -> list addr)
    (fuel : nat) (s : Groups) :
  NoDup (group_id <$> group_nodes s) ->
  ratings_ok s ->
  (length (worklist s) <= 1)%nat ->
  condition_checker shuffle fuel s
  = match worklist s with
    | [] => Raise IndexError (swept s)
    | _ :: _ => Ok tt (swept s)
    end /\
  forall gi g, group_nodes s !! gi = Some g ->
    group_nodes (swept s) !! gi
    = Some (if decide (to_remove s gi)
            then mkGroupListNode (group_id g) Member_init (session_rating g)
            else g).
Proof.
  intros Hids Hok Hlen. split.
  - destruct (check_full_swept s Hids Hok) as (L1 & L2 & Hcl & Hck).
    unfold condition_checker. mrun Hcl. simpl. mrun Hck.
    destruct (worklist s) as [|gi [|gj L]]; simpl in *; [| |lia].
    + by mstep.
    + mstep. simpl.
      rewrite bool_decide_eq_false_2 by (by intros H; apply H).
      mstep. apply possible_merging_skip.
  - intros gi g Hg. unfold swept. simpl.
    rewrite list_lookup_imap, Hg. simpl. by destruct (decide _).
Qed.

(** ** Tables of buckets *)

Lemma display_table_cons (slot : option (list string)) (tbl : table) :
  display_table (slot :: tbl) = bucket_of slot ++ display_table tbl.
Proof. destruct slot as [[|]|]; reflexivity. Qed.

Lemma display_table_app (t1 t2 : table) :
  display_table (t1 ++ t2) = display_table t1 ++ display_table t2.
Proof.
  induction t1 as [|slot t1 IH]; [done|].
  change ((slot :: t1) ++ t2) with (slot :: (t1 ++ t2)).
  by rewrite !display_table_cons, IH, app_assoc.
Qed.

Lemma display_table_insert (tbl : table) (i : nat)
    (slot slot' : option (list string)) :
  tbl !! i = Some slot ->
  display_table tbl
  = display_table (take i tbl) ++ bucket_of slot
    ++ display_table (drop (S i) tbl) /\
  display_table (<[i := slot']> tbl)
  = display_table (take i tbl) ++ bucket_of slot'
    ++ display_table (drop (S i) tbl).
Proof.
  intros H. split.
  - rewrite <- (take_drop_middle tbl i slot H) at 1.
    by rewrite display_table_app, display_table_cons.
  - rewrite (insert_take_drop tbl i slot') by apply (lookup_lt_Some _ _ _ H).
    by rewrite display_table_app, display_table_cons.
Qed.

Lemma elem_of_display_table (tbl : table) (key : string) :
  key ∈ display_table tbl <-> listed tbl key.
Proof.
  induction tbl as [|slot tbl IH].
  - split; [by intros ?%elem_of_nil | by intros (i & b & ? & _)].
  - rewrite display_table_cons, elem_of_app, IH. split.
    + intros [H | (i & b & Hi & Hb)].
      * destruct slot as [b|]; [|by apply elem_of_nil in H].
        by exists 0%nat, b.
      * by exists (S i), b.
    + intros ([|i] & b & Hi & Hb).
      * left. simpl in Hi. by injection Hi as ->.
      * right. by exists i, b.
Qed.

Lemma slot_has_bucket (slot : option (list string)) (key : string) :
  slot_has slot key = bool_decide (key ∈ bucket_of slot).
Proof.
  by destruct slot as [[|x b]|].
Qed.

Lemma slot_holds_bucket (slot : option (list string)) (key : string) :
  slot_holds slot key = bool_decide (key ∈ bucket_of slot).
Proof.
  by destruct slot as [b|].
Qed.

Lemma hash_of_lt (size : nat) (key : string) (i : nat) :
  hash_of size key = Some i -> (i < size)%nat.
Proof.
  unfold hash_of. destruct (decide (size = 0%nat)); [done|].
  intros [= <-]. by apply Nat.mod_upper_bound.
Qed.

(** In a well-formed table a key is looked for in one slot only. *)
Lemma table_wf_slot (size : nat) (tbl : table) (key : string) :
  table_wf size tbl ->
  exists i slot, hash_of size key = Some i /\ tbl !! i = Some slot /\
    (listed tbl key <-> key ∈ bucket_of slot).
Proof.
  intros (Hpos & Hlen & Hb).
  assert (Hh : hash_of size key = Some (ord_sum key mod size)%nat).
  { unfold hash_of. destruct (decide (size = 0%nat)); [lia | done]. }
  destruct (lookup_lt_is_Some_2 tbl (ord_sum key mod size)%nat) as [slot Hs].
  { rewrite Hlen. apply Nat.mod_upper_bound. lia. }
  exists (ord_sum key mod size)%nat, slot. split; [done|]. split; [done|].
  split.
  - intros (j & b & Hj & Hin).
    destruct (Hb j b Hj) as [_ Hk]. specialize (Hk key Hin).
    rewrite Hh in Hk. injection Hk as <-.
    rewrite Hs in Hj. by injection Hj as ->.
  - destruct slot as [b|]; simpl; [|by intros ?%elem_of_nil].
    intros Hin. by exists (ord_sum key mod size)%nat, b.
Qed.

Lemma open_slot_spec (tbl tbl1 : table) (i : nat)
    (slot : option (list string)) (bucket b' : list string) :
  open_slot tbl i slot = (tbl1, bucket) ->
  bucket = bucket_of slot /\
  <[i := Some b']> tbl1 = <[i := Some b']> tbl /\
  (bucket <> [] -> tbl1 = tbl).
Proof.
  destruct slot as [b|]; simpl; intros [= <- <-]; split_and!; try done.
  by rewrite list_insert_insert_eq.
Qed.

Lemma table_wf_insert (size : nat) (tbl : table) (i : nat)
    (b' : list string) :
  table_wf size tbl ->
  NoDup b' ->
  (forall key, key ∈ b' -> hash_of size key = Some i) ->
  table_wf size (<[i := Some b']> tbl).
Proof.
  intros (Hpos & Hlen & Hb) Hnd Hk. split; [done|].
  split; [by rewrite length_insert|].
  intros j b Hj. destruct (decide (i = j)) as [<-|Hne].
  - pose proof (lookup_lt_Some _ _ _ Hj) as Hlt. rewrite length_insert in Hlt.
    rewrite list_lookup_insert_eq in Hj by done.
    by injection Hj as <-.
  - rewrite list_lookup_insert_ne in Hj by done. by apply Hb.
Qed.

Lemma listed_insert (size : nat) (tbl : table) (i : nat)
    (slot : option (list string)) (b' : list string) (y : string) :
  table_wf size tbl ->
  tbl !! i = Some slot ->
  listed (<[i := Some b']> tbl) y
  <-> y ∈ b' \/ (listed tbl y /\ y ∉ bucket_of slot).
Proof.
  intros (Hpos & Hlen & Hb) Hs. split.
  - intros (j & b & Hj & Hin). destruct (decide (i = j)) as [<-|Hne].
    + rewrite list_lookup_insert_eq in Hj by apply (lookup_lt_Some _ _ _ Hs).
      injection Hj as <-. by left.
    + rewrite list_lookup_insert_ne in Hj by done. right.
      split; [by exists j, b|].
      destruct slot as [b0|]; simpl; [|apply not_elem_of_nil].
      intros Hin0. destruct (Hb i b0 Hs) as [_ H0], (Hb j b Hj) as [_ H1].
      specialize (H0 y Hin0). specialize (H1 y Hin). congruence.
  - intros [Hin | [(j & b & Hj & Hin) Hout]].
    + exists i, b'. split; [|done].
      apply list_lookup_insert_eq, (lookup_lt_Some _ _ _ Hs).
    + exists j, b. split; [|done].
      rewrite list_lookup_insert_ne; [done|].
      intros <-. rewrite Hs in Hj. injection Hj as ->. done.
Qed.

Lemma remove_first_Permutation (key : string) (b : list string) :
  key ∈ b -> b ≡ₚ key :: remove_first key b.
Proof.
  induction b as [|x b IH]; [by intros ?%elem_of_nil|].
  intros Hin. simpl. destruct (decide (x = key)) as [->|Hne]; [done|].
  apply elem_of_cons in Hin as [->|Hin]; [done|].
  rewrite (IH Hin) at 1. apply Permutation_swap.
Qed.

(** A key that is not listed finds no bucket holding it. *)
Lemma table_absent (size : nat) (tbl : table) (key : string) :
  table_wf size tbl ->
  ~ listed tbl key ->
  exists i slot, hash_of size key = Some i /\ tbl !! i = Some slot /\
    key ∉ bucket_of slot.
Proof.
  intros Hwf Hno. destruct (table_wf_slot size tbl key Hwf)
    as (i & slot & Hh & Hs & Hiff).
  exists i, slot. split_and!; try done. by rewrite <- Hiff.
Qed.

(** A listed key is in the bucket of its own slot. *)
Lemma table_present (size : nat) (tbl : table) (key : string) :
  table_wf size tbl ->
  listed tbl key ->
  exists i b, hash_of size key = Some i /\ tbl !! i = Some (Some b) /\
    key ∈ b.
Proof.
  intros Hwf Hin. destruct (table_wf_slot size tbl key Hwf)
    as (i & slot & Hh & Hs & Hiff).
  apply Hiff in Hin. destruct slot as [b|]; [|by apply elem_of_nil in Hin].
  by exists i, b.
Qed.

(** Appending a new key to the bucket of its slot. *)
Lemma table_add (size : nat) (tbl : table) (key : string) (i : nat)
    (slot : option (list string)) :
  table_wf size tbl ->
  hash_of size key = Some i ->
  tbl !! i = Some slot ->
  key ∉ bucket_of slot ->
  let tbl' := <[i := Some (bucket_of slot ++ [key])]> tbl in
  table_wf size tbl' /\
  (forall y, listed tbl' y <-> y = key \/ listed tbl y) /\
  display_table tbl' ≡ₚ key :: display_table tbl.
Proof.
  intros Hwf Hh Hs Hout tbl'.
  assert (Hslot : forall y, y ∈ bucket_of slot ->
            listed tbl y /\ hash_of size y = Some i /\ NoDup (bucket_of slot)).
  { intros y Hy. destruct slot as [b|]; [|by apply elem_of_nil in Hy].
    destruct Hwf as (_ & _ & Hb). destruct (Hb i b Hs) as [Hnd Hk].
    split; [by exists i, b|]. split; [by apply Hk | done]. }
  assert (Hnd : NoDup (bucket_of slot)).
  { destruct slot as [b|]; [|apply NoDup_nil_2].
    destruct Hwf as (_ & _ & Hb). by destruct (Hb i b Hs). }
  split_and!.
  - apply table_wf_insert; [done| |].
    + apply NoDup_app. split_and!; [done| |apply NoDup_singleton].
      intros y Hy ->%list_elem_of_singleton. done.
    + intros y [Hy | ->%list_elem_of_singleton]%elem_of_app; [|done].
      by apply Hslot.
  - intros y. unfold tbl'. rewrite (listed_insert size tbl i slot) by done.
    rewrite elem_of_app, list_elem_of_singleton. split.
    + intros [[Hy | ->] | [Hl _]]; [right; by apply Hslot | by left | by right].
    + intros [-> | Hl]; [left; by right|].
      destruct (decide (y ∈ bucket_of slot)); [left; by left | by right].
  - destruct (display_table_insert tbl i slot
                (Some (bucket_of slot ++ [key])) Hs) as [E1 E2].
    unfold tbl'. rewrite E1, E2. simpl.
    rewrite <- !app_assoc. simpl. by rewrite <- !Permutation_middle.
Qed.

(** Taking a listed key out of its bucket. *)
Lemma table_remove (size : nat) (tbl : table) (key : string) (i : nat)
    (b : list string) :
  table_wf size tbl ->
  tbl !! i = Some (Some b) ->
  key ∈ b ->
  let tbl' := <[i := Some (remove_first key b)]> tbl in
  table_wf size tbl' /\
  (forall y, listed tbl' y <-> y <> key /\ listed tbl y) /\
  display_table tbl ≡ₚ key :: display_table tbl'.
Proof.
  intros Hwf Hs Hin tbl'.
  pose proof (remove_first_Permutation key b Hin) as Hperm.
  destruct Hwf as (Hpos & Hlen & Hb). destruct (Hb i b Hs) as [Hnd Hk].
  assert (Hnd' : NoDup (key :: remove_first key b)) by by rewrite <- Hperm.
  apply NoDup_cons in Hnd' as [Hfresh Hnd'].
  assert (Hmem : forall y, y ∈ b <-> y = key \/ y ∈ remove_first key b).
  { intros y. by rewrite Hperm at 1; rewrite elem_of_cons. }
  split_and!.
  - apply table_wf_insert; [done|done|].
    intros y Hy. apply Hk, Hmem. by right.
  - intros y. unfold tbl'.
    rewrite (listed_insert size tbl i (Some b)) by done. simpl. split.
    + intros [Hy | [Hl Hout]].
      * split; [by intros ->|]. exists i, b. split; [done|].
        apply Hmem. by right.
      * split; [by intros ->|done].
    + intros [Hne Hl]. destruct (decide (y ∈ b)) as [Hy|Hy]; [|by right].
      left. apply Hmem in Hy as [->|Hy]; done.
  - destruct (display_table_insert tbl i (Some b)
                (Some (remove_first key b)) Hs) as [E1 E2].
    unfold tbl'. rewrite E1, E2. simpl. rewrite Hperm at 1. simpl.
    by rewrite <- Permutation_middle.
Qed.

(** Each key of a well-formed table is displayed once. *)
Lemma display_table_NoDup_from (h : string -> option nat) (tbl : table)
    (off : nat) :
  (forall i b, tbl !! i = Some (Some b) ->
     NoDup b /\ forall key, key ∈ b -> h key = Some (off + i)%nat) ->
  NoDup (display_table tbl).
Proof.
  revert off. induction tbl as [|slot tbl IH]; intros off Hb.
  - apply NoDup_nil_2.
  - rewrite display_table_cons. apply NoDup_app. split_and!.
    + destruct slot as [b|]; [|apply NoDup_nil_2].
      by destruct (Hb 0%nat b eq_refl).
    + intros y Hy (j & b' & Hj & Hin)%elem_of_display_table.
      destruct slot as [b|]; [|by apply elem_of_nil in Hy].
      destruct (Hb 0%nat b eq_refl) as [_ H0].
      destruct (Hb (S j) b' Hj) as [_ H1].
      specialize (H0 y Hy). specialize (H1 y Hin).
      rewrite H0 in H1. injection H1. lia.
    + apply (IH (S off)). intros i b Hi.
      destruct (Hb (S i) b Hi) as [Hnd Hk]. split; [done|].
      intros key Hin. rewrite (Hk key Hin). f_equal. lia.
Qed.

Lemma display_table_NoDup (size : nat) (tbl : table) :
  table_wf size tbl -> NoDup (display_table tbl).
Proof.
  intros (_ & _ & Hb).
  apply (display_table_NoDup_from (hash_of size) tbl 0%nat). done.
Qed.

Lemma table_wf_replicate (size : nat) :
  (0 < size)%nat -> table_wf size (replicate size None).
Proof.
  intros Hpos. split; [done|]. split; [apply length_replicate|].
  intros i b [? _]%lookup_replicate. done.
Qed.

Lemma display_table_replicate (size : nat) :
  display_table (replicate size None) = [].
Proof. induction size as [|n IH]; [done|]. simpl. done. Qed.

(** ** The registry of languages *)

Lemma Languages_init_wf (size : nat) :
  (0 < size)%nat -> Languages_wf (Languages_init size).
Proof.
  intros Hpos. split; [by apply table_wf_replicate|].
  intros key. simpl. rewrite lookup_empty. split; [by intros [? ?]|].
  intros Hl%elem_of_display_table.
  rewrite display_table_replicate in Hl. by apply elem_of_nil in Hl.
Qed.

Lemma add_language_fresh (x : string) (L : Languages) :
  Languages_wf L ->
  x ∉ display_all_languages L ->
  exists L', add_language x L = RDone true L' /\ Languages_wf L' /\
    l_size L' = l_size L /\
    language_map L' = <[x := Groups_init x]> (language_map L) /\
    display_all_languages L' ≡ₚ x :: display_all_languages L.
Proof.
  intros [Hwf Hdom] Hno. unfold display_all_languages in *.
  rewrite elem_of_display_table in Hno.
  destruct (table_absent _ _ x Hwf Hno) as (i & slot & Hh & Hs & Hout).
  destruct (table_add _ _ x i slot Hwf Hh Hs Hout) as (Hwf' & Hl' & Hperm).
  unfold add_language, Languages_hash_function. rewrite Hh, Hs.
  destruct (open_slot (l_table L) i slot) as [tbl1 bucket] eqn:E.
  destruct (open_slot_spec _ _ _ _ _ (bucket ++ [x]) E) as (-> & Hins & _).
  rewrite bool_decide_eq_false_2 by done. rewrite Hins.
  eexists. split; [reflexivity|]. simpl. split_and!; try done.
  split; [done|]. intros key. simpl.
  rewrite lookup_insert_is_Some, Hl', Hdom. split.
  - intros [->|[_ ?]]; [by left | by right].
  - intros [->|?]; [by left|].
    destruct (decide (x = key)); [by left | by right].
Qed.

Lemma add_language_known (x : string) (L : Languages) :
  Languages_wf L ->
  x ∈ display_all_languages L ->
  add_language x L = RDone false L.
Proof.
  intros [Hwf Hdom] Hin. unfold display_all_languages in *.
  rewrite elem_of_display_table in Hin.
  destruct (table_present _ _ x Hwf Hin) as (i & b & Hh & Hs & Hb).
  unfold add_language, Languages_hash_function. rewrite Hh, Hs. simpl.
  rewrite bool_decide_eq_true_2 by done. by destruct L.
Qed.

Lemma remove_language_known (x : string) (L : Languages) :
  Languages_wf L ->
  x ∈ display_all_languages L ->
  exists L', remove_language x L = RDone true L' /\ Languages_wf L' /\
    l_size L' = l_size L /\
    language_map L' = delete x (language_map L) /\
    display_all_languages L ≡ₚ x :: display_all_languages L'.
Proof.
  intros [Hwf Hdom] Hin. unfold display_all_languages in *.
  rewrite elem_of_display_table in Hin.
  destruct (table_present _ _ x Hwf Hin) as (i & b & Hh & Hs & Hb).
  destruct (table_remove _ _ x i b Hwf Hs Hb) as (Hwf' & Hl' & Hperm).
  unfold remove_language, Languages_hash_function. rewrite Hh, Hs.
  rewrite slot_has_bucket. simpl. rewrite bool_decide_eq_true_2 by done.
  destruct (proj2 (Hdom x) Hin) as [g Hg]. rewrite Hg.
  eexists. split; [reflexivity|]. simpl. split_and!; try done.
  split; [done|]. intros key. simpl.
  rewrite lookup_delete_is_Some, Hl', Hdom.
  split; intros [? ?]; split; try done; congruence.
Qed.

Lemma remove_language_unknown (x : string) (L : Languages) :
  Languages_wf L ->
  x ∉ display_all_languages L ->
  remove_language x L = RDone false L.
Proof.
  intros [Hwf Hdom] Hno. unfold display_all_languages in *.
  rewrite elem_of_display_table in Hno.
  destruct (table_absent _ _ x Hwf Hno) as (i & slot & Hh & Hs & Hout).
  unfold remove_language, Languages_hash_function. rewrite Hh, Hs.
  rewrite slot_has_bucket. by rewrite bool_decide_eq_false_2 by done.
Qed.

Lemma check_language_exists_run (x : string) (L : Languages) :
  Languages_wf L ->
  check_language_exists x L
  = RDone (bool_decide (x ∈ display_all_languages L)) L.
Proof.
  intros [Hwf Hdom].
  destruct (table_wf_slot _ _ x Hwf) as (i & slot & Hh & Hs & Hiff).
  unfold check_language_exists, Languages_hash_function. rewrite Hh, Hs.
  rewrite slot_holds_bucket. f_equal. apply bool_decide_ext.
  unfold display_all_languages. by rewrite elem_of_display_table.
Qed.

Lemma Languages_get_or_default_run (x : string) (d : option Groups)
    (L : Languages) :
  Languages_wf L ->
  Languages_get_or_default x d L
  = RDone (match language_map L !! x with
           | Some groups => Some groups
           | None => d
           end) L.
Proof.
  intros [Hwf Hdom].
  destruct (table_wf_slot _ _ x Hwf) as (i & slot & Hh & Hs & Hiff).
  unfold Languages_get_or_default, Languages_hash_function. rewrite Hh, Hs.
  rewrite slot_has_bucket.
  destruct (decide (x ∈ bucket_of slot)) as [Hin|Hout].
  - rewrite bool_decide_eq_true_2 by done.
    destruct (proj2 (Hdom x) (proj2 Hiff Hin)) as [g Hg]. by rewrite Hg.
  - rewrite bool_decide_eq_false_2 by done.
    destruct (language_map L !! x) as [g|] eqn:Hg; [|done].
    exfalso. apply Hout, Hiff, Hdom. by exists g.
Qed.

Lemma language_run_wf (ops : list language_op) (L : Languages) :
  Languages_wf L ->
  exists L', language_run ops L = RDone tt L' /\ Languages_wf L' /\
    l_size L' = l_size L.
Proof.
  revert L. induction ops as [|op ops IH]; intros L Hwf; [by exists L|].
  assert (Hstep : exists r L1, language_step op L = RDone r L1 /\
            Languages_wf L1 /\ l_size L1 = l_size L).
  { destruct op as [x|x]; simpl;
      destruct (decide (x ∈ display_all_languages L)) as [Hin|Hout].
    - exists false, L. by rewrite add_language_known.
    - destruct (add_language_fresh x L Hwf Hout) as (L1 & -> & ? & ? & _).
      by exists true, L1.
    - destruct (remove_language_known x L Hwf Hin) as (L1 & -> & ? & ? & _).
      by exists true, L1.
    - exists false, L. by rewrite remove_language_unknown. }
  destruct Hstep as (r & L1 & Hr & Hwf1 & Hsz).
  destruct (IH L1 Hwf1) as (L' & Hrun & Hwf' & Hsz').
  exists L'. simpl. rewrite Hr. split_and!; [done|done|congruence].
Qed.

(** X17. On a well-formed registry, adding a language that is not listed
    returns True, lists it beside the others and maps it to a fresh
    [Groups]; afterwards the language is found, and adding it again
    returns False and changes nothing. *)
Theorem add_language_registers (x : string) (d : option Groups)
    (L : Languages) :
  Languages_wf L ->
  x ∉ display_all_languages L ->
  exists L', add_language x L = RDone true L' /\
    Languages_wf L' /\
    display_all_languages L' ≡ₚ x :: display_all_languages L /\
    language_map L' = <[x := Groups_init x]> (language_map L) /\
    check_language_exists x L' = RDone true L' /\
    Languages_get_or_default x d L' = RDone (Some (Groups_init x)) L' /\
    add_language x L' = RDone false L'.
Proof.
  intros Hwf Hout.
  destruct (add_language_fresh x L Hwf Hout)
    as (L' & Hadd & Hwf' & _ & Hmap & Hperm).
  assert (Hin : x ∈ display_all_languages L').
  { rewrite Hperm. by left. }
  exists L'. split_and!; try done.
  - rewrite check_language_exists_run by done.
    by rewrite bool_decide_eq_true_2.
  - rewrite Languages_get_or_default_run by done.
    by rewrite Hmap, lookup_insert_eq.
  - by apply add_language_known.
Qed.

(** X18. On a well-formed registry, removing a listed language returns
    True and takes it out of the table and of the dict; afterwards it is
    not found, a lookup gives the default, and removing it again returns
    False and changes nothing. *)
Theorem remove_language_unregisters (x : string) (d : option Groups)
    (L : Languages) :
  Languages_wf L ->
  x ∈ display_all_languages L ->
  exists L', remove_language x L = RDone true L' /\
    Languages_wf L' /\
    display_all_languages L ≡ₚ x :: display_all_languages L' /\
    (x ∉ display_all_languages L') /\
    language_map L' = delete x (language_map L) /\
    check_language_exists x L' = RDone false L' /\
    Languages_get_or_default x d L' = RDone d L' /\
    remove_language x L' = RDone false L'.
Proof.
  intros Hwf Hin.
  destruct (remove_language_known x L Hwf Hin)
    as (L' & Hrm & Hwf' & _ & Hmap & Hperm).
  assert (Hout : x ∉ display_all_languages L').
  { pose proof (display_table_NoDup _ _ (proj1 Hwf)) as Hnd.
    unfold display_all_languages in Hperm. rewrite Hperm in Hnd.
    by apply NoDup_cons in Hnd as [? _]. }
  exists L'. split_and!; try done.
  - rewrite check_language_exists_run by done.
    by rewrite bool_decide_eq_false_2.
  - rewrite Languages_get_or_default_run by done.
    by rewrite Hmap, lookup_delete_eq.
  - by apply remove_language_unknown.
Qed.

(** X19. On a well-formed registry the lookups do not raise and agree with
    the listing: [check_language_exists] tells whether the language is
    displayed, [get_or_default] gives the dict's entry of a displayed
    language and the default otherwise, and adding a listed language or
    removing an unlisted one returns False and changes nothing. *)
Theorem Languages_lookups_agree (x : string) (d : option Groups)
    (L : Languages) :
  Languages_wf L ->
  check_language_exists x L
  = RDone (bool_decide (x ∈ display_all_languages L)) L /\
  (x ∈ display_all_languages L ->
   exists groups, language_map L !! x = Some groups /\
     Languages_get_or_default x d L = RDone (Some groups) L /\
     add_language x L = RDone false L) /\
  (x ∉ display_all_languages L ->
   language_map L !! x = None /\
   Languages_get_or_default x d L = RDone d L /\
   remove_language x L = RDone false L).
Proof.
  intros Hwf. split; [by apply check_language_exists_run|].
  pose proof (Languages_get_or_default_run x d L Hwf) as Hget.
  destruct Hwf as [Hwf Hdom]. unfold display_all_languages.
  rewrite elem_of_display_table, <- Hdom. split.
  - intros [g Hg]. exists g. rewrite Hg in Hget. split_and!; try done.
    apply add_language_known; [done|].
    unfold display_all_languages. rewrite elem_of_display_table, <- Hdom.
    by exists g.
  - intros Hno%eq_None_not_Some. rewrite Hno in Hget. split_and!; try done.
    apply remove_language_unknown; [done|].
    unfold display_all_languages. rewrite elem_of_display_table, <- Hdom.
    rewrite Hno. by intros [? ?].
Qed.

(** X20. [is_empty] of a registry of languages is True exactly when
    [display_all_languages] returns the empty list, whatever the table. *)
Theorem Languages_is_empty_display (L : Languages) :
  Languages_is_empty L = bool_decide (display_all_languages L = []).
Proof.
  unfold Languages_is_empty, display_all_languages.
  induction (l_table L) as [|slot tbl IH]; [done|].
  destruct slot as [[|x b]|]; simpl; try done.
Qed.

(** X21. Starting from a new registry of positive size, no sequence of
    [add_language] and [remove_language] calls raises; the registry it
    leaves has the same size, displays each language once, and its dict
    has an entry exactly for the displayed languages. *)
Theorem language_run_keeps_registry (size : nat) (ops : list language_op) :
  (0 < size)%nat ->
  exists L, language_run ops (Languages_init size) = RDone tt L /\
    l_size L = size /\ length (l_table L) = size /\
    NoDup (display_all_languages L) /\
    forall x, x ∈ display_all_languages L <-> is_Some (language_map L !! x).
Proof.
  intros Hpos.
  destruct (language_run_wf ops _ (Languages_init_wf size Hpos))
    as (L & Hrun & [Hwf Hdom] & Hsz).
  exists L. split_and!; try done.
  - pose proof Hwf as (_ & Hlen & _). by rewrite Hlen.
  - by apply (display_table_NoDup (l_size L)).
  - intros x. unfold display_all_languages.
    by rewrite elem_of_display_table, Hdom.
Qed.

(** X22. A registry of size 0 cannot hash: adding, removing, checking and
    looking up a language all raise [ZeroDivisionError] and leave the
    registry as it was. *)
Theorem Languages_zero_size (x : string) (d : option Groups)
    (L : Languages) :
  l_size L = 0%nat ->
  add_language x L = RFail ZeroDivisionError L /\
  remove_language x L = RFail ZeroDivisionError L /\
  check_language_exists x L = RFail ZeroDivisionError L /\
  Languages_get_or_default x d L = RFail ZeroDivisionError L.
Proof.
  intros H0.
  unfold add_language, remove_language, check_language_exists,
    Languages_get_or_default, Languages_hash_function, hash_of.
  rewrite H0. done.
Qed.

(** ** The registry of subjects *)

Lemma Subjects_init_wf (size : nat) :
  (0 < size)%nat -> Subjects_wf (Subjects_init size).
Proof.
  intros Hpos. split; [by apply table_wf_replicate|]. split.
  - intros key. simpl. rewrite lookup_empty. split; [by intros [? ?]|].
    intros Hl%elem_of_display_table.
    rewrite display_table_replicate in Hl. by apply elem_of_nil in Hl.
  - simpl. by rewrite display_table_replicate.
Qed.

Lemma add_new_subject_fresh (x : string) (S0 : Subjects) :
  Subjects_wf S0 ->
  x ∉ display_all_subjects S0 ->
  exists S', add_new_subject x S0 = RDone true S' /\ Subjects_wf S' /\
    s_size S' = s_size S0 /\
    subject_list S' = <[x := Languages_init 8]> (subject_list S0) /\
    number_of_subjects S' = number_of_subjects S0 + 1 /\
    display_all_subjects S' ≡ₚ x :: display_all_subjects S0.
Proof.
  intros (Hwf & Hdom & Hnum) Hno. unfold display_all_subjects in *.
  rewrite elem_of_display_table in Hno.
  destruct (table_absent _ _ x Hwf Hno) as (i & slot & Hh & Hs & Hout).
  destruct (table_add _ _ x i slot Hwf Hh Hs Hout) as (Hwf' & Hl' & Hperm).
  unfold add_new_subject, Subjects_hash_function. rewrite Hh, Hs.
  destruct (open_slot (s_table S0) i slot) as [tbl1 bucket] eqn:E.
  destruct (open_slot_spec _ _ _ _ _ (bucket ++ [x]) E) as (-> & Hins & _).
  rewrite bool_decide_eq_false_2 by done. rewrite Hins.
  eexists. split; [reflexivity|]. simpl. split_and!; try done.
  split; [done|]. split.
  - intros key. simpl.
    rewrite lookup_insert_is_Some, Hl', Hdom. split.
    + intros [->|[_ ?]]; [by left | by right].
    + intros [->|?]; [by left|].
      destruct (decide (x = key)); [by left | by right].
  - simpl. rewrite Hperm, Hnum. simpl. lia.
Qed.

Lemma add_new_subject_known (x : string) (S0 : Subjects) :
  Subjects_wf S0 ->
  x ∈ display_all_subjects S0 ->
  add_new_subject x S0 = RDone false S0.
Proof.
  intros (Hwf & Hdom & Hnum) Hin. unfold display_all_subjects in *.
  rewrite elem_of_display_table in Hin.
  destruct (table_present _ _ x Hwf Hin) as (i & b & Hh & Hs & Hb).
  unfold add_new_subject, Subjects_hash_function. rewrite Hh, Hs. simpl.
  rewrite bool_decide_eq_true_2 by done. by destruct S0.
Qed.

Lemma remove_subject_known (x : string) (S0 : Subjects) :
  Subjects_wf S0 ->
  x ∈ display_all_subjects S0 ->
  exists S', remove_subject x S0 = RDone true S' /\ Subjects_wf S' /\
    s_size S' = s_size S0 /\
    subject_list S' = delete x (subject_list S0) /\
    number_of_subjects S' = number_of_subjects S0 - 1 /\
    display_all_subjects S0 ≡ₚ x :: display_all_subjects S'.
Proof.
  intros (Hwf & Hdom & Hnum) Hin. unfold display_all_subjects in *.
  rewrite elem_of_display_table in Hin.
  destruct (table_present _ _ x Hwf Hin) as (i & b & Hh & Hs & Hb).
  destruct (table_remove _ _ x i b Hwf Hs Hb) as (Hwf' & Hl' & Hperm).
  unfold remove_subject, Subjects_hash_function. rewrite Hh, Hs.
  rewrite slot_has_bucket. simpl. rewrite bool_decide_eq_true_2 by done.
  destruct (proj2 (Hdom x) Hin) as [g Hg]. rewrite Hg.
  eexists. split; [reflexivity|]. simpl. split_and!; try done.
  split; [done|]. split.
  - intros key. simpl.
    rewrite lookup_delete_is_Some, Hl', Hdom.
    split; intros [? ?]; split; try done; congruence.
  - simpl. rewrite Hnum, Hperm. simpl. lia.
Qed.

Lemma remove_subject_unknown (x : string) (S0 : Subjects) :
  Subjects_wf S0 ->
  x ∉ display_all_subjects S0 ->
  remove_subject x S0 = RDone false S0.
Proof.
  intros (Hwf & Hdom & Hnum) Hno. unfold display_all_subjects in *.
  rewrite elem_of_display_table in Hno.
  destruct (table_absent _ _ x Hwf Hno) as (i & slot & Hh & Hs & Hout).
  unfold remove_subject, Subjects_hash_function. rewrite Hh, Hs.
  rewrite slot_has_bucket. by rewrite bool_decide_eq_false_2 by done.
Qed.

Lemma check_subject_exists_run (x : string) (S0 : Subjects) :
  Subjects_wf S0 ->
  check_subject_exists x S0
  = RDone (bool_decide (x ∈ display_all_subjects S0)) S0.
Proof.
  intros (Hwf & Hdom & Hnum).
  destruct (table_wf_slot _ _ x Hwf) as (i & slot & Hh & Hs & Hiff).
  unfold check_subject_exists, Subjects_hash_function. rewrite Hh, Hs.
  rewrite slot_holds_bucket. f_equal. apply bool_decide_ext.
  unfold display_all_subjects. by rewrite elem_of_display_table.
Qed.

Lemma Subjects_get_or_default_run (x : string) (d : option Languages)
    (S0 : Subjects) :
  Subjects_wf S0 ->
  Subjects_get_or_default x d S0
  = RDone (match subject_list S0 !! x with
           | Some languages => Some languages
           | None => d
           end) S0.
Proof.
  intros (Hwf & Hdom & Hnum).
  destruct (table_wf_slot _ _ x Hwf) as (i & slot & Hh & Hs & Hiff).
  unfold Subjects_get_or_default, Subjects_hash_function. rewrite Hh, Hs.
  rewrite slot_has_bucket.
  destruct (decide (x ∈ bucket_of slot)) as [Hin|Hout].
  - rewrite bool_decide_eq_true_2 by done.
    destruct (proj2 (Hdom x) (proj2 Hiff Hin)) as [g Hg]. by rewrite Hg.
  - rewrite bool_decide_eq_false_2 by done.
    destruct (subject_list S0 !! x) as [g|] eqn:Hg; [|done].
    exfalso. apply Hout, Hiff, Hdom. by exists g.
Qed.

Lemma update_course_code_moves (old_code new_code : string) (S0 : Subjects) :
  Subjects_wf S0 ->
  old_code ∈ display_all_subjects S0 ->
  new_code ∉ display_all_subjects S0 ->
  exists S' languages,
    subject_list S0 !! old_code = Some languages /\
    update_course_code old_code new_code S0 = RDone true S' /\
    Subjects_wf S' /\
    s_size S' = s_size S0 /\
    subject_list S'
    = <[new_code := languages]> (delete old_code (subject_list S0)) /\
    number_of_subjects S' = number_of_subjects S0 /\
    old_code :: display_all_subjects S'
    ≡ₚ new_code :: display_all_subjects S0.
Proof.
  intros Hwf Hold Hnew.
  destruct (remove_subject_known old_code S0 Hwf Hold)
    as (S1 & Hrm & Hwf1 & Hsz1 & Hmap1 & Hnum1 & Hperm1).
  assert (Hnew1 : new_code ∉ display_all_subjects S1).
  { intros Hin. apply Hnew. rewrite Hperm1. by right. }
  assert (Hl : exists languages, subject_list S0 !! old_code = Some languages).
  { destruct Hwf as (_ & Hdom & _). apply Hdom.
    by apply elem_of_display_table. }
  destruct Hl as [languages Hl].
  destruct Hwf1 as (Hwf1 & Hdom1 & Hn1). unfold display_all_subjects in *.
  rewrite elem_of_display_table in Hnew1.
  destruct (table_absent _ _ new_code Hwf1 Hnew1)
    as (i & slot & Hh & Hs & Hout).
  destruct (table_add _ _ new_code i slot Hwf1 Hh Hs Hout)
    as (Hwf' & Hl' & Hperm).
  destruct (open_slot (s_table S1) i slot) as [tbl1 bucket] eqn:E.
  destruct (open_slot_spec _ _ _ _ _ (bucket ++ [new_code]) E)
    as (-> & Hins & _).
  assert (Hup : update_course_code old_code new_code S0
                = RDone true
                    (mkSubjects (s_size S1)
                       (<[i := Some (bucket_of slot ++ [new_code])]>
                          (s_table S1))
                       (number_of_subjects S1 + 1)
                       (<[new_code := languages]> (subject_list S1)))).
  { unfold update_course_code.
    rewrite !check_subject_exists_run by done.
    unfold display_all_subjects.
    rewrite bool_decide_eq_true_2, bool_decide_eq_false_2 by done.
    rewrite Hl, Hrm. unfold Subjects_hash_function. rewrite Hh, Hs, E.
    by rewrite Hins. }
  eexists _, languages. split; [done|]. split; [exact Hup|].
  split_and!; simpl; try done.
  - split; [done|]. split.
    + intros key. simpl.
      rewrite lookup_insert_is_Some, Hl', Hdom1. split.
      * intros [->|[_ ?]]; [by left | by right].
      * intros [->|?]; [by left|].
        destruct (decide (new_code = key)); [by left | by right].
    + simpl. rewrite Hperm, Hn1. simpl. lia.
  - by rewrite Hmap1.
  - lia.
  - rewrite Hperm, Hperm1. apply Permutation_swap.
Qed.

Lemma update_course_code_stays (old_code new_code : string)
    (S0 : Subjects) :
  Subjects_wf S0 ->
  old_code ∉ display_all_subjects S0 \/ new_code ∈ display_all_subjects S0 ->
  update_course_code old_code new_code S0 = RDone false S0.
Proof.
  intros Hwf Hcase. unfold update_course_code.
  rewrite !check_subject_exists_run by done.
  destruct (decide (old_code ∈ display_all_subjects S0)) as [Hold|Hold].
  - destruct Hcase as [?|Hnew]; [done|].
    by rewrite !bool_decide_eq_true_2 by done.
  - by rewrite bool_decide_eq_false_2 by done.
Qed.

Lemma subject_run_wf (ops : list subject_op) (S0 : Subjects) :
  Subjects_wf S0 ->
  exists S', subject_run ops S0 = RDone tt S' /\ Subjects_wf S' /\
    s_size S' = s_size S0.
Proof.
  revert S0. induction ops as [|op ops IH]; intros S0 Hwf; [by exists S0|].
  assert (Hstep : exists r S1, subject_step op S0 = RDone r S1 /\
            Subjects_wf S1 /\ s_size S1 = s_size S0).
  { destruct op as [x|x|x y]; simpl.
    - destruct (decide (x ∈ display_all_subjects S0)) as [Hin|Hout].
      + exists false, S0. by rewrite add_new_subject_known.
      + destruct (add_new_subject_fresh x S0 Hwf Hout)
          as (S1 & -> & ? & ? & _).
        by exists true, S1.
    - destruct (decide (x ∈ display_all_subjects S0)) as [Hin|Hout].
      + destruct (remove_subject_known x S0 Hwf Hin)
          as (S1 & -> & ? & ? & _).
        by exists true, S1.
      + exists false, S0. by rewrite remove_subject_unknown.
    - destruct (decide (x ∈ display_all_subjects S0)) as [Hin|Hout];
        [destruct (decide (y ∈ display_all_subjects S0)) as [Hy|Hy]|].
      + exists false, S0. rewrite update_course_code_stays; auto.
      + destruct (update_course_code_moves x y S0 Hwf Hin Hy)
          as (S1 & g & _ & -> & ? & ? & _).
        by exists true, S1.
      + exists false, S0. rewrite update_course_code_stays; auto. }
  destruct Hstep as (r & S1 & Hr & Hwf1 & Hsz).
  destruct (IH S1 Hwf1) as (S' & Hrun & Hwf' & Hsz').
  exists S'. simpl. rewrite Hr. split_and!; [done|done|congruence].
Qed.

(** X23. On a well-formed registry of subjects, adding a course code that
    is not listed returns True, lists it beside the others, maps it to a
    new registry of languages of size 8 and raises the count by one;
    afterwards the code is found and adding it again returns False and
    changes nothing. *)
Theorem add_new_subject_registers (x : string) (d : option Languages)
    (S0 : Subjects) :
  Subjects_wf S0 ->
  x ∉ display_all_subjects S0 ->
  exists S', add_new_subject x S0 = RDone true S' /\
    Subjects_wf S' /\
    display_all_subjects S' ≡ₚ x :: display_all_subjects S0 /\
    subject_list S' = <[x := Languages_init 8]> (subject_list S0) /\
    number_of_subjects S' = number_of_subjects S0 + 1 /\
    check_subject_exists x S' = RDone true S' /\
    Subjects_get_or_default x d S' = RDone (Some (Languages_init 8)) S' /\
    add_new_subject x S' = RDone false S'.
Proof.
  intros Hwf Hout.
  destruct (add_new_subject_fresh x S0 Hwf Hout)
    as (S' & Hadd & Hwf' & _ & Hmap & Hnum & Hperm).
  assert (Hin : x ∈ display_all_subjects S').
  { rewrite Hperm. by left. }
  exists S'. split_and!; try done.
  - rewrite check_subject_exists_run by done.
    by rewrite bool_decide_eq_true_2.
  - rewrite Subjects_get_or_default_run by done.
    by rewrite Hmap, lookup_insert_eq.
  - by apply add_new_subject_known.
Qed.

(** X24. On a well-formed registry of subjects, removing a listed course
    code returns True, takes it out of the table and of the dict and
    lowers the count by one; afterwards the code is not found, a lookup
    gives the default, and removing it again returns False and changes
    nothing. *)
Theorem remove_subject_unregisters (x : string) (d : option Languages)
    (S0 : Subjects) :
  Subjects_wf S0 ->
  x ∈ display_all_subjects S0 ->
  exists S', remove_subject x S0 = RDone true S' /\
    Subjects_wf S' /\
    display_all_subjects S0 ≡ₚ x :: display_all_subjects S' /\
    (x ∉ display_all_subjects S') /\
    subject_list S' = delete x (subject_list S0) /\
    number_of_subjects S' = number_of_subjects S0 - 1 /\
    check_subject_exists x S' = RDone false S' /\
    Subjects_get_or_default x d S' = RDone d S' /\
    remove_subject x S' = RDone false S'.
Proof.
  intros Hwf Hin.
  destruct (remove_subject_known x S0 Hwf Hin)
    as (S' & Hrm & Hwf' & _ & Hmap & Hnum & Hperm).
  assert (Hout : x ∉ display_all_subjects S').
  { pose proof (display_table_NoDup _ _ (proj1 Hwf)) as Hnd.
    unfold display_all_subjects in Hperm. rewrite Hperm in Hnd.
    by apply NoDup_cons in Hnd as [? _]. }
  exists S'. split_and!; try done.
  - rewrite check_subject_exists_run by done.
    by rewrite bool_decide_eq_false_2.
  - rewrite Subjects_get_or_default_run by done.
    by rewrite Hmap, lookup_delete_eq.
  - by apply remove_subject_unknown.
Qed.

(** X25. On a well-formed registry of subjects, renaming a listed course
    code to one that is not listed returns True: the new code takes the
    place of the old one in the listing, is mapped to the registry of
    languages the old code had, the old code is found no more, and the
    count is unchanged. *)
Theorem update_course_code_renames (old_code new_code : string)
    (d : option Languages) (S0 : Subjects) :
  Subjects_wf S0 ->
  old_code ∈ display_all_subjects S0 ->
  new_code ∉ display_all_subjects S0 ->
  exists S' languages,
    subject_list S0 !! old_code = Some languages /\
    update_course_code old_code new_code S0 = RDone true S' /\
    Subjects_wf S' /\
    old_code :: display_all_subjects S'
    ≡ₚ new_code :: display_all_subjects S0 /\
    number_of_subjects S' = number_of_subjects S0 /\
    Subjects_get_or_default new_code d S' = RDone (Some languages) S' /\
    check_subject_exists old_code S' = RDone false S' /\
    Subjects_get_or_default old_code d S' = RDone d S'.
Proof.
  intros Hwf Hold Hnew.
  destruct (update_course_code_moves old_code new_code S0 Hwf Hold Hnew)
    as (S' & languages & Hl & Hup & Hwf' & _ & Hmap & Hnum & Hperm).
  assert (Hne : new_code <> old_code) by by intros ->.
  assert (Hgone : old_code ∉ display_all_subjects S').
  { pose proof (display_table_NoDup _ _ (proj1 Hwf)) as Hnd.
    intros Hin.
    assert (Hnd' : NoDup (new_code :: display_all_subjects S0)).
    { apply NoDup_cons. by split. }
    rewrite <- Hperm in Hnd'. by apply NoDup_cons in Hnd' as [? _]. }
  exists S', languages. split_and!; try done.
  - rewrite Subjects_get_or_default_run by done.
    by rewrite Hmap, lookup_insert_eq.
  - rewrite check_subject_exists_run by done.
    by rewrite bool_decide_eq_false_2.
  - rewrite Subjects_get_or_default_run by done.
    by rewrite Hmap, lookup_insert_ne, lookup_delete_eq.
Qed.

(** X26. On a well-formed registry of subjects, [update_course_code]
    returns False and changes nothing when the old code is not listed or
    the new code is listed already, so also when both codes are the
    same. *)
Theorem update_course_code_refuses (old_code new_code : string)
    (S0 : Subjects) :
  Subjects_wf S0 ->
  old_code ∉ display_all_subjects S0 \/ new_code ∈ display_all_subjects S0
  \/ old_code = new_code ->
  update_course_code old_code new_code S0 = RDone false S0.
Proof.
  intros Hwf Hcase. apply update_course_code_stays; [done|].
  destruct Hcase as [?|[?|<-]]; [by left | by right|].
  destruct (decide (old_code ∈ display_all_subjects S0)); [by right | by left].
Qed.

(** X27. Starting from a new registry of subjects of positive size, no
    sequence of [add_new_subject], [remove_subject] and
    [update_course_code] calls raises; the registry it leaves displays each
    course code once, counts them in [number_of_subjects], so [is_empty]
    is True exactly when nothing is displayed, and its dict has an entry
    exactly for the displayed codes. *)
Theorem subject_run_keeps_registry (size : nat) (ops : list subject_op) :
  (0 < size)%nat ->
  exists S', subject_run ops (Subjects_init size) = RDone tt S' /\
    s_size S' = size /\
    NoDup (display_all_subjects S') /\
    number_of_subjects S' = Z.of_nat (length (display_all_subjects S')) /\
    Subjects_is_empty S' = bool_decide (display_all_subjects S' = []) /\
    forall x, x ∈ display_all_subjects S' <-> is_Some (subject_list S' !! x).
Proof.
  intros Hpos.
  destruct (subject_run_wf ops _ (Subjects_init_wf size Hpos))
    as (S' & Hrun & (Hwf & Hdom & Hnum) & Hsz).
  exists S'. split_and!; try done.
  - by apply (display_table_NoDup (s_size S')).
  - unfold Subjects_is_empty, display_all_subjects. rewrite Hnum.
    apply bool_decide_ext. destruct (display_table (s_table S')); simpl.
    + done.
    + split; [lia | done].
  - intros x. unfold display_all_subjects.
    by rewrite elem_of_display_table, Hdom.
Qed.

(** ** Marks updated on a roster *)

Lemma chain_update {N} (nxt : N -> option addr) (st : list N) hd l
    (a : addr) n n' :
  chain nxt st hd l ->
  st !! a = Some n -> nxt n' = nxt n ->
  chain nxt (<[a := n']> st) hd l.
Proof.
  intros Hc Ha Hnx. induction Hc as [|b nb l Hb _ IH]; [constructor|].
  destruct (decide (a = b)) as [->|Hne].
  - rewrite Ha in Hb. injection Hb as ->.
    apply (chain_cons nxt _ b n'); [|by rewrite Hnx].
    apply list_lookup_insert_eq. by eapply lookup_lt_Some.
  - apply (chain_cons nxt _ b nb); [|done].
    by rewrite list_lookup_insert_ne.
Qed.

Lemma search_from_at fuel s sid : forall hd al1 a al2 l1 x,
  chain m_next (member_store s) hd (al1 ++ a :: al2) ->
  Forall2 (node_holds (member_store s)) al1 l1 ->
  Forall (fun y => student_id_of y ≠ sid) l1 ->
  node_holds (member_store s) a x ->
  student_id_of x = sid ->
  (length al1 < fuel)%nat ->
  search_from fuel hd sid s = Ok (Some a) s.
Proof.
  induction fuel as [|fuel IH]; intros hd al1 a al2 l1 x Hc Hall Hno Hx Hid Hf;
    [lia|].
  destruct al1 as [|b al1]; simpl in Hc.
  - inversion Hc as [|? n ? Ha Hrest]; subst. simpl.
    mrun (member_at_ok _ _ _ Ha).
    destruct Hx as (n' & Hn' & Hxs & _).
    rewrite Ha in Hn'. injection Hn' as <-.
    by rewrite decide_True by (by rewrite <- Hxs).
  - inversion Hc as [|? n ? Hb Hrest]; subst. simpl.
    inversion Hall as [|? y ? l0 Hy Hall0]; subst.
    inversion Hno as [|? ? Hyid Hno0]; subst.
    mrun (member_at_ok _ _ _ Hb).
    destruct Hy as (n' & Hn' & Hys & _).
    rewrite Hb in Hn'. injection Hn' as <-.
    rewrite decide_False by (by rewrite <- Hys in Hyid).
    apply (IH _ al1 a al2 l0 x); try done. simpl in Hf. lia.
Qed.

(** X28.  The driver's update of a member's marks, [search_member_id]
    followed by [update_marks] on the node found: the first student of the
    roster with the id gets the new marks and the label that goes with them,
    the roster is otherwise as before, and the counters of the group are not
    touched; so when the new marks are of another tier, counters that agreed
    with the roster no longer do. *)
Theorem update_marks_leaves_counters (fuel gi : nat) (sid : Z)
    (new_marks : Q) (s : Groups) (l1 l2 : list student) (x : student) :
  roster_holds s gi (l1 ++ x :: l2) ->
  Forall (fun y => student_id_of y ≠ sid) l1 ->
  student_id_of x = sid ->
  (length l1 < fuel)%nat ->
  exists s',
    update_member_marks fuel gi sid new_marks s = Ok tt s' /\
    roster_holds s' gi (l1 ++ with_marks x new_marks :: l2) /\
    group_nodes s' = group_nodes s /\
    counters s' gi = counters s gi /\
    (label_of new_marks ≠ label_of (student_marks x) ->
     counters s gi = Some (counters_of (l1 ++ x :: l2)) ->
     counters s' gi
     ≠ Some (counters_of (l1 ++ with_marks x new_marks :: l2))).
Proof.
  intros (g & al & Hg & Hc & Hall) Hno Hid Hf.
  apply Forall2_app_inv_r in Hall as (al1 & al' & Hall1 & Hall' & ->).
  inversion Hall' as [|a ? al2 ? Hx Hall2]; subst al'.
  pose proof Hx as (n & Hn & Hxs & Hxl).
  assert (Hlen : length al1 = length l1) by (by eapply Forall2_length).
  assert (Hrun : search_member_id fuel gi (student_id_of x) s = Ok (Some a) s).
  { unfold search_member_id. mrun (group_at_ok _ _ _ Hg).
    apply (search_from_at _ _ _ _ al1 a al2 l1 x); try done.
    - by subst sid.
    - lia. }
  subst sid. unfold update_member_marks. mrun Hrun.
  mrun (member_at_ok _ _ _ Hn). unfold modify.
  eexists. split; [reflexivity|].
  pose proof (chain_NoDup _ _ _ _ Hc) as Hnd.
  apply NoDup_app in Hnd as (_ & Hd1 & Hnd2).
  apply NoDup_cons in Hnd2 as [Hd2 _].
  assert (Hkeep : forall b z, b ≠ a ->
            node_holds (member_store s) b z ->
            node_holds (<[a := update_marks n new_marks]> (member_store s))
              b z).
  { intros b z Hne (nb & Hb & Hz). exists nb.
    by rewrite list_lookup_insert_ne. }
  split_and!.
  - exists g, (al1 ++ a :: al2). simpl. split; [done|]. split.
    + by apply (chain_update m_next _ _ _ a n).
    + apply Forall2_app.
      * apply Forall2_same_length_lookup. split; [by eapply Forall2_length|].
        intros i b z Hb Hz. apply Hkeep.
        -- intros ->. apply (Hd1 a); [by eapply list_elem_of_lookup_2|left].
        -- eapply (Forall2_lookup_lr _ al1 l1); eauto.
      * constructor.
        -- exists (update_marks n new_marks). split.
           ++ apply list_lookup_insert_eq. by eapply lookup_lt_Some.
           ++ rewrite <- Hxs. done.
        -- apply Forall2_same_length_lookup.
           split; [by eapply Forall2_length|].
           intros i b z Hb Hz. apply Hkeep.
           ++ intros ->. apply Hd2. by eapply list_elem_of_lookup_2.
           ++ eapply (Forall2_lookup_lr _ al2 l2); eauto.
  - done.
  - done.
  - intros Hlb Hc0 Hc1.
    assert (Hc2 : counters s gi
                  = Some (counters_of (l1 ++ with_marks x new_marks :: l2)))
      by exact Hc1.
    rewrite Hc0 in Hc2. injection Hc2 as El Em Eh _.
    rewrite !tier_count_app, !tier_count_cons in El, Em, Eh.
    change (student_marks (with_marks x new_marks)) with new_marks
      in El, Em, Eh.
    destruct (label_of new_marks), (label_of (student_marks x));
      repeat (case_decide; try congruence); lia.
Qed.


(** ** The further properties on the driver's scenario *)

Lemma add_member_appends_witness :
  exists s',
    add_member 7 0 Amanda.1.1.2 Amanda.1.2 Amanda.2 Amanda.1.1.1
      after_departures = Ok true s' /\
    roster_holds s' 0 [Emma; Yogini; Fathima; Geetha; Amanda] /\
    counters s' 0
    = Some (counters_of [Emma; Yogini; Fathima; Geetha; Amanda]).
Proof.
  destruct (add_member_appends 7 0 Amanda after_departures
              [Emma; Yogini; Fathima; Geetha]
              (counters_of [Emma; Yogini; Fathima; Geetha]))
    as (s' & Hrun & Hr & _ & Hc & _).
  - show_roster [3; 4; 5; 6]%nat.
  - reflexivity.
  - simpl. lia.
  - exists s'. split; [exact Hrun|]. split; [exact Hr|]. by apply Hc.
Defined.

Lemma Member_delete_member_removes_witness :
  exists s',
    Member_delete_member 7 0 4 two_groups = Ok true s' /\
    roster_holds s' 0 [Amanda; Bethany; Emma; Yogini; Fathima; Geetha] /\
    counters s' 0
    = Some (counters_of [Amanda; Bethany; Emma; Yogini; Fathima; Geetha]).
Proof.
  destruct (Member_delete_member_removes 7 0 4 two_groups
              [Amanda; Bethany] [Emma; Yogini; Fathima; Geetha] Deborah
              (counters_of [Amanda; Bethany; Deborah; Emma; Yogini; Fathima;
                            Geetha]))
    as (s' & Hrun & Hr & _ & Hc & _).
  - show_roster [0; 1; 2; 3; 4; 5; 6]%nat.
  - by repeat constructor.
  - reflexivity.
  - reflexivity.
  - simpl. lia.
  - exists s'. split; [exact Hrun|]. split; [exact Hr|]. by apply Hc.
Defined.

Lemma Member_delete_member_absent_witness :
  Member_delete_member 7 0 99 two_groups = Ok false two_groups.
Proof.
  apply (Member_delete_member_absent 7 0 99 two_groups
           [Amanda; Bethany; Deborah; Emma; Yogini; Fathima; Geetha]).
  - show_roster [0; 1; 2; 3; 4; 5; 6]%nat.
  - by repeat constructor.
  - simpl. lia.
Defined.

Lemma search_member_id_first_witness :
  exists r,
    search_member_id 7 0 4 two_groups = Ok r two_groups /\
    exists a, r = Some a /\ node_holds (member_store two_groups) a Deborah.
Proof.
  destruct (search_member_id_first 7 0 4 two_groups
              [Amanda; Bethany; Deborah; Emma; Yogini; Fathima; Geetha])
    as (r & Hrun & Hm).
  - show_roster [0; 1; 2; 3; 4; 5; 6]%nat.
  - simpl. lia.
  - exists r. split; [exact Hrun | exact Hm].
Defined.

Lemma merge_groups_joins_witness :
  exists s',
    merge_groups 7 1 2 after_departures = Ok true s' /\
    roster_holds s' 0 [Emma; Yogini; Fathima; Geetha; Devika; Alex; Sarah] /\
    counters s' 0 = counters after_departures 0 /\
    roster_holds s' 1 [].
Proof.
  destruct (merge_groups_joins 7 1 2 after_departures 0 1
              [Emma; Yogini; Fathima; Geetha] [Devika; Alex; Sarah])
    as (s' & Hrun & Hr & Hc & Hv & _).
  - reflexivity.
  - reflexivity.
  - eexists _, _, [3; 4; 5; 6]%nat, [7; 8; 9]%nat.
    split; [reflexivity|]. split; [reflexivity|].
    split; [show_chain|]. split; [show_chain|].
    split.
    { repeat (constructor; [eexists; split; [reflexivity|by split]|]).
      constructor. }
    split.
    { repeat (constructor; [eexists; split; [reflexivity|by split]|]).
      constructor. }
    intros a Ha Hb. apply list_elem_of_In in Ha, Hb. simpl in Ha, Hb. lia.
  - done.
  - simpl. lia.
  - exists s'. split; [exact Hrun|]. split; [exact Hr|]. split; [exact Hc|].
    apply Hv. by vm_compute.
Defined.

Lemma merge_groups_raises_witness :
  merge_groups 7 9 1 two_groups = Raise AttributeError two_groups.
Proof. apply (merge_groups_raises 7 9 1 two_groups). by left. Defined.

Lemma merge_groups_shared_tail_diverges_witness :
  merge_groups 100 1 1 two_groups = OutOfFuel.
Proof.
  apply (merge_groups_shared_tail_diverges 100 1 1 two_groups 0 0).
  - reflexivity.
  - reflexivity.
  - eexists _, _, [0; 1; 2; 3; 4; 5; 6]%nat, [0; 1; 2; 3; 4; 5; 6]%nat, 6%nat.
    split; [reflexivity|]. split; [reflexivity|].
    split; [show_chain|]. split; [show_chain|].
    split; [reflexivity|]. by repeat constructor.
Defined.

Lemma remove_group_clears_witness :
  exists s',
    remove_group 1 two_groups = Ok true s' /\
    roster_holds s' 0 [] /\
    search_group_id 1 s' = Ok (Some 0%nat) s' /\
    no_of_groups s' = no_of_groups two_groups.
Proof.
  destruct (remove_group_clears 1 two_groups) as [Hfound _].
  destruct (Hfound 0%nat _ eq_refl eq_refl)
    as (s' & Hrun & _ & Hr & _ & Hs & _ & _ & Hn & _).
  exists s'. by split_and!.
Defined.

Lemma Groups_delete_member_backfills_witness :
  exists s',
    Groups_delete_member 7 1 5 with_waiting = Ok tt s' /\
    roster_holds s' 0 [Yogini; Fathima; Geetha; Deborah] /\
    queue_holds s' mid [] /\
    counters s' 0 = Some (counters_of [Yogini; Fathima; Geetha; Deborah]).
Proof.
  destruct (Groups_delete_member_backfills 7 1 5 with_waiting 0
              [] [Yogini; Fathima; Geetha] Emma
              (counters_of [Emma; Yogini; Fathima; Geetha]) [Deborah])
    as (s' & Hrun & (Hr & Hq & Hc) & _).
  - reflexivity.
  - show_roster [3; 4; 5; 6]%nat.
  - constructor.
  - reflexivity.
  - reflexivity.
  - show_queue [14%nat].
  - simpl. lia.
  - exists s'. split; [exact Hrun|]. split; [exact Hr|]. split; [exact Hq|].
    exact Hc.
Defined.

Lemma create_new_group_slot_witness :
  exists s',
    create_new_group 7 waiting_nine = Ok (Some 0%nat) s' /\
    roster_holds s' 0
      [Amanda; Bethany; Deborah; Emma; Yogini; Fathima; Geetha] /\
    queue_holds s' high [] /\ queue_holds s' mid [Sarah; Michael] /\
    queue_holds s' low [] /\
    no_of_groups s' = 1 /\
    group_meta <$> group_nodes s' = [(1, [])].
Proof.
  destruct (create_new_group_slot 7 waiting_nine
              [Amanda; Bethany] [] [Deborah; Emma; Yogini] [Sarah; Michael]
              [Fathima; Geetha] [])
    as (r & gi & s' & Hrun & Hr & Hh & Hm & Hl & -> & Hmeta & _ & -> & Hn).
  - show_queue [0; 1]%nat.
  - show_queue [2; 3; 4; 5; 6]%nat.
  - show_queue [7; 8]%nat.
  - reflexivity.
  - reflexivity.
  - reflexivity.
  - lia.
  - simpl. lia.
  - simpl. lia.
  - simpl. lia.
  - exists s'. by split_and!.
Defined.

Lemma reshuffle_edge_cases_witness :
  reshuffle (@rev addr) 14 9 1 two_groups = Ok NotFound two_groups.
Proof.
  destruct (reshuffle_edge_cases (@rev addr) 14 9 1 two_groups) as [H _].
  - intros l. symmetry. apply Permutation_rev.
  - apply H. by left.
Defined.

Lemma reshuffle_both_groups_witness :
  exists s' l1' l2',
    reshuffle (@rev addr) 7 1 2 after_departures = Ok (Reshuffled 0 1) s' /\
    roster_holds s' 0 l1' /\ roster_holds s' 1 l2' /\
    l1' ++ l2' ≡ₚ [Emma; Yogini; Fathima; Geetha; Devika; Alex; Sarah] /\
    tier_count high l1' = 2 /\ tier_count mid l1' = 3 /\
    tier_count low l1' = 2 /\
    counters s' 0 = Some (counters_of l1').
Proof.
  destruct (reshuffle_both_groups (@rev addr) 7 after_departures 1 2 0 1
              [Emma; Yogini; Fathima; Geetha] [Devika; Alex; Sarah])
    as (s' & l1' & l2' & Hrun & H1 & H2 & Hp & Hc & _ & Hh & Hm & Hl & _).
  - intros l. symmetry. apply Permutation_rev.
  - lia.
  - reflexivity.
  - reflexivity.
  - show_roster [3; 4; 5; 6]%nat.
  - show_roster [7; 8; 9]%nat.
  - done.
  - simpl. lia.
  - exists s', l1', l2'. by split_and!.
Defined.

Lemma condition_checker_lone_group_witness :
  condition_checker (@rev addr) 14 one_low_rated = Ok tt one_low_rated.
Proof.
  apply (condition_checker_lone_group (@rev addr) 14 one_low_rated 0).
  - repeat (apply Forall_cons; split; [by eexists|]). apply Forall_nil_2.
  - intros [|[|gj]]; vm_compute; try tauto.
    all: intros (_ & [H|[H|H]] & _); by apply H.
  - reflexivity.
Defined.

Lemma update_marks_leaves_counters_witness :
  exists s',
    update_member_marks 7 0 5 79 two_groups = Ok tt s' /\
    roster_holds s' 0
      [Amanda; Bethany; Deborah; with_marks Emma 79; Yogini; Fathima;
       Geetha] /\
    counters s' 0 = counters two_groups 0 /\
    counters s' 0
    ≠ Some (counters_of [Amanda; Bethany; Deborah; with_marks Emma 79;
                         Yogini; Fathima; Geetha]).
Proof.
  destruct (update_marks_leaves_counters 7 0 5 79 two_groups
              [Amanda; Bethany; Deborah] [Yogini; Fathima; Geetha] Emma)
    as (s' & Hrun & Hr & _ & Hc & Hstale).
  - show_roster [0; 1; 2; 3; 4; 5; 6]%nat.
  - by repeat constructor.
  - reflexivity.
  - simpl. lia.
  - exists s'. split; [exact Hrun|]. split; [exact Hr|]. split; [exact Hc|].
    apply Hstale; [by vm_compute | reflexivity].
Defined.

Lemma condition_checker_two_groups_witness :
  exists s1 s' l1' l2',
    reshuffle (@rev addr) 14 1 2 both_low_rated = Ok (Reshuffled 0 1) s1 /\
    reshuffle (@rev addr) 14 2 1 s1 = Ok (Reshuffled 1 0) s' /\
    condition_checker (@rev addr) 14 both_low_rated = Ok tt s' /\
    length (member_store s') = 42%nat /\
    roster_holds s' 0 l1' /\ roster_holds s' 1 l2' /\
    valid_composition l1' /\ valid_composition l2' /\
    group_meta <$> group_nodes s'
    = [(1, [NumInt 1; NumFloat 1.5]); (2, [NumInt 1; NumFloat 1.5])].
Proof.
  destruct (condition_checker_two_groups (@rev addr) 14 both_low_rated 0 1
              1 2
              [Amanda; Bethany; Deborah; Emma; Yogini; Fathima; Geetha]
              [Devika; Alex; Sarah; Michael; Ignacio; Hannah; Bartholomew])
    as (s1 & s' & l1' & l2' & Hrun1 & Hrun2 & Hrun & Hlen & H1 & H2 & _ & V1
        & V2 & _ & _ & Hm).
  - intros l. symmetry. apply Permutation_rev.
  - apply (bool_decide_unpack _). by vm_compute.
  - repeat (apply Forall_cons; split; [by eexists|]). apply Forall_nil_2.
  - intros [|[|gj]]; vm_compute; try tauto.
    all: intros (_ & [H|[H|H]] & _); by apply H.
  - reflexivity.
  - reflexivity.
  - reflexivity.
  - show_roster [0; 1; 2; 3; 4; 5; 6]%nat.
  - show_roster [7; 8; 9; 10; 11; 12; 13]%nat.
  - reflexivity.
  - reflexivity.
  - lia.
  - exists s1, s', l1', l2'. by split_and!.
Defined.

Lemma condition_checker_removes_witness :
  condition_checker (@rev addr) 14 odd_group
  = Raise IndexError (swept odd_group) /\
  group_nodes (swept odd_group) = [mkGroupListNode 1 Member_init []].
Proof.
  destruct (condition_checker_removes (@rev addr) 14 odd_group) as [Hrun _].
  - apply (bool_decide_unpack _). by vm_compute.
  - repeat (apply Forall_cons; split; [by eexists|]). apply Forall_nil_2.
  - vm_compute. lia.
  - split; [exact Hrun | reflexivity].
Defined.

(** ** The registries on concrete keys *)

Lemma two_languages_wf : Languages_wf two_languages.
Proof.
  destruct (language_run_wf [AddLanguage "English"; AddLanguage "Tamil"] _
              (Languages_init_wf 8 ltac:(lia))) as (L & Hrun & Hwf & _).
  unfold two_languages. by rewrite Hrun.
Qed.

Lemma two_subjects_wf : Subjects_wf two_subjects.
Proof.
  destruct (subject_run_wf [AddSubject "CS101"; AddSubject "MA102"] _
              (Subjects_init_wf 8 ltac:(lia))) as (S' & Hrun & Hwf & _).
  unfold two_subjects. by rewrite Hrun.
Qed.

Ltac decide_listed := apply (bool_decide_unpack _); by vm_compute.

Lemma add_language_registers_witness :
  exists L',
    add_language "Hindi" two_languages = RDone true L' /\
    display_all_languages L'
    ≡ₚ "Hindi"%string :: display_all_languages two_languages /\
    check_language_exists "Hindi" L' = RDone true L' /\
    add_language "Hindi" L' = RDone false L'.
Proof.
  destruct (add_language_registers "Hindi" None two_languages)
    as (L' & Hadd & _ & Hp & _ & Hc & _ & Hdup).
  - exact two_languages_wf.
  - decide_listed.
  - exists L'. by split_and!.
Defined.

Lemma remove_language_unregisters_witness :
  exists L',
    remove_language "Tamil" two_languages = RDone true L' /\
    display_all_languages two_languages
    ≡ₚ "Tamil"%string :: display_all_languages L' /\
    check_language_exists "Tamil" L' = RDone false L' /\
    remove_language "Tamil" L' = RDone false L'.
Proof.
  destruct (remove_language_unregisters "Tamil" None two_languages)
    as (L' & Hrm & _ & Hp & _ & _ & Hc & _ & Hdup).
  - exact two_languages_wf.
  - decide_listed.
  - exists L'. by split_and!.
Defined.

Lemma Languages_lookups_agree_witness :
  check_language_exists "English" two_languages = RDone true two_languages /\
  check_language_exists "Hindi" two_languages = RDone false two_languages /\
  Languages_get_or_default "Hindi" None two_languages
  = RDone None two_languages.
Proof.
  destruct (Languages_lookups_agree "English" None two_languages
              two_languages_wf) as (He & _ & _).
  destruct (Languages_lookups_agree "Hindi" None two_languages
              two_languages_wf) as (Hh & _ & Hno).
  split; [exact He|]. split; [exact Hh|].
  apply Hno. decide_listed.
Defined.

Lemma language_run_keeps_registry_witness :
  exists L,
    language_run [AddLanguage "English"; AddLanguage "Tamil";
                  RemoveLanguage "English"; AddLanguage "Tamil"]
      (Languages_init 8) = RDone tt L /\
    NoDup (display_all_languages L).
Proof.
  destruct (language_run_keeps_registry 8
              [AddLanguage "English"; AddLanguage "Tamil";
               RemoveLanguage "English"; AddLanguage "Tamil"])
    as (L & Hrun & _ & _ & Hnd & _).
  - lia.
  - by exists L.
Defined.

Lemma Languages_zero_size_witness :
  add_language "English" (Languages_init 0)
  = RFail ZeroDivisionError (Languages_init 0).
Proof.
  by destruct (Languages_zero_size "English" None (Languages_init 0) eq_refl)
    as (H & _).
Defined.

Lemma add_new_subject_registers_witness :
  exists S',
    add_new_subject "PH103" two_subjects = RDone true S' /\
    number_of_subjects S' = 3 /\
    check_subject_exists "PH103" S' = RDone true S' /\
    add_new_subject "PH103" S' = RDone false S'.
Proof.
  destruct (add_new_subject_registers "PH103" None two_subjects)
    as (S' & Hadd & _ & _ & _ & Hn & Hc & _ & Hdup).
  - exact two_subjects_wf.
  - decide_listed.
  - exists S'. by split_and!.
Defined.

Lemma remove_subject_unregisters_witness :
  exists S',
    remove_subject "CS101" two_subjects = RDone true S' /\
    number_of_subjects S' = 1 /\
    check_subject_exists "CS101" S' = RDone false S' /\
    remove_subject "CS101" S' = RDone false S'.
Proof.
  destruct (remove_subject_unregisters "CS101" None two_subjects)
    as (S' & Hrm & _ & _ & _ & _ & Hn & Hc & _ & Hdup).
  - exact two_subjects_wf.
  - decide_listed.
  - exists S'. by split_and!.
Defined.

Lemma update_course_code_renames_witness :
  exists S',
    update_course_code "CS101" "CS201" two_subjects = RDone true S' /\
    number_of_subjects S' = 2 /\
    Subjects_get_or_default "CS201" None S'
    = RDone (Some (Languages_init 8)) S' /\
    check_subject_exists "CS101" S' = RDone false S'.
Proof.
  destruct (update_course_code_renames "CS101" "CS201" None two_subjects)
    as (S' & languages & Hl & Hup & _ & _ & Hn & Hnew & Hold & _).
  - exact two_subjects_wf.
  - decide_listed.
  - decide_listed.
  - exists S'. split; [exact Hup|]. split; [exact Hn|]. split; [|exact Hold].
    rewrite Hnew. f_equal.
    assert (E : subject_list two_subjects !! "CS101"
                = Some (Languages_init 8)) by by vm_compute.
    congruence.
Defined.

Lemma update_course_code_refuses_witness :
  update_course_code "CS101" "MA102" two_subjects = RDone false two_subjects /\
  update_course_code "PH103" "CS201" two_subjects = RDone false two_subjects.
Proof.
  split.
  - apply (update_course_code_refuses "CS101" "MA102" two_subjects).
    + exact two_subjects_wf.
    + right. left. decide_listed.
  - apply (update_course_code_refuses "PH103" "CS201" two_subjects).
    + exact two_subjects_wf.
    + left. decide_listed.
Defined.

Lemma subject_run_keeps_registry_witness :
  exists S',
    subject_run [AddSubject "CS101"; AddSubject "MA102";
                 UpdateCode "CS101" "CS201"; RemoveSubject "MA102"]
      (Subjects_init 8) = RDone tt S' /\
    number_of_subjects S' = Z.of_nat (length (display_all_subjects S')) /\
    Subjects_is_empty S' = bool_decide (display_all_subjects S' = []).
Proof.
  destruct (subject_run_keeps_registry 8
              [AddSubject "CS101"; AddSubject "MA102";
               UpdateCode "CS101" "CS201"; RemoveSubject "MA102"])
    as (S' & Hrun & _ & _ & Hn & He & _).
  - lia.
  - by exists S'.
Defined.
